(** * Report execution, snapshot round-trip and time-series loading

    A shallow embedding of
      - [src/evidently/report/report.py]           ([Report])
      - [src/evidently/experimental/monitors.py]   (time-series loaders)
      - [src/evidently/test_preset/classification_binary.py]
                                                   ([generate_tests])
    Python objects are records, mutation of [self] is explicit state
    passing, exceptions are the [Raise] case of [result]. *)

From Stdlib Require Import List String ZArith Bool Lia.
Import ListNotations.
Open Scope string_scope.
Open Scope list_scope.

Set Implicit Arguments.
Set Warnings "-register-all".

(* ------------------------------------------------------------------ *)
(** ** Exceptions and fallible computations *)

(** The exceptions the embedded code can raise.  [ValueError] is the only
    one raised by the two source files themselves; the others come from the
    Python operations they use ([list[i]], attribute access) and from
    collaborators outside the two files. *)
Inductive exn : Type :=
| ValueError (msg : string)
| AttributeError (msg : string)
| IndexError (msg : string)
| CollaboratorError (msg : string).

Inductive result (A : Type) : Type :=
| Ok (a : A)
| Raise (e : exn).

Arguments Ok {A} a.
Arguments Raise {A} e.

Definition bind {A B : Type} (c : result A) (k : A -> result B) : result B :=
  match c with
  | Ok a => k a
  | Raise e => Raise e
  end.

Declare Scope py_scope.
Delimit Scope py_scope with py.
Notation "x <- c ;; k" := (bind c (fun x => k))
  (at level 61, c at next level, right associativity) : py_scope.
Open Scope py_scope.

(** [[f(x) for x in l]] with a fallible [f]: the first failure aborts. *)
Fixpoint map_result {A B : Type} (f : A -> result B) (l : list A) : result (list B) :=
  match l with
  | [] => Ok []
  | x :: xs => y <- f x ;; ys <- map_result f xs ;; Ok (y :: ys)
  end.

(* ------------------------------------------------------------------ *)
(** ** Keys with a decidable equality, Python [dict] and [list] operations *)

Class EqDec (A : Type) : Type := {
  eqb : A -> A -> bool;
  eqb_eq : forall x y, eqb x y = true <-> x = y
}.

#[export] Instance string_EqDec : EqDec string :=
  {| eqb := String.eqb; eqb_eq := String.eqb_eq |}.

#[export] Instance Z_EqDec : EqDec Z :=
  {| eqb := Z.eqb; eqb_eq := Z.eqb_eq |}.

(** A Python [dict]: keys are unique and kept in insertion order. *)
Definition dict (K V : Type) : Type := list (K * V).

Section Dict.
Context {K V : Type} `{EqDec K}.

Fixpoint dict_get (k : K) (d : dict K V) : option V :=
  match d with
  | [] => None
  | (k', v) :: d' => if eqb k k' then Some v else dict_get k d'
  end.

(** [d[k] = v]: overwrite in place, or append a new key at the end. *)
Fixpoint dict_set (k : K) (v : V) (d : dict K V) : dict K V :=
  match d with
  | [] => [(k, v)]
  | (k', v') :: d' =>
      if eqb k k' then (k', v) :: d' else (k', v') :: dict_set k v d'
  end.

Definition dict_mem (k : K) (d : dict K V) : bool :=
  match dict_get k d with Some _ => true | None => false end.

Definition dict_keys (d : dict K V) : list K := map fst d.
Definition dict_values (d : dict K V) : list V := map snd d.
End Dict.

Section PyList.
Context {A : Type} `{EqDec A}.

(** [x in l] *)
Fixpoint list_contains (x : A) (l : list A) : bool :=
  match l with
  | [] => false
  | y :: l' => eqb x y || list_contains x l'
  end.

(** [l.index(x)]: position of the first element equal to [x]. *)
Fixpoint list_index (x : A) (l : list A) : result nat :=
  match l with
  | [] => Raise (ValueError "x is not in list")
  | y :: l' =>
      if eqb y x then Ok O
      else i <- list_index x l' ;; Ok (S i)
  end.
End PyList.

(** [l[i]] for a Python integer [i]: negative positions count from the end,
    a position outside the list raises [IndexError]. *)
Definition list_getitem {A : Type} (l : list A) (i : Z) : result A :=
  let n := Z.of_nat (List.length l) in
  let j := if (i <? 0)%Z then (i + n)%Z else i in
  if ((j <? 0) || (n <=? j))%Z then Raise (IndexError "list index out of range")
  else match nth_error l (Z.to_nat j) with
       | Some x => Ok x
       | None => Raise (IndexError "list index out of range")
       end.

(* ------------------------------------------------------------------ *)
(** ** Data model *)

(** Opaque tabular data and its derived descriptions.  The two files only
    pass these values on to collaborators. *)
Definition DataFrame : Type := list (list (string * string)).
Definition ColumnMapping : Type := list (string * string).
Definition DatasetColumns : Type := list (string * string).
Definition DataDefinition : Type := list (string * string).
Definition Options : Type := list (string * string).
Definition IncludeOptions : Type := list string.
Definition UUID : Type := string.
(** [datetime.datetime], as a position on the time line. *)
Definition datetime : Type := Z.

(** Modelled from the spec: [evidently.base_metric.Metric] is not part of the
    two files.  A ComputationalUnit has the identity (type tag, constructor
    arguments); two units are the same check iff the identity matches. *)
Record Metric : Type := {
  metric_type : string;
  metric_args : list (string * string)
}.

Definition Metric_eq_dec (x y : Metric) : {x = y} + {x <> y}.
Proof.
  decide equality.
  - apply list_eq_dec. decide equality; apply string_dec.
  - apply string_dec.
Defined.

Definition Metric_eqb (x y : Metric) : bool :=
  if Metric_eq_dec x y then true else false.

#[export] Instance Metric_EqDec : EqDec Metric.
Proof.
  refine {| eqb := Metric_eqb |}.
  intros x y. unfold Metric_eqb.
  destruct (Metric_eq_dec x y); split; congruence.
Defined.

(** Modelled from the spec: [Metric.get_id] is not part of the two files.  It
    is the unit identifier used for grouping; [as_pandas] binds it to the
    name [cls], it is the unit's type tag. *)
Definition get_id (m : Metric) : string := metric_type m.

(** The Result of one unit in one run: an immutable value. *)
Definition MetricResult : Type := string.

(** [MetadataValueType = Union[str, Dict[str, str], List[str]]] *)
Inductive MetadataValueType : Type :=
| MStr (s : string)
| MDict (d : dict string string)
| MList (l : list string).

(** [InputData(reference_data, current_data, reference_additional_features,
    current_additional_features, column_mapping, data_definition)] *)
Record InputData : Type := {
  reference_data : option DataFrame;
  current_data : DataFrame;
  reference_additional_features : option DataFrame;
  current_additional_features : option DataFrame;
  column_mapping : ColumnMapping;
  data_definition : DataDefinition
}.

(** The objects that can stand in a configuration list or be emitted by a
    preset or a generator, as the [isinstance] tests of [Report.run] tell them
    apart.  [cls] is [item.__class__.__name__], [str] is [str(item)]. *)
Inductive pyobj : Type :=
| PyMetric (m : Metric)
| PyGenerator (cls str : string) (generate : DatasetColumns -> list pyobj)
| PyPreset (cls : string)
    (generate_metrics : InputData -> DatasetColumns -> list pyobj)
| PyOther (cls str : string).

(** Modelled from the spec: the renderer registry contract,
    [find_renderer(unit_type) -> Renderer] with [render_json] and
    [render_pandas]; a renderer reads the unit and its Result. *)
Record Renderer : Type := {
  render_json : Metric -> MetricResult -> bool ->
                option IncludeOptions -> option IncludeOptions -> string;
  render_pandas : Metric -> MetricResult -> DataFrame
}.

Definition RenderersHolder : Type := dict string Renderer.

(** Modelled from the spec: the run protocol state machine of section 4.2. *)
Inductive States : Type :=
| Uninitialized | Reset | Verified | Running | Complete.

(** Modelled from the spec: [Context] is not part of the two files.  It holds
    the Suite's ordered unit list and the mapping identity -> Result. *)
Record Context : Type := {
  ctx_metrics : list Metric;
  metric_results : dict Metric MetricResult;
  renderers : RenderersHolder;
  ctx_options : Options;
  state : States
}.

(** Modelled from the spec: the Suite owns the Context. *)
Record Suite : Type := { context : Context }.

(** Modelled from the spec: the Snapshot of section 3, [{id, timestamp,
    metadata, tags, options, ordered unit list (type+args+result),
    first_level_indices}]; [metrics_ids] is the field the source fills. *)
Record Snapshot : Type := {
  snap_id : UUID;
  snap_suite : list (Metric * MetricResult);
  metrics_ids : list Z;
  snap_timestamp : datetime;
  snap_metadata : dict string MetadataValueType;
  snap_tags : list string;
  snap_options : Options
}.

(** The attributes of a [Report] instance. *)
Record Report : Type := {
  metrics : list pyobj;
  options : Options;
  timestamp : datetime;
  id : UUID;
  metadata : dict string MetadataValueType;
  tags : list string;
  _columns_info : option DatasetColumns;
  _first_level_metrics : list pyobj;
  _inner_suite : Suite
}.

(* ------------------------------------------------------------------ *)
(** ** Functional updates of the mutable attributes *)

Definition with_metrics (ms : list Metric) (c : Context) : Context :=
  {| ctx_metrics := ms; metric_results := metric_results c;
     renderers := renderers c; ctx_options := ctx_options c; state := state c |}.

Definition with_metric_results (rs : dict Metric MetricResult) (c : Context) : Context :=
  {| ctx_metrics := ctx_metrics c; metric_results := rs;
     renderers := renderers c; ctx_options := ctx_options c; state := state c |}.

Definition with_state (st : States) (c : Context) : Context :=
  {| ctx_metrics := ctx_metrics c; metric_results := metric_results c;
     renderers := renderers c; ctx_options := ctx_options c; state := st |}.

Definition with_metadata (md : dict string MetadataValueType) (r : Report) : Report :=
  {| metrics := metrics r; options := options r; timestamp := timestamp r;
     id := id r; metadata := md; tags := tags r;
     _columns_info := _columns_info r;
     _first_level_metrics := _first_level_metrics r;
     _inner_suite := _inner_suite r |}.

Definition with_columns_info (c : DatasetColumns) (r : Report) : Report :=
  {| metrics := metrics r; options := options r; timestamp := timestamp r;
     id := id r; metadata := metadata r; tags := tags r;
     _columns_info := Some c;
     _first_level_metrics := _first_level_metrics r;
     _inner_suite := _inner_suite r |}.

Definition with_first_level_metrics (l : list pyobj) (r : Report) : Report :=
  {| metrics := metrics r; options := options r; timestamp := timestamp r;
     id := id r; metadata := metadata r; tags := tags r;
     _columns_info := _columns_info r;
     _first_level_metrics := l;
     _inner_suite := _inner_suite r |}.

Definition with_inner_suite (s : Suite) (r : Report) : Report :=
  {| metrics := metrics r; options := options r; timestamp := timestamp r;
     id := id r; metadata := metadata r; tags := tags r;
     _columns_info := _columns_info r;
     _first_level_metrics := _first_level_metrics r;
     _inner_suite := s |}.

(* ------------------------------------------------------------------ *)
(** ** Methods that mutate [self]: state passing with exceptions

    A method returns its outcome together with the instance as the call
    leaves it; after [Raise] the instance keeps every mutation made before
    the exception. *)

Definition Run (A : Type) : Type := Report -> result A * Report.

Definition ret {A : Type} (a : A) : Run A := fun self => (Ok a, self).

Definition raise {A : Type} (e : exn) : Run A := fun self => (Raise e, self).

Definition bindR {A B : Type} (c : Run A) (k : A -> Run B) : Run B :=
  fun self =>
    match c self with
    | (Ok a, self') => k a self'
    | (Raise e, self') => (Raise e, self')
    end.

Notation "c1 >> c2" := (bindR c1 (fun _ => c2))
  (at level 62, right associativity) : py_scope.

(** [for x in l: body(x)] *)
Fixpoint for_each {A : Type} (l : list A) (body : A -> Run unit) : Run unit :=
  match l with
  | [] => ret tt
  | x :: xs => body x >> for_each xs body
  end.

Definition modify (f : Report -> Report) : Run unit :=
  fun self => (Ok tt, f self).

(* ------------------------------------------------------------------ *)
(** ** The Suite and the Report *)

Definition METRIC_GENERATORS : string := "metric_generators".
Definition METRIC_PRESETS : string := "metric_presets".

(** Collaborators outside the two files: dataset preprocessing, the
    computation of one unit, the renderer registry a Suite starts with, the
    clock and the UUID source used at construction time, and the storage
    layer ([os.listdir] and the reading of one snapshot file). *)
Record Collaborators : Type := {
  process_columns : DataFrame -> ColumnMapping -> DatasetColumns;
  create_data_definition :
    option DataFrame -> DataFrame -> ColumnMapping -> DataDefinition;
  additional_features :
    list Metric -> DataFrame -> option DataFrame -> DataDefinition ->
    option DataFrame * option DataFrame;
  calculate : InputData -> Context -> Metric -> result MetricResult;
  DEFAULT_RENDERERS : RenderersHolder;
  now : datetime;
  uuid4 : UUID;
  listdir : string -> list string;
  read_snapshot : string -> result Snapshot
}.

Section Engine.

Variable env : Collaborators.

(** *** Suite *)

(** Modelled from the spec: [Suite(options)], a fresh Context with no unit
    and no Result, in the first state of the run protocol. *)
Definition Suite_init (opts : Options) : Suite :=
  {| context := {| ctx_metrics := []; metric_results := [];
                   renderers := DEFAULT_RENDERERS env; ctx_options := opts;
                   state := Uninitialized |} |}.

(** Modelled from the spec: [Suite.reset], "reset clears Context" and the
    unit list, which [run] then rebuilds. *)
Definition reset (s : Suite) : Suite :=
  {| context := with_state Reset
                  (with_metric_results [] (with_metrics [] (context s))) |}.

(** Modelled from the spec: [Suite.verify], the transition to VERIFIED. *)
Definition verify (s : Suite) : Suite :=
  {| context := with_state Verified (context s) |}.

(** Modelled from the spec: [Suite.add_metric] registers a unit with the
    Suite, whose list is "an ordered sequence of ComputationalUnits" in
    insertion order where "a unit appears at most once"; an object that is
    not a unit has no unit interface and cannot be registered. *)
Definition add_metric (o : pyobj) (s : Suite) : result Suite :=
  match o with
  | PyMetric m =>
      if list_contains m (ctx_metrics (context s)) then Ok s
      else Ok {| context := with_metrics (ctx_metrics (context s) ++ [m])
                              (context s) |}
  | _ => Raise (AttributeError "object has no attribute 'set_context'")
  end.

(** Modelled from the spec: [Suite.create_additional_features], the second
    input-preparation pass over the registered units. *)
Definition create_additional_features (s : Suite) (current : DataFrame)
    (reference : option DataFrame) (dd : DataDefinition)
  : option DataFrame * option DataFrame :=
  additional_features env (ctx_metrics (context s)) current reference dd.

(** Modelled from the spec: "running computes every unit via the Context
    (each unit computed exactly once)", in the order of the unit list; a
    Result once populated is not overwritten. *)
Fixpoint calculate_all (data : InputData) (ms : list Metric) (c : Context)
  : result Context :=
  match ms with
  | [] => Ok c
  | m :: ms' =>
      if dict_mem m (metric_results c) then calculate_all data ms' c
      else r <- calculate env data c m ;;
           calculate_all data ms'
             (with_metric_results (dict_set m r (metric_results c)) c)
  end.

(** Modelled from the spec: [Suite.run_calculate], RUNNING then COMPLETE
    when every unit's Result is available. *)
Definition run_calculate (s : Suite) (data : InputData) : result Suite :=
  c <- calculate_all data (ctx_metrics (context s))
         (with_state Running (context s)) ;;
  Ok {| context := with_state Complete c |}.

(** Modelled from the spec: [Metric.get_result] "fails if called before
    compute"; the Result is looked up in the Context the unit is bound to.
    Every unit of a Report is bound to the Context of its inner Suite. *)
Definition get_result (c : Context) (m : Metric) : result MetricResult :=
  match dict_get m (metric_results c) with
  | Some r => Ok r
  | None => Raise (ValueError "No result found for metric")
  end.

(** Modelled from the spec: [find_metric_renderer], looked up by unit type;
    "missing renderer is a fatal configuration error". *)
Definition find_metric_renderer (ty : string) (rs : RenderersHolder)
  : result Renderer :=
  match dict_get ty rs with
  | Some rd => Ok rd
  | None => Raise (CollaboratorError "No renderer found")
  end.

(** [type(o).__name__] *)
Definition type_name (o : pyobj) : string :=
  match o with
  | PyMetric m => metric_type m
  | PyGenerator cls _ _ => cls
  | PyPreset cls _ => cls
  | PyOther cls _ => cls
  end.

(** A non-unit object has none of the unit methods. *)
Definition as_metric (o : pyobj) : result Metric :=
  match o with
  | PyMetric m => Ok m
  | _ => Raise (AttributeError "object has no attribute 'get_id'")
  end.

(** *** Report: construction and setters *)

Definition set_batch_size (batch_size : string) (self : Report) : Report :=
  with_metadata (dict_set "batch_size" (MStr batch_size) (metadata self)) self.

Definition set_model_id (model_id : string) (self : Report) : Report :=
  with_metadata (dict_set "model_id" (MStr model_id) (metadata self)) self.

Definition set_reference_id (reference_id : string) (self : Report) : Report :=
  with_metadata (dict_set "reference_id" (MStr reference_id) (metadata self)) self.

Definition set_dataset_id (dataset_id : string) (self : Report) : Report :=
  with_metadata (dict_set "dataset_id" (MStr dataset_id) (metadata self)) self.

Definition opt_apply {A : Type} (f : A -> Report -> Report) (o : option A)
    (self : Report) : Report :=
  match o with Some a => f a self | None => self end.

Definition or_else {A : Type} (o : option A) (d : A) : A :=
  match o with Some a => a | None => d end.

(** [Report.__init__].  Modelled from the spec for the part done by
    [ReportBase.__init__(options, timestamp)]: the options given or the
    default ones, the timestamp given or the current time. *)
Definition Report_init (metrics0 : list pyobj) (options0 : option Options)
    (timestamp0 : option datetime) (id0 : option UUID)
    (metadata0 : option (dict string MetadataValueType))
    (tags0 : option (list string))
    (model_id reference_id batch_size dataset_id : option string) : Report :=
  let opts := or_else options0 [] in
  let self :=
    {| metrics := metrics0; options := opts;
       timestamp := or_else timestamp0 (now env);
       id := or_else id0 (uuid4 env);
       metadata := or_else metadata0 [];
       tags := or_else tags0 [];
       _columns_info := None;
       _first_level_metrics := [];
       _inner_suite := Suite_init opts |} in
  opt_apply set_dataset_id dataset_id
    (opt_apply set_reference_id reference_id
       (opt_apply set_batch_size batch_size
          (opt_apply set_model_id model_id self))).

(** *** Report.run *)

(** [self._first_level_metrics.append(metric)] *)
Definition append_first_level (o : pyobj) : Run unit :=
  modify (fun self =>
    with_first_level_metrics (_first_level_metrics self ++ [o]) self).

(** [self._inner_suite.add_metric(metric)] *)
Definition inner_add_metric (o : pyobj) : Run unit :=
  fun self =>
    match add_metric o (_inner_suite self) with
    | Ok s => (Ok tt, with_inner_suite s self)
    | Raise e => (Raise e, self)
    end.

(** [if KEY not in self.metadata: self.metadata[KEY] = []]
    [self.metadata[KEY].append(name)] *)
Definition record_provenance (key name : string) : Run unit :=
  fun self =>
    let md := if dict_mem key (metadata self) then metadata self
              else dict_set key (MList []) (metadata self) in
    match dict_get key md with
    | Some (MList l) =>
        (Ok tt, with_metadata (dict_set key (MList (l ++ [name])) md) self)
    | _ => (Raise (AttributeError "object has no attribute 'append'"),
            with_metadata md self)
    end.

(** One element emitted by a generator at the top level of the
    configuration: a unit becomes first-level and is registered, anything
    else raises. *)
Definition run_generated (item_str : string) (metric : pyobj) : Run unit :=
  match metric with
  | PyMetric _ => append_first_level metric >> inner_add_metric metric
  | _ => raise (ValueError
                  (String.append "Incorrect metric type in generator " item_str))
  end.

(** The list [metrics] a preset builds: a nested generator is resolved at
    once, any other element is kept as it is. *)
Definition preset_metrics (generated : list pyobj) (columns : DatasetColumns)
  : list pyobj :=
  flat_map (fun metric_item =>
              match metric_item with
              | PyGenerator _ _ generate => generate columns
              | _ => [metric_item]
              end) generated.

(** The body of [for item in self.metrics]. *)
Definition run_item (data : InputData) (columns : DatasetColumns)
    (item : pyobj) : Run unit :=
  match item with
  | PyGenerator cls str generate =>
      for_each (generate columns) (run_generated str) >>
      record_provenance METRIC_GENERATORS cls
  | PyPreset cls generate_metrics =>
      for_each (preset_metrics (generate_metrics data columns) columns)
        (fun metric => append_first_level metric >> inner_add_metric metric) >>
      record_provenance METRIC_PRESETS cls
  | PyMetric _ =>
      append_first_level item >> inner_add_metric item
  | PyOther _ _ =>
      raise (ValueError
        "Incorrect item instead of a metric or metric preset was passed to Report")
  end.

(** [Report.run(reference_data, current_data, column_mapping)].  An absent
    [current_data] is [None]. *)
Definition run (reference : option DataFrame) (current : option DataFrame)
    (mapping : option ColumnMapping) : Run unit :=
  let mapping := or_else mapping [] in
  match current with
  | None => raise (ValueError "Current dataset should be present")
  | Some current =>
      let columns := process_columns env current mapping in
      modify (with_columns_info columns) >>
      modify (fun self => with_inner_suite (reset (_inner_suite self)) self) >>
      modify (fun self => with_inner_suite (verify (_inner_suite self)) self) >>
      let dd := create_data_definition env reference current mapping in
      let data :=
        {| reference_data := reference; current_data := current;
           reference_additional_features := None;
           current_additional_features := None;
           column_mapping := mapping; data_definition := dd |} in
      (fun self => for_each (metrics self) (run_item data columns) self) >>
      let dd := create_data_definition env reference current mapping in
      fun self =>
        let '(curr_add, ref_add) :=
          create_additional_features (_inner_suite self) current reference dd in
        let data :=
          {| reference_data := reference; current_data := current;
             reference_additional_features := ref_add;
             current_additional_features := curr_add;
             column_mapping := mapping; data_definition := dd |} in
        match run_calculate (_inner_suite self) data with
        | Ok s => (Ok tt, with_inner_suite s self)
        | Raise e => (Raise e, self)
        end
  end.


(** *** Report views *)

(** One element of the list under ["metrics"]:
    [{"metric": metric_id, "result": ...}]. *)
Record MetricEntry : Type := {
  entry_metric : string;
  entry_result : string
}.

(** [d.get(k)] of [include or {}] *)
Definition include_get (d : option (dict string IncludeOptions)) (k : string)
  : option IncludeOptions :=
  dict_get k (or_else d []).

(** Modelled from the spec: [renderer.render_json(metric, ...)] and
    [renderer.render_pandas(metric)] read the unit's Result through the
    Context the unit is bound to, the Context of the inner Suite. *)
Definition renderer_render_json (rd : Renderer) (c : Context) (m : Metric)
    (include_render : bool) (include exclude : option IncludeOptions)
  : result string :=
  r <- get_result c m ;;
  Ok (render_json rd m r include_render include exclude).

Definition renderer_render_pandas (rd : Renderer) (c : Context) (m : Metric)
  : result DataFrame :=
  r <- get_result c m ;;
  Ok (render_pandas rd m r).

(** [Report.as_dict(include_render, include, exclude)] *)
Definition as_dict (self : Report) (include_render : bool)
    (include exclude : option (dict string IncludeOptions))
  : result (dict string (list MetricEntry)) :=
  let c := context (_inner_suite self) in
  entries <- map_result
    (fun metric =>
       renderer <- find_metric_renderer (type_name metric) (renderers c) ;;
       m <- as_metric metric ;;
       let metric_id := get_id m in
       res <- renderer_render_json renderer c m include_render
                (include_get include metric_id)
                (include_get exclude metric_id) ;;
       Ok {| entry_metric := metric_id; entry_result := res |})
    (_first_level_metrics self) ;;
  Ok [("metrics", entries)].

(** [pd.concat(val)]: the frames one after the other; pandas refuses an
    empty list. *)
Definition pd_concat (val : list DataFrame) : result DataFrame :=
  match val with
  | [] => Raise (ValueError "No objects to concatenate")
  | _ => Ok (List.concat val)
  end.

(** [metrics[k].append(v)] on a [defaultdict(list)] *)
Definition defaultdict_append {V : Type} (k : string) (v : V)
    (d : dict string (list V)) : dict string (list V) :=
  match dict_get k d with
  | Some l => dict_set k (l ++ [v]) d
  | None => dict_set k [v] d
  end.

(** The loop of [as_pandas] over the first-level units. *)
Fixpoint as_pandas_collect (c : Context) (group : option string)
    (l : list pyobj) (acc : dict string (list DataFrame))
  : result (dict string (list DataFrame)) :=
  match l with
  | [] => Ok acc
  | metric :: l' =>
      renderer <- find_metric_renderer (type_name metric) (renderers c) ;;
      m <- as_metric metric ;;
      let metric_id := get_id m in
      match group with
      | Some g =>
          if negb (eqb metric_id g) then as_pandas_collect c group l' acc
          else df <- renderer_render_pandas renderer c m ;;
               as_pandas_collect c group l' (defaultdict_append metric_id df acc)
      | None =>
          df <- renderer_render_pandas renderer c m ;;
          as_pandas_collect c group l' (defaultdict_append metric_id df acc)
      end
  end.

(** [Union[Dict[str, pd.DataFrame], pd.DataFrame]] *)
Inductive PandasView : Type :=
| Frame (df : DataFrame)
| FrameDict (d : dict string DataFrame).

(** [Report.as_pandas(group)] *)
Definition as_pandas (self : Report) (group : option string)
  : result PandasView :=
  collected <- as_pandas_collect (context (_inner_suite self)) group
                 (_first_level_metrics self) [] ;;
  res <- map_result (fun '(cls, val) => df <- pd_concat val ;; Ok (cls, df))
           collected ;;
  match group, res with
  | None, [(_, df)] => Ok (Frame df)
  | None, _ => Ok (FrameDict res)
  | Some g, _ =>
      match dict_get g res with
      | None => Raise (ValueError
                  (String.append "Metric group "
                     (String.append g " not found in this report")))
      | Some df => Ok (Frame df)
      end
  end.


(** *** Snapshot capture and restore *)

(** Modelled from the spec: [ReportBase._get_snapshot] ([capture]) is not
    part of the two files.  It "flattens the Suite's full unit list (not
    just first-level) with each unit's constructor arguments and computed
    Result" and carries id, timestamp, metadata, tags and options; the
    first-level indices are filled by the subclass. *)
Definition ReportBase_get_snapshot (self : Report) : result Snapshot :=
  let c := context (_inner_suite self) in
  units <- map_result (fun m => r <- get_result c m ;; Ok (m, r))
             (ctx_metrics c) ;;
  Ok {| snap_id := id self; snap_suite := units; metrics_ids := [];
        snap_timestamp := timestamp self; snap_metadata := metadata self;
        snap_tags := tags self; snap_options := options self |}.

(** [snapshot.suite.metrics]: the ordered unit list of a snapshot. *)
Definition suite_metrics (snapshot : Snapshot) : list Metric :=
  map fst (snap_suite snapshot).

(** [snapshot.suite.metrics.index(m)]: an object that is not a unit equals
    no element of the list. *)
Definition index_of (l : list Metric) (o : pyobj) : result Z :=
  match o with
  | PyMetric m => i <- list_index m l ;; Ok (Z.of_nat i)
  | _ => Raise (ValueError "x is not in list")
  end.

(** [Report._get_snapshot] *)
Definition _get_snapshot (self : Report) : result Snapshot :=
  snapshot <- ReportBase_get_snapshot self ;;
  ids <- map_result (index_of (suite_metrics snapshot))
           (_first_level_metrics self) ;;
  Ok {| snap_id := snap_id snapshot; snap_suite := snap_suite snapshot;
        metrics_ids := ids;
        snap_timestamp := snap_timestamp snapshot;
        snap_metadata := snap_metadata snapshot;
        snap_tags := snap_tags snapshot;
        snap_options := snap_options snapshot |}.

(** Modelled from the spec: [snapshot.suite.to_context] is not part of the
    two files.  It "reconstructs the full unit list with their stored
    Results already populated (no recomputation)" and "restores the Context
    from that list". *)
Definition to_context (snapshot : Snapshot) : Context :=
  {| ctx_metrics := suite_metrics snapshot;
     metric_results :=
       fold_left (fun d '(m, r) => dict_set m r d) (snap_suite snapshot) [];
     renderers := DEFAULT_RENDERERS env;
     ctx_options := snap_options snapshot;
     state := Complete |}.

(** [Report._parse_snapshot] *)
Definition _parse_snapshot (snapshot : Snapshot) : result Report :=
  let ctx := to_context snapshot in
  ms <- map_result (list_getitem (ctx_metrics ctx)) (metrics_ids snapshot) ;;
  let ms := map PyMetric ms in
  let report :=
    Report_init ms (Some (snap_options snapshot))
      (Some (snap_timestamp snapshot)) (Some (snap_id snapshot))
      (Some (snap_metadata snapshot)) (Some (snap_tags snapshot))
      None None None None in
  let report := with_first_level_metrics ms report in
  Ok (with_inner_suite {| context := ctx |} report).

(** *** Time-series loaders ([experimental/monitors.py]) *)

(** [T] bound to [Display]: a class that loads an instance from a file and
    whose instances carry a timestamp. *)
Record Display (T : Type) : Type := {
  _load : string -> result T;
  display_timestamp : T -> datetime
}.

(** Modelled from the spec: [Report._load] is inherited from a base class
    outside the two files; it reads one snapshot file and restores it. *)
Definition Report_Display : Display Report :=
  {| _load := fun filepath =>
                snapshot <- read_snapshot env filepath ;;
                _parse_snapshot snapshot;
     display_timestamp := timestamp |}.

(** [os.path.join(path, file)] *)
Definition path_join (path file : string) : string :=
  String.append path (String.append "/" file).

(** The loop of [load_time_series_data] over the listed files. *)
Fixpoint load_files {T : Type} (cls : Display T) (path : string)
    (date_from date_to : option datetime) (files : list string)
    (acc : dict datetime T) : result (dict datetime T) :=
  match files with
  | [] => Ok acc
  | file :: files' =>
      let filepath := path_join path file in
      suite <- _load cls filepath ;;
      let ts := display_timestamp cls suite in
      if match date_from with Some d => (ts <? d)%Z | None => false end
      then load_files cls path date_from date_to files' acc
      else if match date_to with Some d => (ts >? d)%Z | None => false end
      then load_files cls path date_from date_to files' acc
      else load_files cls path date_from date_to files' (dict_set ts suite acc)
  end.

(** [load_time_series_data(path, cls, date_from, date_to)] *)
Definition load_time_series_data {T : Type} (path : string) (cls : Display T)
    (date_from date_to : option datetime) : result (dict datetime T) :=
  load_files cls path date_from date_to (listdir env path) [].


(** A unit object handed to [load_metric_time_series]: its identity and
    the Context it is currently bound to ([metric._context]). *)
Record MetricObject : Type := {
  mo_metric : Metric;
  mo_context : option Context
}.

(** Modelled from the spec: [Metric.set_context] rebinds the unit. *)
Definition set_context (c : Context) (o : MetricObject) : MetricObject :=
  {| mo_metric := mo_metric o; mo_context := Some c |}.

(** [metric.get_result()] on a unit object: through its bound Context. *)
Definition MetricObject_get_result (o : MetricObject) : result MetricResult :=
  match mo_context o with
  | Some c => get_result c (mo_metric o)
  | None => Raise (ValueError "No context is set")
  end.

(** [metric in report._first_level_metrics] *)
Definition first_level_contains (m : Metric) (l : list pyobj) : bool :=
  existsb (fun o => match o with
                    | PyMetric m' => eqb m m'
                    | _ => false
                    end) l.

(** [result[metric][timestamp] = v] on a [defaultdict(dict)] *)
Definition defaultdict_setitem (m : Metric) (ts : datetime) (v : MetricResult)
    (d : dict Metric (dict datetime MetricResult))
  : dict Metric (dict datetime MetricResult) :=
  dict_set m (dict_set ts v (or_else (dict_get m d) [])) d.

(** [for metric in report._first_level_metrics:
       result[metric][timestamp] = metric.get_result()] *)
Fixpoint read_first_level (ts : datetime) (c : Context) (l : list pyobj)
    (acc : dict Metric (dict datetime MetricResult))
  : result (dict Metric (dict datetime MetricResult)) :=
  match l with
  | [] => Ok acc
  | o :: l' =>
      m <- as_metric o ;;
      v <- get_result c m ;;
      read_first_level ts c l' (defaultdict_setitem m ts v acc)
  end.

(** The branch [metrics is None]: the loop over [reports.items()]. *)
Fixpoint read_all (items : list (datetime * Report))
    (acc : dict Metric (dict datetime MetricResult))
  : result (dict Metric (dict datetime MetricResult)) :=
  match items with
  | [] => Ok acc
  | (ts, report) :: items' =>
      acc' <- read_first_level ts (context (_inner_suite report))
                (_first_level_metrics report) acc ;;
      read_all items' acc'
  end.

(** The inner loop of the filtered branch, for one requested unit. *)
Fixpoint read_requested (metric : MetricObject)
    (items : list (datetime * Report))
    (acc : dict Metric (dict datetime MetricResult))
  : result (dict Metric (dict datetime MetricResult)) :=
  match items with
  | [] => Ok acc
  | (ts, report) :: items' =>
      if first_level_contains (mo_metric metric) (_first_level_metrics report)
      then
        let metric := set_context (context (_inner_suite report)) metric in
        v <- MetricObject_get_result metric ;;
        read_requested metric items'
          (defaultdict_setitem (mo_metric metric) ts v acc)
      else read_requested metric items' acc
  end.

(** The outer loop [for metric in metrics]. *)
Fixpoint read_filtered (requested : list MetricObject)
    (items : list (datetime * Report))
    (acc : dict Metric (dict datetime MetricResult))
  : result (dict Metric (dict datetime MetricResult)) :=
  match requested with
  | [] => Ok acc
  | metric :: requested' =>
      acc' <- read_requested metric items acc ;;
      read_filtered requested' items acc'
  end.

(** [load_metric_time_series(path, date_from, date_to, metrics)] *)
Definition load_metric_time_series (path : string)
    (date_from date_to : option datetime)
    (requested : option (list MetricObject))
  : result (dict Metric (dict datetime MetricResult)) :=
  reports <- load_time_series_data path Report_Display date_from date_to ;;
  match requested with
  | None => read_all reports []
  | Some ms => read_filtered ms reports []
  end.


End Engine.

Arguments _load {T} _ _.
Arguments display_timestamp {T} _ _.

(* ------------------------------------------------------------------ *)
(** ** The dashboard view ([Report._build_dashboard_info]) *)

(** What a widget or a graph carries: opaque to [report.py]. *)
Definition Payload : Type := string.
Definition ColorOptions : Type := string.

(** The objects [info_item.get_additional_graphs()] yields, as the
    [isinstance] test of [_build_dashboard_info] tells them apart: an
    [AdditionalGraphInfo] with its [id] and [params], or another graph
    object with an [id]. *)
Inductive AdditionalGraph : Type :=
| AdditionalGraphInfo (graph_id : string) (params : Payload)
| OtherGraph (graph_id : string) (body : Payload).

(** [additional_graph.id] *)
Definition graph_id (g : AdditionalGraph) : string :=
  match g with
  | AdditionalGraphInfo gid _ => gid
  | OtherGraph gid _ => gid
  end.

(** The [info] of a [DetailsInfo]: the [params] of an [AdditionalGraphInfo],
    or a graph object as a whole. *)
Inductive Info : Type :=
| InfoParams (params : Payload)
| InfoGraph (g : AdditionalGraph).

(** [DetailsInfo(title, info, id)] *)
Record DetailsInfo : Type := {
  details_title : string;
  details_info : Info;
  details_id : string
}.

(** A value of the side table: [dataclasses.asdict(info)], or [info] as it
    is. *)
Inductive GraphData : Type :=
| AsDict (info : Info)
| AsIs (info : Info).

(** Modelled from the spec: a display widget ([BaseWidgetInfo]) and the
    "additional graphs" it answers to [get_additional_graphs()]. *)
Record BaseWidgetInfo : Type := {
  widget_content : Payload;
  get_additional_graphs : list AdditionalGraph
}.

(** [DashboardInfo(name, widgets)] *)
Record DashboardInfo : Type := {
  dashboard_name : string;
  widgets : list BaseWidgetInfo
}.

(** Modelled from the spec: what [_build_dashboard_info] asks of code
    outside [report.py]: the color options held by the options of a Report,
    the widgets a renderer makes of a unit and its Result once its
    [color_options] are set ([renderer.render_html]), and
    [dataclasses.is_dataclass]. *)
Record HtmlRendering : Type := {
  color_options : Options -> ColorOptions;
  render_html : Renderer -> ColorOptions -> Metric -> MetricResult ->
                list BaseWidgetInfo;
  is_dataclass : Info -> bool
}.

(** [s.replace(c, "")] for a one-character [c]. *)
Fixpoint str_remove (c : Ascii.ascii) (s : string) : string :=
  match s with
  | EmptyString => EmptyString
  | String a s' =>
      if Ascii.eqb a c then str_remove c s' else String a (str_remove c s')
  end.

Definition hyphen : Ascii.ascii :=
  match "-" with String a _ => a | EmptyString => Ascii.zero end.

Section Dashboard.

Variable env : Collaborators.
Variable rendering : HtmlRendering.

(** [renderer.color_options = color_options; renderer.render_html(test)]:
    the unit's Result is read through the Context, as by the other
    renderings. *)
Definition renderer_render_html (rd : Renderer) (colors : ColorOptions)
    (c : Context) (m : Metric) : result (list BaseWidgetInfo) :=
  r <- get_result c m ;;
  Ok (render_html rendering rd colors m r).

(** The body of [for additional_graph in info_item.get_additional_graphs()]. *)
Definition append_graph (additional_graphs : list DetailsInfo)
    (additional_graph : AdditionalGraph) : list DetailsInfo :=
  match additional_graph with
  | AdditionalGraphInfo gid params =>
      additional_graphs
      ++ [{| details_title := ""; details_info := InfoParams params;
            details_id := gid |}]
  | OtherGraph gid _ =>
      additional_graphs
      ++ [{| details_title := ""; details_info := InfoGraph additional_graph;
            details_id := gid |}]
  end.

(** [for info_item in html_info: for additional_graph in ...] *)
Definition append_graphs (html_info : list BaseWidgetInfo)
    (additional_graphs : list DetailsInfo) : list DetailsInfo :=
  fold_left
    (fun acc info_item => fold_left append_graph (get_additional_graphs info_item) acc)
    html_info additional_graphs.

(** The loop [for test in self._first_level_metrics]. *)
Fixpoint dashboard_collect (c : Context) (colors : ColorOptions) (l : list pyobj)
    (metrics_results : list BaseWidgetInfo) (additional_graphs : list DetailsInfo)
  : result (list BaseWidgetInfo * list DetailsInfo) :=
  match l with
  | [] => Ok (metrics_results, additional_graphs)
  | test :: l' =>
      renderer <- find_metric_renderer (type_name test) (renderers c) ;;
      m <- as_metric test ;;
      html_info <- renderer_render_html renderer colors c m ;;
      dashboard_collect c colors l' (metrics_results ++ html_info)
        (append_graphs html_info additional_graphs)
  end.

(** [{f"{item.id}": asdict(item.info) if is_dataclass(item.info) else item.info
      for item in additional_graphs}] *)
Definition graphs_table (additional_graphs : list DetailsInfo)
  : dict string GraphData :=
  fold_left
    (fun d item =>
       dict_set (details_id item)
         (if is_dataclass rendering (details_info item)
          then AsDict (details_info item) else AsIs (details_info item)) d)
    additional_graphs [].

(** [Report._build_dashboard_info()] *)
Definition _build_dashboard_info (self : Report)
  : result (string * DashboardInfo * dict string GraphData) :=
  let colors := color_options rendering (options self) in
  collected <- dashboard_collect (context (_inner_suite self)) colors
                 (_first_level_metrics self) [] [] ;;
  let '(metrics_results, additional_graphs) := collected in
  Ok (String.append "evidently_dashboard_" (str_remove hyphen (uuid4 env)),
      {| dashboard_name := "Report"; widgets := metrics_results |},
      graphs_table additional_graphs).

End Dashboard.

(* ------------------------------------------------------------------ *)
(** ** [BinaryClassificationTestPreset]
       ([src/evidently/test_preset/classification_binary.py]) *)

(** A statistical test by its name, a float by its literal: the preset only
    hands them on to the tests it builds. *)
Definition PossibleStatTestType : Type := string.
Definition PyFloat : Type := string.

(** The tests the preset can emit, with their constructor arguments. *)
Inductive Test : Type :=
| TestColumnDrift (column_name : string) (stattest : option PossibleStatTestType)
    (stattest_threshold : option PyFloat)
| TestRocAuc
| TestPrecisionScore (probas_threshold : option PyFloat)
| TestRecallScore (probas_threshold : option PyFloat)
| TestF1Score (probas_threshold : option PyFloat)
| TestAccuracyScore (probas_threshold : option PyFloat).

(** The attributes [__init__] stores. *)
Record BinaryClassificationTestPreset : Type := {
  stattest : option PossibleStatTestType;
  stattest_threshold : option PyFloat;
  probas_threshold : option PyFloat
}.

(** [PredictionColumns], as far as the preset reads it. *)
Record PredictionColumns : Type := {
  prediction_probas : option (list string)
}.

(** Modelled from the spec: the two accessors the preset uses on its
    arguments, [columns.utility_columns.target] and
    [data.data_definition.get_prediction_columns()]. *)
Record ColumnAccess : Type := {
  utility_columns_target : DatasetColumns -> option string;
  get_prediction_columns : DataDefinition -> option PredictionColumns
}.

(** [BinaryClassificationTestPreset.generate_tests(data, columns)] *)
Definition generate_tests (access : ColumnAccess)
    (self : BinaryClassificationTestPreset) (data : InputData)
    (columns : DatasetColumns) : result (list Test) :=
  match utility_columns_target access columns with
  | None =>
      Raise (ValueError
               "Target column should be set in mapping and be present in data")
  | Some target =>
      let prediction_columns :=
        get_prediction_columns access (data_definition data) in
      let is_probas_present :=
        match prediction_columns with
        | Some pc =>
            match prediction_probas pc with Some _ => true | None => false end
        | None => false
        end in
      if negb is_probas_present then
        Ok [TestColumnDrift target (stattest self) (stattest_threshold self);
            TestPrecisionScore (probas_threshold self);
            TestRecallScore (probas_threshold self);
            TestF1Score (probas_threshold self);
            TestAccuracyScore (probas_threshold self)]
      else
        Ok [TestColumnDrift target (stattest self) (stattest_threshold self);
            TestRocAuc;
            TestPrecisionScore (probas_threshold self);
            TestRecallScore (probas_threshold self);
            TestAccuracyScore (probas_threshold self);
            TestF1Score (probas_threshold self)]
  end.

(* ------------------------------------------------------------------ *)
(** ** Concrete units, configurations and a storage directory *)

Module Examples.

Definition UnitA : Metric :=
  {| metric_type := "UnitA"; metric_args := [("x", "1")] |}.
Definition UnitB : Metric := {| metric_type := "UnitB"; metric_args := [] |}.
Definition UnitC : Metric := {| metric_type := "UnitC"; metric_args := [] |}.

Definition ColumnUnit (column : string) : Metric :=
  {| metric_type := "ColumnUnit"; metric_args := [("column_name", column)] |}.

(** A preset that emits [[UnitB, UnitC]]. *)
Definition PresetP : pyobj :=
  PyPreset "PresetP" (fun _ _ => [PyMetric UnitB; PyMetric UnitC]).

(** A generator whose second element is a string. *)
Definition BadGenerator : pyobj :=
  PyGenerator "BadGenerator" "<BadGenerator>"
    (fun _ => [PyMetric UnitA; PyOther "str" "oops"; PyMetric UnitB]).

(** A generator that emits one unit per column of the dataset. *)
Definition ColumnGenerator : pyobj :=
  PyGenerator "ColumnGenerator" "<ColumnGenerator>"
    (fun columns => map (fun '(c, _) => PyMetric (ColumnUnit c)) columns).

Definition plain_renderer : Renderer :=
  {| render_json := fun _ r _ _ _ => r;
     render_pandas := fun m r => [[(metric_type m, r)]] |}.

Definition frame_a : DataFrame := [[("a", "1")]].
Definition frame_b : DataFrame := [[("b", "2")]].

Definition snapshot_at (name : UUID) (ts : datetime)
    (units : list (Metric * MetricResult)) (ids : list Z) : Snapshot :=
  {| snap_id := name; snap_suite := units; metrics_ids := ids;
     snap_timestamp := ts; snap_metadata := []; snap_tags := [];
     snap_options := [] |}.

Definition snapshot_one : Snapshot :=
  snapshot_at "one" 5%Z [(UnitA, "0.1")] [0%Z].
Definition snapshot_two : Snapshot :=
  snapshot_at "two" 5%Z [(UnitA, "0.2"); (UnitB, "0.7")] [0%Z; 1%Z].
Definition snapshot_three : Snapshot :=
  snapshot_at "three" 9%Z [(UnitB, "0.9")] [0%Z].

(** The directory ["store"] holds three snapshot files; the first two carry
    the same timestamp. *)
Definition env : Collaborators :=
  {| process_columns := fun df _ =>
       match df with
       | row :: _ => map (fun '(c, _) => (c, "num")) row
       | [] => []
       end;
     create_data_definition := fun _ _ _ => [];
     additional_features := fun _ _ _ _ => (None, None);
     calculate := fun _ _ m => Ok (String.append "result of " (metric_type m));
     DEFAULT_RENDERERS :=
       [("UnitA", plain_renderer); ("UnitB", plain_renderer);
        ("UnitC", plain_renderer); ("ColumnUnit", plain_renderer)];
     now := 0%Z;
     uuid4 := "00000000-0000-4000-8000-000000000000";
     listdir := fun path =>
       if String.eqb path "store" then ["one.json"; "two.json"; "three.json"]
       else [];
     read_snapshot := fun filepath =>
       if String.eqb filepath "store/one.json" then Ok snapshot_one
       else if String.eqb filepath "store/two.json" then Ok snapshot_two
       else if String.eqb filepath "store/three.json" then Ok snapshot_three
       else Raise (CollaboratorError "No such file") |}.

Definition fresh (config : list pyobj) : Report :=
  Report_init env config None None None None None None None None None.

(** The Report [[UnitA, PresetP]] after its run. *)
Definition completed_three : Report :=
  snd (run env None (Some frame_a) None (fresh [PyMetric UnitA; PresetP])).

(** The Report [[UnitA, UnitA]] after its run. *)
Definition completed_same : Report :=
  snd (run env None (Some frame_a) None (fresh [PyMetric UnitA; PyMetric UnitA])).

(** The Report with an empty configuration after its run. *)
Definition completed_empty : Report :=
  snd (run env None (Some frame_a) None (fresh [])).

(** The Report [[ColumnGenerator]] after a run on a dataset with the column
    [a] and a second run, of the same instance, on a dataset with the column
    [b]. *)
Definition rerun_on_other_data : Report :=
  snd (run env None (Some frame_b) None
         (snd (run env None (Some frame_a) None (fresh [ColumnGenerator])))).

(** The Report restored from a snapshot. *)
Definition restored (snapshot : Snapshot) : Report :=
  match _parse_snapshot env snapshot with
  | Ok report => report
  | Raise _ => fresh []
  end.

Definition report_one : Report := restored snapshot_one.
Definition report_two : Report := restored snapshot_two.
Definition report_three : Report := restored snapshot_three.

(** A snapshot whose unit list holds [UnitA] and [UnitB], of which only
    [UnitA] is first-level. *)
Definition snapshot_inner : Snapshot :=
  snapshot_at "inner" 7%Z [(UnitA, "0.1"); (UnitB, "0.7")] [0%Z].

(** The directory ["inner"] holds that one snapshot. *)
Definition env_inner : Collaborators :=
  {| process_columns := process_columns env;
     create_data_definition := create_data_definition env;
     additional_features := additional_features env;
     calculate := calculate env;
     DEFAULT_RENDERERS := DEFAULT_RENDERERS env;
     now := now env;
     uuid4 := uuid4 env;
     listdir := fun path =>
       if String.eqb path "inner" then ["inner.json"] else [];
     read_snapshot := fun filepath =>
       if String.eqb filepath "inner/inner.json" then Ok snapshot_inner
       else Raise (CollaboratorError "No such file") |}.

(** A snapshot whose first index counts from the end of its unit list. *)
Definition snapshot_negative : Snapshot :=
  snapshot_at "negative" 7%Z [(UnitA, "0.1"); (UnitB, "0.7")] [(-1)%Z; 0%Z].

(** A snapshot with an index past the end of its unit list. *)
Definition snapshot_broken : Snapshot :=
  snapshot_at "broken" 7%Z [(UnitA, "0.1")] [0%Z; 1%Z].

(** A Report whose metadata binds the provenance key of presets to a text. *)
Definition mislabelled : Report :=
  Report_init env [PyMetric UnitA; PresetP] None None None
    (Some [("metric_presets", MStr "PresetP")]) None None None None None.

(** A rendering to widgets: one widget per unit, with a graph named after
    the unit and a graph that every unit names "details". *)
Definition plain_rendering : HtmlRendering :=
  {| color_options := fun _ => "default";
     render_html := fun _ _ m r =>
       [{| widget_content := r;
           get_additional_graphs :=
             [OtherGraph (metric_type m) r;
              AdditionalGraphInfo "details" (metric_type m)] |}];
     is_dataclass := fun info =>
       match info with InfoGraph _ => true | InfoParams _ => false end |}.

End Examples.

(* ------------------------------------------------------------------ *)
(** ** Predicates used in the statements *)

(** [date_from <= ts <= date_to], an absent bound is no constraint. *)
Definition in_range (date_from date_to : option datetime) (ts : datetime) : Prop :=
  match date_from with Some d => (d <= ts)%Z | None => True end /\
  match date_to with Some d => (ts <= d)%Z | None => True end.

(** A method leaves a property of the instance alone, whatever its outcome. *)
Definition preserves {A : Type} (P : Report -> Prop) (c : Run A) : Prop :=
  forall self, P self -> P (snd (c self)).

(** The exceptions a method can end with. *)
Definition raises_only {A : Type} (E : exn -> Prop) (c : Run A) : Prop :=
  forall self e, fst (c self) = Raise e -> E e.

(** The exception of the guard at the head of [Report.run]. *)
Definition guard_error : exn := ValueError "Current dataset should be present".

(** The unit list after registering [ms] one by one (see [add_metric]). *)
Definition registered (ms : list Metric) (l : list Metric) : list Metric :=
  fold_left (fun acc m => if list_contains m acc then acc else acc ++ [m]) ms l.

(** The instance after [append] and [add_metric] for each unit of [ms]. *)
Definition expand_units (ms : list Metric) (self : Report) : Report :=
  fold_left
    (fun self m =>
       snd ((append_first_level (PyMetric m) >> inner_add_metric (PyMetric m)) self))
    ms self.

(** The units among a list of objects. *)
Definition units_of (l : list pyobj) : list Metric :=
  flat_map (fun o => match o with PyMetric m => [m] | _ => [] end) l.

(** The instance as the prologue of [run] leaves it: columns stored, Suite
    reset and verified. *)
Definition prepared (env : Collaborators) (current : DataFrame)
    (mapping : option ColumnMapping) (self : Report) : Report :=
  with_inner_suite (verify (reset (_inner_suite self)))
    (with_columns_info (process_columns env current (or_else mapping [])) self).

(** The [InputData] handed to presets during expansion. *)
Definition expansion_data (env : Collaborators) (reference : option DataFrame)
    (current : DataFrame) (mapping : option ColumnMapping) : InputData :=
  {| reference_data := reference; current_data := current;
     reference_additional_features := None;
     current_additional_features := None;
     column_mapping := or_else mapping [];
     data_definition :=
       create_data_definition env reference current (or_else mapping []) |}.

(** The [InputData] of the computation, after the second preparation pass. *)
Definition calculation_data (env : Collaborators) (reference : option DataFrame)
    (current : DataFrame) (mapping : option ColumnMapping) (self : Report)
  : InputData :=
  let dd := create_data_definition env reference current (or_else mapping []) in
  let '(curr_add, ref_add) :=
    create_additional_features env (_inner_suite self) current reference dd in
  {| reference_data := reference; current_data := current;
     reference_additional_features := ref_add;
     current_additional_features := curr_add;
     column_mapping := or_else mapping []; data_definition := dd |}.

(** Every first-level object is a unit with a renderer for its type and a
    Result in the Context: the views of the Report can be rendered. *)
Definition renderable (self : Report) : bool :=
  let c := context (_inner_suite self) in
  forallb (fun o => match o with
                    | PyMetric m =>
                        dict_mem (metric_type m) (renderers c) &&
                        dict_mem m (metric_results c)
                    | _ => false
                    end) (_first_level_metrics self).

(** The table a unit renders to, [renderer.render_pandas(metric)]. *)
Definition frame_of (c : Context) (m : Metric) : DataFrame :=
  match dict_get (metric_type m) (renderers c), dict_get m (metric_results c) with
  | Some rd, Some r => render_pandas rd m r
  | _, _ => []
  end.

(** The units with identifier [g]. *)
Definition with_id (g : string) (ms : list Metric) : list Metric :=
  filter (fun m => eqb (get_id m) g) ms.

(** The [defaultdict] that [as_pandas] fills from a list of units. *)
Definition group_frames (c : Context) (ms : list Metric)
    (acc : dict string (list DataFrame)) : dict string (list DataFrame) :=
  fold_left (fun acc m => defaultdict_append (get_id m) (frame_of c m) acc) ms acc.

(** A [defaultdict] that holds the frames [fs] under the one key [g], and
    no key when there is no frame. *)
Definition single (g : string) (fs : list DataFrame) : dict string (list DataFrame) :=
  match fs with [] => [] | _ => [(g, fs)] end.

(** The two tests of [load_time_series_data] that skip a file. *)
Definition in_rangeb (date_from date_to : option datetime) (ts : datetime) : bool :=
  negb (match date_from with Some d => (ts <? d)%Z | None => false end) &&
  negb (match date_to with Some d => (ts >? d)%Z | None => false end).

(** The instances loaded from the listed files, in listing order. *)
Definition loaded {T : Type} (cls : Display T) (path : string)
    (files : list string) : result (list T) :=
  map_result (fun file => _load cls (path_join path file)) files.

(** The mapping after the loop has gone over the loaded instances. *)
Definition kept {T : Type} (cls : Display T) (date_from date_to : option datetime)
    (suites : list T) (acc : dict datetime T) : dict datetime T :=
  fold_left
    (fun acc suite =>
       if in_rangeb date_from date_to (display_timestamp cls suite)
       then dict_set (display_timestamp cls suite) suite acc
       else acc)
    suites acc.

(** The last listed instance in range with timestamp [t]. *)
Definition last_at {T : Type} (cls : Display T) (date_from date_to : option datetime)
    (t : datetime) (suites : list T) : option T :=
  find (fun suite => Z.eqb (display_timestamp cls suite) t)
    (rev (filter (fun suite =>
                    in_rangeb date_from date_to (display_timestamp cls suite))
            suites)).

(** A method keeps a property of the instance when it returns normally. *)
Definition preserves_ok {A : Type} (P : Report -> Prop) (c : Run A) : Prop :=
  forall self a self', P self -> c self = (Ok a, self') -> P self'.

(** The state of a Report after a completed run: every first-level object is
    a unit registered with the Suite, every registered unit has its Result,
    and the renderer registry is the one a Suite starts with. *)
Definition settled (env : Collaborators) (r : Report) : Prop :=
  let c := context (_inner_suite r) in
  (forall o, In o (_first_level_metrics r) ->
     exists m, o = PyMetric m /\ In m (ctx_metrics c)) /\
  (forall m, In m (ctx_metrics c) -> dict_get m (metric_results c) <> None) /\
  renderers c = DEFAULT_RENDERERS env.

(** The invariant of the loop of [run] on a fresh instance. *)
Definition expanding (env : Collaborators) (self : Report) : Prop :=
  let c := context (_inner_suite self) in
  (forall o, In o (_first_level_metrics self) ->
     exists m, o = PyMetric m /\ In m (ctx_metrics c)) /\
  metric_results c = [] /\
  renderers c = DEFAULT_RENDERERS env.

(** The Result stored for a unit, the empty value when there is none. *)
Definition value_of (c : Context) (m : Metric) : MetricResult :=
  match dict_get m (metric_results c) with Some r => r | None => "" end.

(** The position [l.index(m)] returns, 0 when it raises. *)
Definition position (m : Metric) (l : list Metric) : nat :=
  match list_index m l with Ok i => i | Raise _ => O end.

(** The unit an object is, a unit without arguments when it is none. *)
Definition unit_of (o : pyobj) : Metric :=
  match o with
  | PyMetric m => m
  | _ => {| metric_type := ""; metric_args := [] |}
  end.

(** The snapshot [_get_snapshot] builds from a settled Report. *)
Definition snapshot_of (r : Report) : Snapshot :=
  let c := context (_inner_suite r) in
  {| snap_id := id r;
     snap_suite := map (fun m => (m, value_of c m)) (ctx_metrics c);
     metrics_ids :=
       map (fun o => Z.of_nat (position (unit_of o) (ctx_metrics c)))
         (_first_level_metrics r);
     snap_timestamp := timestamp r;
     snap_metadata := metadata r;
     snap_tags := tags r;
     snap_options := options r |}.

(** [result[m][ts]], when both keys are present. *)
Definition lookup (res : dict Metric (dict datetime MetricResult)) (m : Metric)
    (ts : datetime) : option MetricResult :=
  match dict_get m res with
  | Some inner => dict_get ts inner
  | None => None
  end.

(** The Result read for unit [m] at timestamp [ts] from the items of a
    mapping of Reports: the Result of [m] in the Context of a Report with that
    timestamp whose first-level list contains [m]; a later item wins. *)
Fixpoint hit (items : list (datetime * Report)) (m : Metric) (ts : datetime)
  : option MetricResult :=
  match items with
  | [] => None
  | (ts0, report) :: items' =>
      match hit items' m ts with
      | Some v => Some v
      | None =>
          if Z.eqb ts ts0 &&
             first_level_contains m (_first_level_metrics report)
          then match get_result (context (_inner_suite report)) m with
               | Ok v => Some v
               | Raise _ => None
               end
          else None
      end
  end.

(** Every first-level object of the Report is a unit whose Result can be
    read in the Report's Context. *)
Definition readable (r : Report) : Prop :=
  forall o, In o (_first_level_metrics r) ->
    exists m v, o = PyMetric m /\ get_result (context (_inner_suite r)) m = Ok v.

(** What one item of the configuration puts into the first-level list when
    its processing returns normally (see [run_item]). *)
Definition expansion (data : InputData) (columns : DatasetColumns)
    (item : pyobj) : list pyobj :=
  match item with
  | PyMetric _ => [item]
  | PyGenerator _ _ generate => generate columns
  | PyPreset _ generate_metrics =>
      preset_metrics (generate_metrics data columns) columns
  | PyOther _ _ => []
  end.

(** The provenance list under [key], empty when the key is absent or is not
    bound to a list. *)
Definition provenance (key : string) (md : dict string MetadataValueType)
  : list string :=
  match dict_get key md with
  | Some (MList l) => l
  | _ => []
  end.

(** The class names of the presets, and of the generators, of a
    configuration, in order. *)
Definition preset_names (items : list pyobj) : list string :=
  flat_map (fun item => match item with PyPreset cls _ => [cls] | _ => [] end)
    items.

Definition generator_names (items : list pyobj) : list string :=
  flat_map (fun item => match item with PyGenerator cls _ _ => [cls] | _ => [] end)
    items.

(** The keyword argument of [Report.__init__] that a metadata key stands
    for, if any. *)
Definition explicit_argument
    (model_id reference_id batch_size dataset_id : option string) (k : string)
  : option string :=
  if String.eqb k "model_id" then model_id
  else if String.eqb k "batch_size" then batch_size
  else if String.eqb k "reference_id" then reference_id
  else if String.eqb k "dataset_id" then dataset_id
  else None.

(** What a unit renders to in [as_dict], [renderer.render_json(metric, ...)]. *)
Definition json_of (c : Context) (include_render : bool)
    (include exclude : option (dict string IncludeOptions)) (m : Metric) : string :=
  match dict_get (metric_type m) (renderers c), dict_get m (metric_results c) with
  | Some rd, Some r =>
      render_json rd m r include_render
        (include_get include (get_id m)) (include_get exclude (get_id m))
  | _, _ => ""
  end.

(** The error of [as_pandas] for a group no first-level unit carries. *)
Definition group_not_found (g : string) : exn :=
  ValueError (String.append "Metric group "
                (String.append g " not found in this report")).

(** The tables per identifier, [{cls: pd.concat(val) ...}], of a list of
    units. *)
Definition tables (c : Context) (ms : list Metric) : dict string DataFrame :=
  map (fun p => (fst p, List.concat (snd p))) (group_frames c ms []).

(** The shape [load_metric_time_series] keeps while it fills its result:
    distinct units as keys, and under each a non-empty mapping with distinct
    timestamps. *)
Definition series_shape (res : dict Metric (dict datetime MetricResult)) : Prop :=
  NoDup (dict_keys res) /\
  Forall (fun p => snd p <> [] /\ NoDup (dict_keys (snd p))) res.

(** The widgets a unit renders to, [renderer.render_html(test)]. *)
Definition html_of (rendering : HtmlRendering) (colors : ColorOptions)
    (c : Context) (m : Metric) : list BaseWidgetInfo :=
  match dict_get (metric_type m) (renderers c), dict_get m (metric_results c) with
  | Some rd, Some r => render_html rendering rd colors m r
  | _, _ => []
  end.

(** The [DetailsInfo] made of a graph. *)
Definition details_of (g : AdditionalGraph) : DetailsInfo :=
  {| details_title := "";
     details_info := match g with
                     | AdditionalGraphInfo _ params => InfoParams params
                     | OtherGraph _ _ => InfoGraph g
                     end;
     details_id := graph_id g |}.

(** The value the side table holds for a graph. *)
Definition graph_data (rendering : HtmlRendering) (g : AdditionalGraph)
  : GraphData :=
  if is_dataclass rendering (details_info (details_of g))
  then AsDict (details_info (details_of g))
  else AsIs (details_info (details_of g)).

(** [prediction_columns is not None and
     prediction_columns.prediction_probas is not None] *)
Definition probas_present (access : ColumnAccess) (data : InputData) : Prop :=
  exists pc probas,
    get_prediction_columns access (data_definition data) = Some pc /\
    prediction_probas pc = Some probas.

(** *** A restored Report: one list under two names

    [_parse_snapshot] hands its list [metrics] to the constructor, which
    stores that very list as [self.metrics], and then binds
    [report._first_level_metrics] to it as well: on a restored Report the
    two attributes are one list object, where a constructed Report has two.
    [run] above is the run of a Report with two lists.  On a restored Report
    every [self._first_level_metrics.append(...)] is an append to the list
    the loop [for item in self.metrics] is going over. *)

(** A write to the first-level list seen through [self.metrics]. *)
Definition alias (self : Report) : Report :=
  {| metrics := _first_level_metrics self; options := options self;
     timestamp := timestamp self; id := id self; metadata := metadata self;
     tags := tags self; _columns_info := _columns_info self;
     _first_level_metrics := _first_level_metrics self;
     _inner_suite := _inner_suite self |}.

(** [for item in self.metrics: body] when the body appends to that list.
    Python's list iterator keeps a position [i] into the live list and stops
    when [i] reaches its current length.  [fuel] bounds the number of
    iterations, [None] is a loop that has not finished within it. *)
Fixpoint for_each_shared (fuel i : nat) (body : pyobj -> Run unit)
    (self : Report) : option (result unit * Report) :=
  match fuel with
  | O => None
  | S fuel' =>
      match nth_error (metrics self) i with
      | None => Some (Ok tt, self)
      | Some item =>
          match body item self with
          | (Ok _, self') => for_each_shared fuel' (S i) body (alias self')
          | (Raise e, self') => Some (Raise e, alias self')
          end
      end
  end.

(** [Report.run] on a restored Report: the steps of [run], the loop over
    the shared list. *)
Definition run_restored (env : Collaborators) (fuel : nat)
    (reference : option DataFrame) (current : option DataFrame)
    (mapping : option ColumnMapping) (self : Report)
  : option (result unit * Report) :=
  match current with
  | None => Some (Raise (ValueError "Current dataset should be present"), self)
  | Some current =>
      match for_each_shared fuel 0
              (run_item (expansion_data env reference current mapping)
                 (process_columns env current (or_else mapping [])))
              (prepared env current mapping self) with
      | None => None
      | Some (Raise e, self1) => Some (Raise e, self1)
      | Some (Ok _, self1) =>
          match run_calculate env (_inner_suite self1)
                  (calculation_data env reference current mapping self1) with
          | Ok s => Some (Ok tt, with_inner_suite s self1)
          | Raise e => Some (Raise e, self1)
          end
      end
  end.

(* ------------------------------------------------------------------ *)
(** ** Basic facts: keys, dicts, loops *)

Unset Implicit Arguments.

Section KeyFacts.
Context {K : Type} `{EqDec K}.

Lemma eqb_refl (k : K) : eqb k k = true.
Proof. apply eqb_eq. reflexivity. Qed.

Lemma eqb_neq (k k' : K) : k <> k' -> eqb k k' = false.
Proof.
  intros Hne. destruct (eqb k k') eqn:E; [|reflexivity].
  apply eqb_eq in E. contradiction.
Qed.

Lemma eqb_false_neq (k k' : K) : eqb k k' = false -> k <> k'.
Proof. intros E ->. rewrite eqb_refl in E. discriminate. Qed.

Lemma dict_get_set_eq {V : Type} (k : K) (v : V) (d : dict K V) :
  dict_get k (dict_set k v d) = Some v.
Proof.
  induction d as [|[k' v'] d IH]; simpl.
  - rewrite eqb_refl. reflexivity.
  - destruct (eqb k k') eqn:E; simpl; rewrite E; [reflexivity | exact IH].
Qed.

Lemma dict_get_set_neq {V : Type} (k k0 : K) (v : V) (d : dict K V) :
  k <> k0 -> dict_get k (dict_set k0 v d) = dict_get k d.
Proof.
  intros Hne. induction d as [|[k' v'] d IH]; simpl.
  - rewrite (eqb_neq _ _ Hne). reflexivity.
  - destruct (eqb k0 k') eqn:E; simpl.
    + apply eqb_eq in E. subst k'. rewrite (eqb_neq _ _ Hne). reflexivity.
    + destruct (eqb k k'); [reflexivity | exact IH].
Qed.

Lemma dict_get_In {V : Type} (k : K) (v : V) (d : dict K V) :
  dict_get k d = Some v -> In (k, v) d.
Proof.
  induction d as [|[k' v'] d IH]; simpl; [discriminate|].
  destruct (eqb k k') eqn:E.
  - apply eqb_eq in E. intros [= ->]. left. congruence.
  - intros Hg. right. auto.
Qed.

Lemma dict_get_None {V : Type} (k : K) (d : dict K V) :
  dict_get k d = None <-> ~ In k (dict_keys d).
Proof.
  induction d as [|[k' v'] d IH]; simpl.
  - tauto.
  - destruct (eqb k k') eqn:E.
    + apply eqb_eq in E. subst. split; [discriminate | intros Hn; exfalso; auto].
    + apply eqb_false_neq in E. rewrite IH. unfold dict_keys.
      split; [intros Hn [Heq|Hin]; [congruence | auto] | intros Hn Hin; auto].
Qed.

Lemma list_contains_In (x : K) (l : list K) :
  list_contains x l = true <-> In x l.
Proof.
  induction l as [|y l IH]; simpl.
  - split; [discriminate | tauto].
  - rewrite orb_true_iff, IH, eqb_eq. split; intros [E|E]; auto.
Qed.

End KeyFacts.

Lemma map_result_ext {A B : Type} (f g : A -> result B) (l : list A) :
  (forall x, In x l -> f x = g x) -> map_result f l = map_result g l.
Proof.
  induction l as [|x l IH]; simpl; intros Hext; [reflexivity|].
  rewrite (Hext x (or_introl eq_refl)), IH; auto.
Qed.

Lemma map_result_ok {A B : Type} (f : A -> result B) (g : A -> B) (l : list A) :
  (forall x, In x l -> f x = Ok (g x)) -> map_result f l = Ok (map g l).
Proof.
  induction l as [|x l IH]; simpl; intros Hok; [reflexivity|].
  rewrite (Hok x (or_introl eq_refl)). simpl. rewrite IH; auto.
Qed.

Lemma map_result_length {A B : Type} (f : A -> result B) (l : list A) (l' : list B) :
  map_result f l = Ok l' -> List.length l' = List.length l.
Proof.
  revert l'. induction l as [|x l IH]; simpl; intros l'.
  - intros [= <-]. reflexivity.
  - destruct (f x); simpl; [|discriminate].
    destruct (map_result f l); simpl; [|discriminate].
    intros [= <-]. simpl. f_equal. auto.
Qed.

(** *** Loops over [self] *)

Lemma preserves_bindR {A B : Type} (P : Report -> Prop) (c : Run A) (k : A -> Run B) :
  preserves P c -> (forall a, preserves P (k a)) -> preserves P (bindR c k).
Proof.
  intros Hc Hk self HP. unfold bindR.
  specialize (Hc self HP). destruct (c self) as [[a|e] self']; simpl in *.
  - apply Hk. exact Hc.
  - exact Hc.
Qed.

Lemma preserves_for_each {A : Type} (P : Report -> Prop) (body : A -> Run unit)
    (l : list A) :
  (forall x, preserves P (body x)) -> preserves P (for_each l body).
Proof.
  intros Hbody. induction l as [|x l IH]; simpl.
  - intros self HP. exact HP.
  - apply preserves_bindR; [apply Hbody | intros _; exact IH].
Qed.

Lemma raises_only_bindR {A B : Type} (E : exn -> Prop) (c : Run A) (k : A -> Run B) :
  raises_only E c -> (forall a, raises_only E (k a)) -> raises_only E (bindR c k).
Proof.
  intros Hc Hk self e. unfold bindR.
  specialize (Hc self). destruct (c self) as [[a|e'] self']; simpl in *.
  - apply Hk.
  - intros [= <-]. apply Hc. reflexivity.
Qed.

Lemma raises_only_for_each {A : Type} (E : exn -> Prop) (body : A -> Run unit)
    (l : list A) :
  (forall x, raises_only E (body x)) -> raises_only E (for_each l body).
Proof.
  intros Hbody. induction l as [|x l IH]; simpl.
  - intros self e. discriminate.
  - apply raises_only_bindR; [apply Hbody | intros _; exact IH].
Qed.

(* ------------------------------------------------------------------ *)
(** ** The guard of [Report.run] on the current dataset *)

Section RunGuard.
Variable env : Collaborators.

Lemma expansion_keeps_columns_info (c : option DatasetColumns) data columns item :
  preserves (fun self => _columns_info self = c) (run_item data columns item).
Proof.
  assert (Hstep : forall o,
    preserves (fun self => _columns_info self = c)
      (append_first_level o >> inner_add_metric o)).
  { intros o self HP. unfold bindR, append_first_level, modify, inner_add_metric.
    simpl. destruct (add_metric o _); simpl; exact HP. }
  assert (Hprov : forall key name,
    preserves (fun self => _columns_info self = c) (record_provenance key name)).
  { intros key name self HP. unfold record_provenance.
    destruct (dict_get key _) as [[s|d|l]|]; simpl; exact HP. }
  destruct item as [m|cls str generate|cls generate_metrics|cls str]; simpl.
  - apply Hstep.
  - apply preserves_bindR; [|intros _; apply Hprov].
    apply preserves_for_each. intros [m|? ? ?|? ?|? ?]; simpl;
      try (intros self HP; exact HP). apply Hstep.
  - apply preserves_bindR; [|intros _; apply Hprov].
    apply preserves_for_each. intros o. apply Hstep.
  - intros self HP. exact HP.
Qed.

Lemma expansion_never_raises_guard_error data columns item :
  raises_only (fun e => e <> guard_error) (run_item data columns item).
Proof.
  assert (Hstep : forall o,
    raises_only (fun e => e <> guard_error)
      (append_first_level o >> inner_add_metric o)).
  { intros o self e. unfold bindR, append_first_level, modify, inner_add_metric.
    simpl. destruct o; simpl; try discriminate.
    - destruct (list_contains _ _); simpl; discriminate.
    - intros [= <-]. discriminate.
    - intros [= <-]. discriminate.
    - intros [= <-]. discriminate. }
  assert (Hprov : forall key name,
    raises_only (fun e => e <> guard_error) (record_provenance key name)).
  { intros key name self e. unfold record_provenance.
    destruct (dict_get key _) as [[s|d|l]|]; simpl;
      try discriminate; intros [= <-]; discriminate. }
  destruct item as [m|cls str generate|cls generate_metrics|cls str]; simpl.
  - apply Hstep.
  - apply raises_only_bindR; [|intros _; apply Hprov].
    apply raises_only_for_each. intros [m|? ? ?|? ?|? ?]; simpl;
      try (intros self e [= <-]; discriminate). apply Hstep.
  - apply raises_only_bindR; [|intros _; apply Hprov].
    apply raises_only_for_each. intros o. apply Hstep.
  - intros self e [= <-]. discriminate.
Qed.

Lemma calculate_all_raise data ms c e :
  calculate_all env data ms c = Raise e ->
  exists c' m, calculate env data c' m = Raise e.
Proof.
  revert c. induction ms as [|m ms IH]; simpl; intros c; [discriminate|].
  destruct (dict_mem m (metric_results c)); [apply IH|].
  destruct (calculate env data c m) as [r|e'] eqn:Hc; simpl.
  - apply IH.
  - intros [= <-]. eauto.
Qed.

(** C2.  [run] with [current_data] absent raises the guard's [ValueError]
    ("Current dataset should be present") and leaves the instance exactly as
    it was: nothing is preprocessed, reset, registered or computed.  With a
    present current dataset the call gets past the guard: the column
    description of that dataset is stored on the instance whatever happens
    next, and the guard's error can only come back if the computation of a
    unit, a collaborator, raises that very exception itself. *)
Theorem run_requires_current_data (self : Report)
    (reference : option DataFrame) (mapping : option ColumnMapping) :
  run env reference None mapping self = (Raise guard_error, self) /\
  (forall current,
     _columns_info (snd (run env reference (Some current) mapping self))
       = Some (process_columns env current (or_else mapping []))) /\
  (forall current,
     fst (run env reference (Some current) mapping self) = Raise guard_error ->
     exists data c m, calculate env data c m = Raise guard_error).
Proof.
  split; [reflexivity|]. split; intros current.
  - unfold run.
    set (columns := process_columns env current (or_else mapping [])).
    unfold bindR, modify at 1 2 3. simpl.
    match goal with
    | |- context [for_each ?l ?b ?s] =>
        pose proof (preserves_for_each
          (fun self => _columns_info self = Some columns) b l
          (expansion_keeps_columns_info (Some columns) _ columns) s eq_refl) as HP;
        destruct (for_each l b s) as [[[]|e] self']
    end; simpl in *; [|exact HP].
    destruct (create_additional_features env _ _ _ _) as [curr_add ref_add].
    destruct (run_calculate env _ _); simpl; exact HP.
  - unfold run.
    set (columns := process_columns env current (or_else mapping [])).
    unfold bindR, modify at 1 2 3. simpl.
    match goal with
    | |- context [for_each ?l ?b ?s] =>
        pose proof (raises_only_for_each
          (fun e => e <> guard_error) b l
          (expansion_never_raises_guard_error _ columns) s) as HE;
        destruct (for_each l b s) as [[[]|e] self']
    end; simpl in *.
    + destruct (create_additional_features env _ _ _ _) as [curr_add ref_add].
      unfold run_calculate.
      match goal with
      | |- context [calculate_all env ?d ?ms ?c] =>
          destruct (calculate_all env d ms c) as [c'|e] eqn:Hcalc
      end; simpl; [discriminate|].
      intros [= ->]. apply calculate_all_raise in Hcalc.
      destruct Hcalc as (c' & m & Hc). eauto.
    + intros [= ->]. exfalso. apply (HE guard_error); reflexivity.
Qed.

End RunGuard.

(* ------------------------------------------------------------------ *)
(** ** Expansion of the configuration list *)

Lemma for_each_app {A : Type} (body : A -> Run unit) (l1 l2 : list A) (self : Report) :
  for_each (l1 ++ l2) body self
    = (for_each l1 body >> for_each l2 body) self.
Proof.
  revert self. induction l1 as [|x l1 IH]; simpl; intros self.
  - reflexivity.
  - unfold bindR. destruct (body x self) as [[[]|e] self']; [|reflexivity].
    rewrite IH. reflexivity.
Qed.

Lemma for_each_units (body : pyobj -> Run unit) (ms : list Metric) (self : Report) :
  (forall m, body (PyMetric m)
             = (append_first_level (PyMetric m) >> inner_add_metric (PyMetric m))) ->
  for_each (map PyMetric ms) body self = (Ok tt, expand_units ms self).
Proof.
  intros Hbody. revert self. induction ms as [|m ms IH]; simpl; intros self.
  - reflexivity.
  - change (expand_units (m :: ms) self) with
      (expand_units ms (snd ((append_first_level (PyMetric m) >>
                              inner_add_metric (PyMetric m)) self))).
    rewrite Hbody. unfold bindR at 1.
    assert (Hok : fst ((append_first_level (PyMetric m) >>
                        inner_add_metric (PyMetric m)) self) = Ok tt).
    { unfold bindR, append_first_level, modify, inner_add_metric. simpl.
      destruct (list_contains _ _); reflexivity. }
    destruct ((append_first_level (PyMetric m) >> inner_add_metric (PyMetric m)) self)
      as [[[]|e] self']; simpl in *; [apply IH | discriminate].
Qed.

Lemma expand_units_first_level (ms : list Metric) (self : Report) :
  _first_level_metrics (expand_units ms self)
    = _first_level_metrics self ++ map PyMetric ms.
Proof.
  revert self. induction ms as [|m ms IH]; simpl; intros self.
  - symmetry. apply app_nil_r.
  - unfold expand_units in *. simpl. rewrite IH.
    unfold bindR, append_first_level, modify, inner_add_metric. simpl.
    destruct (list_contains _ _); simpl; rewrite <- app_assoc; reflexivity.
Qed.

Lemma expand_units_ctx_metrics (ms : list Metric) (self : Report) :
  ctx_metrics (context (_inner_suite (expand_units ms self)))
    = registered ms (ctx_metrics (context (_inner_suite self))).
Proof.
  revert self. induction ms as [|m ms IH]; simpl; intros self.
  - reflexivity.
  - unfold expand_units, registered in *. simpl. rewrite IH. f_equal.
    unfold bindR, append_first_level, modify, inner_add_metric. simpl.
    destruct (list_contains _ _); reflexivity.
Qed.

(** What registering units leaves alone. *)
Lemma expand_units_frame (ms : list Metric) (self : Report) :
  let self' := expand_units ms self in
  metadata self' = metadata self /\
  metrics self' = metrics self /\
  _columns_info self' = _columns_info self /\
  options self' = options self /\ timestamp self' = timestamp self /\
  id self' = id self /\ tags self' = tags self /\
  metric_results (context (_inner_suite self'))
    = metric_results (context (_inner_suite self)) /\
  renderers (context (_inner_suite self'))
    = renderers (context (_inner_suite self)) /\
  ctx_options (context (_inner_suite self'))
    = ctx_options (context (_inner_suite self)) /\
  state (context (_inner_suite self')) = state (context (_inner_suite self)).
Proof.
  revert self. induction ms as [|m ms IH]; intros self; simpl.
  - repeat split.
  - unfold expand_units in *. simpl.
    match goal with
    | |- context [fold_left ?f ms ?s0] =>
        specialize (IH s0); simpl in IH;
        destruct IH as (H1 & H2 & H3 & H4 & H5 & H6 & H7 & H8 & H9 & H10 & H11);
        rewrite H1, H2, H3, H4, H5, H6, H7, H8, H9, H10, H11
    end.
    unfold bindR, append_first_level, modify, inner_add_metric. simpl.
    destruct (list_contains _ _); simpl; repeat split.
Qed.

Lemma registered_In (ms l : list Metric) (m : Metric) :
  In m (registered ms l) <-> In m l \/ In m ms.
Proof.
  revert l. induction ms as [|x ms IH]; simpl; intros l.
  - tauto.
  - unfold registered in *. simpl. rewrite IH.
    destruct (list_contains x l) eqn:E.
    + apply list_contains_In in E. split; intros [H|H]; auto.
      * destruct H as [<-|H]; auto.
    + rewrite in_app_iff. simpl. tauto.
Qed.

Lemma registered_NoDup (ms l : list Metric) :
  NoDup l -> NoDup (registered ms l).
Proof.
  revert l. induction ms as [|x ms IH]; simpl; intros l Hnd; [exact Hnd|].
  unfold registered in *. simpl. apply IH.
  destruct (list_contains x l) eqn:E; [exact Hnd|].
  apply NoDup_app; [exact Hnd | constructor; [intros [] | constructor] |].
  intros y Hy [<-|[]]. apply list_contains_In in Hy. congruence.
Qed.

Section Expansion.
Variable env : Collaborators.

(** [run] with a present dataset: the prologue, the loop over the
    configuration, then the computation on the registered units. *)
Lemma run_present (reference : option DataFrame) (current : DataFrame)
    (mapping : option ColumnMapping) (self : Report) :
  run env reference (Some current) mapping self
  = match for_each (metrics self)
            (run_item (expansion_data env reference current mapping)
               (process_columns env current (or_else mapping [])))
            (prepared env current mapping self) with
    | (Ok _, self1) =>
        match run_calculate env (_inner_suite self1)
                (calculation_data env reference current mapping self1) with
        | Ok s => (Ok tt, with_inner_suite s self1)
        | Raise e => (Raise e, self1)
        end
    | (Raise e, self1) => (Raise e, self1)
    end.
Proof.
  unfold run, bindR, modify, prepared, expansion_data, calculation_data. simpl.
  destruct (for_each _ _ _) as [[[]|e] self1]; [|reflexivity].
  destruct (create_additional_features env _ _ _ _) as [curr_add ref_add].
  reflexivity.
Qed.

Lemma generated_stops_at_invalid (str : string) (good : list Metric) (bad : pyobj)
    (rest : list pyobj) (self : Report) :
  (forall m, bad <> PyMetric m) ->
  for_each (map PyMetric good ++ bad :: rest) (run_generated str) self
  = (Raise (ValueError (String.append "Incorrect metric type in generator " str)),
     expand_units good self).
Proof.
  intros Hbad. rewrite for_each_app. unfold bindR at 1.
  rewrite for_each_units by reflexivity. simpl. unfold bindR.
  destruct bad as [m|? ? ?|? ?|? ?]; try reflexivity.
  exfalso. apply (Hbad m). reflexivity.
Qed.

(** *** One item of the configuration *)

Lemma for_each_cons {A : Type} (body : A -> Run unit) (x : A) (l : list A)
    (self : Report) :
  for_each (x :: l) body self
  = match body x self with
    | (Ok _, self') => for_each l body self'
    | (Raise e, self') => (Raise e, self')
    end.
Proof. reflexivity. Qed.

Lemma run_item_unit (data : InputData) (columns : DatasetColumns) (m : Metric)
    (self : Report) :
  run_item data columns (PyMetric m) self = (Ok tt, expand_units [m] self).
Proof.
  unfold expand_units. simpl.
  unfold bindR, append_first_level, modify, inner_add_metric. simpl.
  destruct (list_contains _ _); reflexivity.
Qed.

Lemma run_item_preset (data : InputData) (columns : DatasetColumns) (cls : string)
    (generate_metrics : InputData -> DatasetColumns -> list pyobj)
    (ms : list Metric) (self : Report) :
  preset_metrics (generate_metrics data columns) columns = map PyMetric ms ->
  run_item data columns (PyPreset cls generate_metrics) self
  = record_provenance METRIC_PRESETS cls (expand_units ms self).
Proof.
  intros Hms. simpl. rewrite Hms. unfold bindR at 1.
  rewrite for_each_units by reflexivity. reflexivity.
Qed.

Lemma run_item_generator (data : InputData) (columns : DatasetColumns)
    (cls str : string) (generate : DatasetColumns -> list pyobj)
    (ms : list Metric) (self : Report) :
  generate columns = map PyMetric ms ->
  run_item data columns (PyGenerator cls str generate) self
  = record_provenance METRIC_GENERATORS cls (expand_units ms self).
Proof.
  intros Hms. simpl. rewrite Hms. unfold bindR at 1.
  rewrite for_each_units by reflexivity. reflexivity.
Qed.

Lemma record_provenance_fresh (key name : string) (self : Report) :
  dict_get key (metadata self) = None ->
  record_provenance key name self
  = (Ok tt, with_metadata
              (dict_set key (MList [name])
                 (dict_set key (MList []) (metadata self))) self).
Proof.
  intros Hnone. unfold record_provenance, dict_mem. rewrite Hnone.
  rewrite dict_get_set_eq. reflexivity.
Qed.

Lemma record_provenance_list (key name : string) (l : list string) (self : Report) :
  dict_get key (metadata self) = Some (MList l) ->
  record_provenance key name self
  = (Ok tt, with_metadata (dict_set key (MList (l ++ [name])) (metadata self)) self).
Proof.
  intros Hsome. unfold record_provenance, dict_mem. rewrite Hsome.
  cbv beta iota. rewrite Hsome. reflexivity.
Qed.

(** *** The computation step *)

Lemma calculate_all_inv (data : InputData) (ms : list Metric) (c c' : Context) :
  calculate_all env data ms c = Ok c' ->
  ctx_metrics c' = ctx_metrics c /\ renderers c' = renderers c /\
  ctx_options c' = ctx_options c /\ state c' = state c /\
  (forall m r, dict_get m (metric_results c) = Some r ->
               dict_get m (metric_results c') = Some r) /\
  (forall m, In m ms -> dict_get m (metric_results c') <> None).
Proof.
  revert c. induction ms as [|m ms IH]; simpl; intros c.
  - intros [= <-]. repeat split; auto.
  - unfold dict_mem. destruct (dict_get m (metric_results c)) as [r0|] eqn:Hm.
    + intros Hc. destruct (IH _ Hc) as (H1 & H2 & H3 & H4 & H5 & H6).
      repeat split; auto.
      intros m' [<-|Hin]; [|auto]. rewrite (H5 _ _ Hm). discriminate.
    + destruct (calculate env data c m) as [r|e]; simpl; [|discriminate].
      intros Hc. destruct (IH _ Hc) as (H1 & H2 & H3 & H4 & H5 & H6).
      simpl in *. repeat split; auto.
      * intros m' r' Hg. apply H5.
        rewrite dict_get_set_neq; [exact Hg|]. intros ->. congruence.
      * intros m' [<-|Hin]; [|auto].
        rewrite (H5 m r); [discriminate | apply dict_get_set_eq].
Qed.

Lemma calculate_all_total (data : InputData) (ms : list Metric) (c : Context) :
  (forall c0 m, exists r, calculate env data c0 m = Ok r) ->
  exists c', calculate_all env data ms c = Ok c'.
Proof.
  intros Hcalc. revert c. induction ms as [|m ms IH]; simpl; intros c.
  - eauto.
  - destruct (dict_mem m (metric_results c)); [apply IH|].
    destruct (Hcalc c m) as [r ->]. simpl. apply IH.
Qed.

(** C4.  A fresh Report configured with [[UnitA, PresetP]], where [PresetP]
    emits [[UnitB, UnitC]], run on a present dataset whose units compute:
    the run succeeds, the first-level list is exactly
    [[UnitA, UnitB, UnitC]] in that order, the three units are the units
    registered with the Suite, and the metadata holds the preset's class name
    in the provenance list of presets (key "metric_presets"). *)
Theorem run_expands_unit_and_preset
    (a b c : Metric) (cls : string)
    (generate_metrics : InputData -> DatasetColumns -> list pyobj)
    (options0 : option Options) (timestamp0 : option datetime)
    (id0 : option UUID) (tags0 : option (list string))
    (reference : option DataFrame) (current : DataFrame)
    (mapping : option ColumnMapping) :
  (forall data columns, generate_metrics data columns = [PyMetric b; PyMetric c]) ->
  (forall data c0 m, exists r, calculate env data c0 m = Ok r) ->
  exists self',
    run env reference (Some current) mapping
      (Report_init env [PyMetric a; PyPreset cls generate_metrics]
         options0 timestamp0 id0 None tags0 None None None None)
      = (Ok tt, self') /\
    _first_level_metrics self' = [PyMetric a; PyMetric b; PyMetric c] /\
    (forall m, In m (ctx_metrics (context (_inner_suite self')))
               <-> In m [a; b; c]) /\
    metadata self' = [(METRIC_PRESETS, MList [cls])].
Proof.
  intros Hpreset Hcalc. rewrite run_present.
  set (r0 := prepared env current mapping _).
  change (metrics (Report_init env [PyMetric a; PyPreset cls generate_metrics]
                     options0 timestamp0 id0 None tags0 None None None None))
    with [PyMetric a; PyPreset cls generate_metrics].
  rewrite for_each_cons, run_item_unit, for_each_cons.
  rewrite (run_item_preset _ _ cls generate_metrics [b; c])
    by (rewrite Hpreset; reflexivity).
  set (r2 := expand_units [b; c] (expand_units [a] r0)).
  assert (Hfl : _first_level_metrics r2 = [PyMetric a; PyMetric b; PyMetric c]).
  { unfold r2. rewrite !expand_units_first_level. reflexivity. }
  assert (Hms : ctx_metrics (context (_inner_suite r2))
                = registered [b; c] (registered [a] [])).
  { unfold r2. rewrite !expand_units_ctx_metrics. reflexivity. }
  assert (Hmd : metadata r2 = []).
  { unfold r2.
    destruct (expand_units_frame [b; c] (expand_units [a] r0)) as (-> & _).
    destruct (expand_units_frame [a] r0) as (-> & _). reflexivity. }
  rewrite record_provenance_fresh by (rewrite Hmd; reflexivity).
  rewrite Hmd. cbv beta iota. unfold for_each, ret. cbv beta iota.
  match goal with |- context [run_calculate env ?s ?d] =>
    destruct (calculate_all_total d (ctx_metrics (context s))
                (with_state Running (context s)) (Hcalc d)) as [c' Hc'];
    unfold run_calculate; rewrite Hc'
  end.
  cbv beta iota. unfold bind. eexists. split; [reflexivity|].
  apply calculate_all_inv in Hc'. destruct Hc' as (Hc1 & _).
  cbn [_first_level_metrics with_inner_suite with_metadata _inner_suite context
       with_state ctx_metrics metadata] in *.
  rewrite Hc1, Hfl, Hms. repeat split.
  - intros Hin. apply registered_In in Hin. destruct Hin as [Hin|Hin].
    + apply registered_In in Hin. simpl in *. tauto.
    + simpl in *. tauto.
  - intros Hin. apply registered_In. simpl in Hin.
    destruct Hin as [<-|Hin]; [left; apply registered_In; simpl; auto|].
    right. simpl. tauto.
Qed.


(** *** The first-level list across runs *)

(** [run] only ever appends to the first-level list: whatever the list held
    before the call is still there, in front, after the call, whether the
    call returns or raises. *)
Lemma run_keeps_earlier_first_level (self : Report)
    (reference : option DataFrame) (current : DataFrame)
    (mapping : option ColumnMapping) :
  exists added,
    _first_level_metrics (snd (run env reference (Some current) mapping self))
    = _first_level_metrics self ++ added.
Proof.
  set (P := fun s : Report =>
              exists added,
                _first_level_metrics s = _first_level_metrics self ++ added).
  assert (Hstep : forall o,
            preserves P (append_first_level o >> inner_add_metric o)).
  { intros o s [added Hs].
    unfold bindR, append_first_level, modify, inner_add_metric. simpl.
    destruct (add_metric o _); simpl; exists (added ++ [o]);
      rewrite Hs, app_assoc; reflexivity. }
  assert (Hprov : forall key name, preserves P (record_provenance key name)).
  { intros key name s HP. unfold record_provenance.
    destruct (dict_get key _) as [[?|?|?]|]; simpl; exact HP. }
  assert (Hitem : forall data columns item,
            preserves P (run_item data columns item)).
  { intros data columns [m|cls str generate|cls generate_metrics|cls str]; simpl.
    - apply Hstep.
    - apply preserves_bindR; [|intros _; apply Hprov].
      apply preserves_for_each. intros [m|? ? ?|? ?|? ?]; simpl;
        try (intros s HP; exact HP). apply Hstep.
    - apply preserves_bindR; [|intros _; apply Hprov].
      apply preserves_for_each. intros o. apply Hstep.
    - intros s HP. exact HP. }
  rewrite run_present.
  match goal with
  | |- context [for_each ?l ?b ?s] =>
      assert (H0 : P s) by (exists []; simpl; rewrite app_nil_r; reflexivity);
      pose proof (preserves_for_each P b l (Hitem _ _) s H0) as HP;
      destruct (for_each l b s) as [[[]|e] self1]
  end; simpl in HP; [|exact HP].
  destruct (run_calculate env _ _); simpl; exact HP.
Qed.


End Expansion.

(* ------------------------------------------------------------------ *)
(** ** Expansion on concrete configurations *)

Import Examples.

(** C3 (as stated) fails.  [BadGenerator] emits [UnitA] and then a string:
    the run raises, yet [UnitA] has entered the first-level list, which was
    empty before the run, and is registered with the Suite. *)
Lemma generator_failure_is_not_atomic :
  fst (run env None (Some frame_a) None (fresh [BadGenerator]))
    = Raise (ValueError "Incorrect metric type in generator <BadGenerator>") /\
  _first_level_metrics (fresh [BadGenerator]) = [] /\
  _first_level_metrics
    (snd (run env None (Some frame_a) None (fresh [BadGenerator])))
    = [PyMetric UnitA] /\
  ctx_metrics (context (_inner_suite
    (snd (run env None (Some frame_a) None (fresh [BadGenerator])))))
    = [UnitA].
Proof. repeat split. Qed.

Lemma run_expands_unit_and_preset_witness :
  exists self',
    run env None (Some frame_a) None (fresh [PyMetric UnitA; PresetP])
      = (Ok tt, self') /\
    _first_level_metrics self' = [PyMetric UnitA; PyMetric UnitB; PyMetric UnitC] /\
    (forall m, In m (ctx_metrics (context (_inner_suite self')))
               <-> In m [UnitA; UnitB; UnitC]) /\
    metadata self' = [("metric_presets", MList ["PresetP"])].
Proof.
  apply (run_expands_unit_and_preset env UnitA UnitB UnitC "PresetP"
           (fun _ _ => [PyMetric UnitB; PyMetric UnitC])
           None None None None None frame_a None).
  - reflexivity.
  - intros data c0 m. eexists. reflexivity.
Defined.

(** C8: the code at a failing input.  The same instance, configured with
    [[UnitA, PresetP]], is run twice on the same dataset.  Both runs
    succeed.  The Suite is reset and holds the three units once, but the
    first-level list of the second run is the list of the first run twice
    over, and the preset is recorded twice in the metadata. *)
Theorem rerun_accumulates_first_level :
  fst (run env None (Some frame_a) None (fresh [PyMetric UnitA; PresetP])) = Ok tt /\
  _first_level_metrics
    (snd (run env None (Some frame_a) None (fresh [PyMetric UnitA; PresetP])))
    = [PyMetric UnitA; PyMetric UnitB; PyMetric UnitC] /\
  fst (run env None (Some frame_a) None
         (snd (run env None (Some frame_a) None
                 (fresh [PyMetric UnitA; PresetP])))) = Ok tt /\
  _first_level_metrics
    (snd (run env None (Some frame_a) None
            (snd (run env None (Some frame_a) None
                    (fresh [PyMetric UnitA; PresetP])))))
    = [PyMetric UnitA; PyMetric UnitB; PyMetric UnitC;
       PyMetric UnitA; PyMetric UnitB; PyMetric UnitC] /\
  ctx_metrics (context (_inner_suite
    (snd (run env None (Some frame_a) None
            (snd (run env None (Some frame_a) None
                    (fresh [PyMetric UnitA; PresetP])))))))
    = [UnitA; UnitB; UnitC] /\
  metadata
    (snd (run env None (Some frame_a) None
            (snd (run env None (Some frame_a) None
                    (fresh [PyMetric UnitA; PresetP])))))
    = [("metric_presets", MList ["PresetP"; "PresetP"])].
Proof. repeat split. Qed.

(** A second run on other data leaves first-level units of the first run
    that the reset Suite no longer holds: the snapshot cannot be captured
    and the views cannot be rendered. *)
Lemma rerun_breaks_capture :
  _first_level_metrics rerun_on_other_data
    = [PyMetric (ColumnUnit "a"); PyMetric (ColumnUnit "b")] /\
  ctx_metrics (context (_inner_suite rerun_on_other_data)) = [ColumnUnit "b"] /\
  _get_snapshot rerun_on_other_data = Raise (ValueError "x is not in list") /\
  as_dict rerun_on_other_data false None None
    = Raise (ValueError "No result found for metric").
Proof. repeat split. Qed.

(** C1: the code at a failing input.  A Report configured with a generator
    that emits one unit per column is run on a dataset with the column [a]
    and then, the same instance, on a dataset with the column [b].  Both
    runs return normally, and after the first run capture succeeds.  After
    the second run the first-level list holds the unit of the first run and
    the unit of the second, the Suite holds the unit of the second only, and
    capture raises [ValueError]: for this Report, which has completed a run,
    there is no snapshot to restore. *)
Theorem rerun_cannot_be_captured :
  fst (run env None (Some frame_a) None (fresh [ColumnGenerator])) = Ok tt /\
  (exists snapshot,
     _get_snapshot (snd (run env None (Some frame_a) None (fresh [ColumnGenerator])))
     = Ok snapshot) /\
  fst (run env None (Some frame_b) None
         (snd (run env None (Some frame_a) None (fresh [ColumnGenerator]))))
    = Ok tt /\
  _first_level_metrics rerun_on_other_data
    = [PyMetric (ColumnUnit "a"); PyMetric (ColumnUnit "b")] /\
  ctx_metrics (context (_inner_suite rerun_on_other_data)) = [ColumnUnit "b"] /\
  _get_snapshot rerun_on_other_data = Raise (ValueError "x is not in list").
Proof.
  split; [vm_compute; reflexivity|].
  split; [eexists; vm_compute; reflexivity|].
  repeat split; vm_compute; reflexivity.
Qed.

(* ------------------------------------------------------------------ *)
(** ** The tabular view [as_pandas] *)

Section Views.

Lemma as_pandas_collect_spec (c : Context) (group : option string)
    (l : list pyobj) (acc : dict string (list DataFrame)) :
  forallb (fun o => match o with
                    | PyMetric m =>
                        dict_mem (metric_type m) (renderers c) &&
                        dict_mem m (metric_results c)
                    | _ => false
                    end) l = true ->
  as_pandas_collect c group l acc
  = Ok (group_frames c
          (match group with
           | Some g => with_id g (units_of l)
           | None => units_of l
           end) acc).
Proof.
  revert acc. induction l as [|o l IH]; intros acc Hl.
  - destruct group; reflexivity.
  - simpl in Hl. destruct o as [m|? ? ?|? ?|? ?]; try discriminate.
    apply andb_true_iff in Hl. destruct Hl as [Hm Hl].
    apply andb_true_iff in Hm. destruct Hm as [Hrd Hres].
    unfold dict_mem in Hrd, Hres.
    destruct (dict_get (metric_type m) (renderers c)) as [rd|] eqn:Erd;
      [|discriminate].
    destruct (dict_get m (metric_results c)) as [r|] eqn:Eres; [|discriminate].
    assert (Hframe : frame_of c m = render_pandas rd m r).
    { unfold frame_of. rewrite Erd, Eres. reflexivity. }
    simpl as_pandas_collect. unfold find_metric_renderer. simpl type_name.
    rewrite Erd. simpl bind.
    unfold renderer_render_pandas, get_result. rewrite Eres. simpl bind.
    rewrite <- Hframe.
    destruct group as [g|].
    + simpl units_of. unfold with_id. simpl filter.
      change (@eqb string string_EqDec) with String.eqb.
      destruct (String.eqb (get_id m) g) eqn:Eg; simpl negb; cbv iota.
      * rewrite (IH _ Hl). reflexivity.
      * rewrite (IH _ Hl). reflexivity.
    + rewrite (IH _ Hl). reflexivity.
Qed.

Lemma defaultdict_append_single (g : string) (df : DataFrame) (fs : list DataFrame) :
  defaultdict_append g df (single g fs) = single g (fs ++ [df]).
Proof.
  unfold defaultdict_append, single. destruct fs as [|f fs]; simpl.
  - reflexivity.
  - rewrite String.eqb_refl. reflexivity.
Qed.

Lemma group_frames_single (c : Context) (g : string) (ms : list Metric)
    (fs : list DataFrame) :
  (forall m, In m ms -> get_id m = g) ->
  group_frames c ms (single g fs) = single g (fs ++ map (frame_of c) ms).
Proof.
  revert fs. induction ms as [|m ms IH]; intros fs Hid; simpl.
  - rewrite app_nil_r. reflexivity.
  - unfold group_frames in *. simpl.
    rewrite (Hid m (or_introl eq_refl)), defaultdict_append_single.
    rewrite IH by (intros m' Hin; apply Hid; right; exact Hin).
    rewrite <- app_assoc. reflexivity.
Qed.

Lemma with_id_spec (g : string) (ms : list Metric) (m : Metric) :
  In m (with_id g ms) <-> In m ms /\ get_id m = g.
Proof.
  unfold with_id. rewrite filter_In. simpl. rewrite String.eqb_eq. reflexivity.
Qed.

(** C7.  For a Report whose first-level units can be rendered, [as_pandas]
    with a group that is the identifier of no first-level unit raises
    [ValueError] ("Metric group ... not found in this report"); with a group
    that some first-level unit carries, it returns one table: the rendered
    tables of exactly the first-level units with that identifier, in
    first-level order. *)
Theorem as_pandas_group (self : Report) (g : string) :
  renderable self = true ->
  ((forall m, In m (units_of (_first_level_metrics self)) -> get_id m <> g) ->
   as_pandas self (Some g)
   = Raise (ValueError
              (String.append "Metric group "
                 (String.append g " not found in this report")))) /\
  ((exists m, In m (units_of (_first_level_metrics self)) /\ get_id m = g) ->
   as_pandas self (Some g)
   = Ok (Frame (List.concat
                  (map (frame_of (context (_inner_suite self)))
                     (with_id g (units_of (_first_level_metrics self))))))).
Proof.
  intros Hr. unfold renderable in Hr. unfold as_pandas.
  rewrite (as_pandas_collect_spec _ (Some g) _ [] Hr).
  change (@nil (string * list DataFrame)) with (single g []).
  rewrite group_frames_single by (intros m Hm; apply with_id_spec in Hm; tauto).
  simpl app. simpl bind.
  destruct (with_id g (units_of (_first_level_metrics self))) as [|m0 sel] eqn:Esel.
  - split.
    + intros _. reflexivity.
    + intros (m & Hin & Hid). exfalso.
      assert (Hm : In m (with_id g (units_of (_first_level_metrics self))))
        by (apply with_id_spec; tauto).
      rewrite Esel in Hm. exact Hm.
  - split.
    + intros Hnone. exfalso.
      assert (Hm : In m0 (with_id g (units_of (_first_level_metrics self))))
        by (rewrite Esel; left; reflexivity).
      apply with_id_spec in Hm. destruct Hm as [Hin Hid]. exact (Hnone m0 Hin Hid).
    + intros _. simpl. rewrite String.eqb_refl. reflexivity.
Qed.

(** *** No group: the frames grouped by identifier *)

Lemma defaultdict_append_get (k g : string) (df : DataFrame)
    (acc : dict string (list DataFrame)) :
  dict_get k (defaultdict_append g df acc)
  = if String.eqb g k
    then Some (match dict_get k acc with Some fs => fs | None => [] end ++ [df])
    else dict_get k acc.
Proof.
  unfold defaultdict_append. destruct (String.eqb g k) eqn:E.
  - apply String.eqb_eq in E. subst k.
    destruct (dict_get g acc); apply dict_get_set_eq.
  - apply String.eqb_neq in E.
    destruct (dict_get g acc); apply dict_get_set_neq; congruence.
Qed.

Lemma group_frames_get (c : Context) (ms : list Metric)
    (acc : dict string (list DataFrame)) (k : string) :
  dict_get k (group_frames c ms acc)
  = match dict_get k acc, map (frame_of c) (with_id k ms) with
    | Some fs, sel => Some (fs ++ sel)
    | None, [] => None
    | None, sel => Some sel
    end.
Proof.
  revert acc. induction ms as [|m ms IH]; intros acc.
  - simpl. destruct (dict_get k acc); [rewrite app_nil_r|]; reflexivity.
  - unfold group_frames in *. simpl fold_left. rewrite IH.
    rewrite defaultdict_append_get. unfold with_id. simpl filter.
    change (@eqb string string_EqDec) with String.eqb.
    destruct (String.eqb (get_id m) k).
    + simpl map. destruct (dict_get k acc) as [fs|].
      * rewrite <- app_assoc. reflexivity.
      * reflexivity.
    + reflexivity.
Qed.

Lemma dict_set_Forall {V : Type} (P : string * V -> Prop) (k : string) (v : V)
    (d : dict string V) :
  (forall k', P (k', v)) -> Forall P d -> Forall P (dict_set k v d).
Proof.
  intros Hv Hd. induction Hd as [|[k' v'] d Hp Hd IH]; simpl.
  - constructor; [apply Hv | constructor].
  - destruct (String.eqb k k'); constructor; auto.
Qed.

Lemma group_frames_nonempty (c : Context) (ms : list Metric)
    (acc : dict string (list DataFrame)) :
  Forall (fun p => snd p <> []) acc ->
  Forall (fun p => snd p <> []) (group_frames c ms acc).
Proof.
  revert acc. induction ms as [|m ms IH]; intros acc Hacc; [exact Hacc|].
  unfold group_frames in *. simpl. apply IH. unfold defaultdict_append.
  destruct (dict_get (get_id m) acc) as [fs|]; apply dict_set_Forall; auto.
  - intros k'. simpl. destruct fs; discriminate.
  - intros k'. simpl. discriminate.
Qed.

Lemma concat_groups (d : dict string (list DataFrame)) :
  Forall (fun p => snd p <> []) d ->
  map_result (fun '(cls, val) => df <- pd_concat val ;; Ok (cls, df)) d
  = Ok (map (fun p => (fst p, List.concat (snd p))) d).
Proof.
  intros Hd. apply map_result_ok. intros [cls val] Hin.
  rewrite Forall_forall in Hd. specialize (Hd _ Hin). simpl in *.
  destruct val; [contradiction | reflexivity].
Qed.

Lemma dict_get_map_values {V W : Type} (f : V -> W) (k : string) (d : dict string V) :
  dict_get k (map (fun p => (fst p, f (snd p))) d) = option_map f (dict_get k d).
Proof.
  induction d as [|[k' v] d IH]; simpl; [reflexivity|].
  destruct (String.eqb k k'); [reflexivity | exact IH].
Qed.

(** C9 (as amended).  For a Report whose first-level units can be rendered,
    [as_pandas] with no group returns a bare table exactly in the case of at
    least one first-level unit, all with the same identifier.  It returns a
    mapping from identifier to table otherwise: the empty mapping when there
    is no first-level unit, and one entry per identifier, holding the tables
    of the units with that identifier, when two identifiers differ. *)
Theorem as_pandas_no_group (self : Report) :
  renderable self = true ->
  let c := context (_inner_suite self) in
  let units := units_of (_first_level_metrics self) in
  (units = [] -> as_pandas self None = Ok (FrameDict [])) /\
  (forall g, units <> [] -> (forall m, In m units -> get_id m = g) ->
     as_pandas self None = Ok (Frame (List.concat (map (frame_of c) units)))) /\
  (forall m1 m2, In m1 units -> In m2 units -> get_id m1 <> get_id m2 ->
     exists d, as_pandas self None = Ok (FrameDict d) /\
       forall g, dict_get g d
                 = match with_id g units with
                   | [] => None
                   | ms => Some (List.concat (map (frame_of c) ms))
                   end).
Proof.
  intros Hr c units. unfold renderable in Hr. fold c in Hr.
  assert (Hcollect : as_pandas self None
            = (res <- Ok (map (fun p => (fst p, List.concat (snd p)))
                            (group_frames c units [])) ;;
               match res with
               | [(_, df)] => Ok (Frame df)
               | _ => Ok (FrameDict res)
               end)).
  { unfold as_pandas. fold c.
    rewrite (as_pandas_collect_spec c None _ [] Hr). simpl bind.
    rewrite concat_groups by (apply group_frames_nonempty; constructor).
    reflexivity. }
  rewrite Hcollect. simpl bind. clear Hcollect.
  split; [|split].
  - intros ->. reflexivity.
  - intros g Hne Hid.
    change (@nil (string * list DataFrame)) with (single g []).
    rewrite (group_frames_single c g units [] Hid). simpl app.
    destruct units as [|m ms]; [contradiction|]. reflexivity.
  - intros m1 m2 H1 H2 Hne.
    set (res := map (fun p => (fst p, List.concat (snd p)))
                  (group_frames c units [])).
    assert (Hres : forall g, dict_get g res
                     = match with_id g units with
                       | [] => None
                       | ms => Some (List.concat (map (frame_of c) ms))
                       end).
    { intros g. unfold res. rewrite dict_get_map_values, group_frames_get. simpl.
      destruct (with_id g units); reflexivity. }
    exists res. split; [|exact Hres].
    assert (Hget : forall m, In m units -> dict_get (get_id m) res <> None).
    { intros m Hm. rewrite Hres.
      assert (Hin : In m (with_id (get_id m) units))
        by (apply with_id_spec; tauto).
      destruct (with_id (get_id m) units); [contradiction|]. discriminate. }
    pose proof (Hget m1 H1) as G1. pose proof (Hget m2 H2) as G2.
    clear Hres Hget. destruct res as [|[k v] [|p res]]; try reflexivity.
    simpl in G1, G2.
    destruct (String.eqb (get_id m1) k) eqn:E1; [|contradiction].
    destruct (String.eqb (get_id m2) k) eqn:E2; [|contradiction].
    apply String.eqb_eq in E1, E2. congruence.
Qed.


End Views.

(* ------------------------------------------------------------------ *)
(** ** The tabular view on concrete Reports *)

Lemma as_pandas_group_witness :
  renderable completed_three = true /\
  as_pandas completed_three (Some "UnitZ")
    = Raise (ValueError "Metric group UnitZ not found in this report") /\
  as_pandas completed_three (Some "UnitB")
    = Ok (Frame [[("UnitB", "result of UnitB")]]).
Proof.
  split; [reflexivity|]. split.
  - apply (proj1 (as_pandas_group completed_three "UnitZ" eq_refl)).
    intros m [<-|[<-|[<-|[]]]]; discriminate.
  - apply (proj2 (as_pandas_group completed_three "UnitB" eq_refl)).
    exists UnitB. split; [right; left; reflexivity | reflexivity].
Defined.

Lemma as_pandas_no_group_witness :
  renderable completed_same = true /\
  as_pandas completed_same None
    = Ok (Frame [[("UnitA", "result of UnitA")]; [("UnitA", "result of UnitA")]]).
Proof.
  split; [reflexivity|].
  apply (proj1 (proj2 (as_pandas_no_group completed_same eq_refl)) "UnitA").
  - discriminate.
  - intros m [<-|[<-|[]]]; reflexivity.
Defined.

(** C9 (as stated) fails.  A Report with an empty configuration completes
    its run; it has no first-level unit, hence no two distinct
    identifiers, and [as_pandas] with no group returns a mapping, the empty
    one. *)
Lemma as_pandas_empty_report_is_dict :
  fst (run env None (Some frame_a) None (fresh [])) = Ok tt /\
  _first_level_metrics completed_empty = [] /\
  as_pandas completed_empty None = Ok (FrameDict []).
Proof. repeat split. Qed.

(* ------------------------------------------------------------------ *)
(** ** Loading a directory of snapshots *)

Section Loader.
Variable env : Collaborators.
Context {T : Type} (cls : Display T).

Lemma in_rangeb_spec (date_from date_to : option datetime) (ts : datetime) :
  in_rangeb date_from date_to ts = true <-> in_range date_from date_to ts.
Proof.
  unfold in_rangeb, in_range. rewrite andb_true_iff, !negb_true_iff.
  destruct date_from as [a|], date_to as [b|];
    rewrite ?Z.ltb_ge, ?Z.gtb_ltb, ?Z.ltb_ge; intuition.
Qed.

Lemma load_files_spec (path : string) (date_from date_to : option datetime)
    (files : list string) (acc : dict datetime T) :
  load_files cls path date_from date_to files acc
  = (suites <- loaded cls path files ;;
     Ok (kept cls date_from date_to suites acc)).
Proof.
  revert acc. unfold loaded. induction files as [|file files IH]; intros acc.
  - reflexivity.
  - simpl. destruct (_load cls (path_join path file)) as [suite|e]; simpl;
      [|reflexivity].
    rewrite !IH. destruct (map_result _ files) as [suites|e]; simpl.
    + unfold kept, in_rangeb. simpl.
      destruct date_from as [a|], date_to as [b|]; simpl;
        repeat match goal with
               | |- context [(?x <? ?y)%Z] => destruct (x <? y)%Z
               | |- context [(?x >? ?y)%Z] => destruct (x >? y)%Z
               end; reflexivity.
    + destruct date_from as [a|], date_to as [b|]; simpl;
        repeat match goal with
               | |- context [(?x <? ?y)%Z] => destruct (x <? y)%Z
               | |- context [(?x >? ?y)%Z] => destruct (x >? y)%Z
               end; reflexivity.
Qed.

Lemma find_app {A : Type} (f : A -> bool) (l1 l2 : list A) :
  find f (l1 ++ l2)
  = match find f l1 with Some x => Some x | None => find f l2 end.
Proof.
  induction l1 as [|x l1 IH]; simpl; [reflexivity|].
  destruct (f x); [reflexivity | exact IH].
Qed.

Lemma kept_get (date_from date_to : option datetime) (suites : list T)
    (acc : dict datetime T) (t : datetime) :
  dict_get t (kept cls date_from date_to suites acc)
  = match last_at cls date_from date_to t suites with
    | Some suite => Some suite
    | None => dict_get t acc
    end.
Proof.
  revert acc. induction suites as [|s suites IH]; intros acc.
  - reflexivity.
  - unfold kept, last_at in *. simpl fold_left. simpl filter. rewrite IH.
    destruct (in_rangeb date_from date_to (display_timestamp cls s)).
    + simpl rev. rewrite find_app.
      destruct (find _ (rev _)); [reflexivity|]. simpl.
      destruct (Z.eqb (display_timestamp cls s) t) eqn:E.
      * apply Z.eqb_eq in E. subst t. apply dict_get_set_eq.
      * apply Z.eqb_neq in E. apply dict_get_set_neq. congruence.
    + reflexivity.
Qed.

Lemma last_at_sound (date_from date_to : option datetime) (suites : list T)
    (t : datetime) (s : T) :
  last_at cls date_from date_to t suites = Some s ->
  In s suites /\ display_timestamp cls s = t /\ in_range date_from date_to t.
Proof.
  unfold last_at. intros Hf. apply find_some in Hf. destruct Hf as [Hin Ht].
  apply in_rev, filter_In in Hin. destruct Hin as [Hin Hr].
  apply Z.eqb_eq in Ht. subst t. apply in_rangeb_spec in Hr. auto.
Qed.

Lemma last_at_complete (date_from date_to : option datetime) (suites : list T)
    (s : T) :
  In s suites -> in_range date_from date_to (display_timestamp cls s) ->
  last_at cls date_from date_to (display_timestamp cls s) suites <> None.
Proof.
  intros Hin Hr Hnone. unfold last_at in Hnone.
  assert (Hs : In s (rev (filter (fun suite =>
                 in_rangeb date_from date_to (display_timestamp cls suite))
                 suites))).
  { apply in_rev. rewrite rev_involutive. apply filter_In. split; [exact Hin|].
    apply in_rangeb_spec. exact Hr. }
  pose proof (find_none _ _ Hnone s Hs) as Hf. simpl in Hf.
  rewrite Z.eqb_refl in Hf. discriminate.
Qed.

Lemma dict_set_keys {V : Type} (k : datetime) (v : V) (d : dict datetime V) :
  dict_keys (dict_set k v d)
  = if dict_mem k d then dict_keys d else dict_keys d ++ [k].
Proof.
  unfold dict_mem, dict_keys. induction d as [|[k' v'] d IH]; simpl.
  - reflexivity.
  - destruct (Z.eqb k k') eqn:E; simpl.
    + reflexivity.
    + rewrite IH. destruct (dict_get k d); reflexivity.
Qed.

Lemma kept_NoDup (date_from date_to : option datetime) (suites : list T)
    (acc : dict datetime T) :
  NoDup (dict_keys acc) -> NoDup (dict_keys (kept cls date_from date_to suites acc)).
Proof.
  revert acc. induction suites as [|s suites IH]; intros acc Hnd; [exact Hnd|].
  unfold kept in *. simpl. apply IH.
  destruct (in_rangeb _ _ _); [|exact Hnd].
  rewrite dict_set_keys. unfold dict_mem.
  destruct (dict_get (display_timestamp cls s) acc) eqn:E; [exact Hnd|].
  apply dict_get_None in E.
  apply NoDup_app; [exact Hnd | constructor; [intros [] | constructor] |].
  intros k Hk [<-|[]]. exact (E Hk).
Qed.

Lemma dict_In_get {V : Type} (d : dict datetime V) (k : datetime) (v : V) :
  NoDup (dict_keys d) -> In (k, v) d -> dict_get k d = Some v.
Proof.
  unfold dict_keys. induction d as [|[k' v'] d IH]; simpl; intros Hnd Hin.
  - destruct Hin.
  - inversion Hnd as [|? ? Hnotin Hnd']; subst.
    destruct Hin as [[= -> ->]|Hin].
    + rewrite Z.eqb_refl. reflexivity.
    + destruct (Z.eqb k k') eqn:E; [|auto].
      apply Z.eqb_eq in E. subst k'. exfalso. apply Hnotin.
      apply (in_map fst) in Hin. exact Hin.
Qed.

Lemma NoDup_map_inj {A B : Type} (f : A -> B) (l : list A) (x y : A) :
  NoDup (map f l) -> In x l -> In y l -> f x = f y -> x = y.
Proof.
  induction l as [|z l IH]; simpl; intros Hnd Hx Hy Hf; [destruct Hx|].
  inversion Hnd as [|? ? Hnotin Hnd']; subst.
  destruct Hx as [->|Hx], Hy as [->|Hy]; auto.
  - exfalso. apply Hnotin. rewrite Hf. apply in_map. exact Hy.
  - exfalso. apply Hnotin. rewrite <- Hf. apply in_map. exact Hx.
Qed.

Lemma kept_out_of_range (date_from date_to : option datetime) (suites : list T)
    (acc : dict datetime T) :
  (forall t, in_rangeb date_from date_to t = false) ->
  kept cls date_from date_to suites acc = acc.
Proof.
  intros Hout. revert acc. induction suites as [|s suites IH]; intros acc.
  - reflexivity.
  - unfold kept in *. simpl. rewrite Hout. apply IH.
Qed.

Lemma load_time_series_data_kept (path : string)
    (date_from date_to : option datetime) (suites : list T) :
  loaded cls path (listdir env path) = Ok suites ->
  load_time_series_data env path cls date_from date_to
  = Ok (kept cls date_from date_to suites []).
Proof.
  intros Hl. unfold load_time_series_data. rewrite load_files_spec, Hl.
  reflexivity.
Qed.

(** C5 (as amended).  When every listed file loads, [load_time_series_data]
    returns a mapping in which every entry is a loaded instance under its own
    timestamp, with [date_from <= timestamp <= date_to] (an absent bound is
    no constraint); every loaded instance in range has its timestamp as a
    key, and the key holds the last listed instance in range with that
    timestamp.  So, when no two loaded instances share a timestamp, the
    values are exactly the loaded instances in range.  With
    [date_from = date_to] every key is that timestamp, and with
    [date_from > date_to] the mapping is empty. *)
Theorem load_time_series_data_range (path : string)
    (date_from date_to : option datetime) (suites : list T) :
  loaded cls path (listdir env path) = Ok suites ->
  exists d,
    load_time_series_data env path cls date_from date_to = Ok d /\
    (forall t s, dict_get t d = Some s ->
       In s suites /\ display_timestamp cls s = t /\ in_range date_from date_to t) /\
    (forall s, In s suites ->
       in_range date_from date_to (display_timestamp cls s) ->
       dict_get (display_timestamp cls s) d <> None) /\
    (forall t, dict_get t d = last_at cls date_from date_to t suites) /\
    (NoDup (map (display_timestamp cls) suites) ->
     forall s, In s (dict_values d)
               <-> In s suites /\
                   in_range date_from date_to (display_timestamp cls s)) /\
    (forall a, date_from = Some a -> date_to = Some a ->
       forall t s, dict_get t d = Some s -> t = a) /\
    (forall a b, date_from = Some a -> date_to = Some b -> (b < a)%Z -> d = []).
Proof.
  intros Hl. exists (kept cls date_from date_to suites []).
  split; [apply load_time_series_data_kept; exact Hl|].
  assert (Hget : forall t, dict_get t (kept cls date_from date_to suites [])
                           = last_at cls date_from date_to t suites).
  { intros t. rewrite kept_get. simpl. destruct (last_at _ _ _ _ _); reflexivity. }
  assert (Hsound : forall t s,
            dict_get t (kept cls date_from date_to suites []) = Some s ->
            In s suites /\ display_timestamp cls s = t /\
            in_range date_from date_to t).
  { intros t s Hd. rewrite Hget in Hd. apply last_at_sound. exact Hd. }
  split; [exact Hsound|]. split; [|split; [exact Hget|split; [|split]]].
  - intros s Hin Hr. rewrite Hget. apply last_at_complete; assumption.
  - intros Hnd s. split.
    + intros Hv. unfold dict_values in Hv. apply in_map_iff in Hv.
      destruct Hv as ([t s'] & Heq & Hin). simpl in Heq. subst s'.
      apply dict_In_get in Hin; [|apply kept_NoDup; constructor].
      apply Hsound in Hin. destruct Hin as (Hin & <- & Hr). auto.
    + intros [Hin Hr].
      destruct (dict_get (display_timestamp cls s)
                  (kept cls date_from date_to suites [])) as [s'|] eqn:Hd.
      * pose proof Hd as Hd'. apply Hsound in Hd'. destruct Hd' as (Hin' & Hts & _).
        assert (s' = s)
          by (apply (NoDup_map_inj (display_timestamp cls) suites); assumption).
        subst s'. apply dict_get_In in Hd. unfold dict_values.
        apply in_map_iff. exists (display_timestamp cls s, s). auto.
      * rewrite Hget in Hd. exfalso.
        apply (last_at_complete date_from date_to suites s); assumption.
  - intros a -> -> t s Hd. apply Hsound in Hd. destruct Hd as (_ & _ & Hr).
    unfold in_range in Hr. lia.
  - intros a b -> -> Hlt. apply kept_out_of_range. intros t.
    destruct (in_rangeb (Some a) (Some b) t) eqn:E; [|reflexivity].
    apply in_rangeb_spec in E. unfold in_range in E. lia.
Qed.

(** C10.  When every listed file loads, the mapping returned by
    [load_time_series_data] has pairwise distinct keys: at most one instance
    per timestamp.  When two listed files carry the same timestamp, in
    range, and no later file does, the key holds the instance of the later
    file; the instance of the earlier file is in the mapping only if it is
    that same instance. *)
Theorem load_time_series_data_one_per_timestamp (path : string)
    (date_from date_to : option datetime) (suites : list T) :
  loaded cls path (listdir env path) = Ok suites ->
  exists d,
    load_time_series_data env path cls date_from date_to = Ok d /\
    NoDup (dict_keys d) /\
    forall l1 s1 l2 s2 l3,
      suites = l1 ++ s1 :: l2 ++ s2 :: l3 ->
      display_timestamp cls s1 = display_timestamp cls s2 ->
      in_range date_from date_to (display_timestamp cls s2) ->
      (forall s, In s l3 -> display_timestamp cls s <> display_timestamp cls s2) ->
      dict_get (display_timestamp cls s2) d = Some s2 /\
      (forall t, dict_get t d = Some s1 -> s1 = s2).
Proof.
  intros Hl. exists (kept cls date_from date_to suites []).
  split; [apply load_time_series_data_kept; exact Hl|].
  split; [apply kept_NoDup; constructor|].
  intros l1 s1 l2 s2 l3 -> Hts Hr Hlast.
  assert (Hget : forall t, dict_get t
             (kept cls date_from date_to (l1 ++ s1 :: l2 ++ s2 :: l3) [])
             = last_at cls date_from date_to t (l1 ++ s1 :: l2 ++ s2 :: l3)).
  { intros t. rewrite kept_get. simpl. destruct (last_at _ _ _ _ _); reflexivity. }
  assert (Hs2 : last_at cls date_from date_to (display_timestamp cls s2)
                  (l1 ++ s1 :: l2 ++ s2 :: l3) = Some s2).
  { unfold last_at.
    replace (l1 ++ s1 :: l2 ++ s2 :: l3) with ((l1 ++ s1 :: l2) ++ s2 :: l3)
      by (rewrite <- app_assoc; reflexivity).
    rewrite filter_app. simpl filter.
    apply in_rangeb_spec in Hr. rewrite Hr.
    rewrite rev_app_distr. simpl rev. rewrite <- app_assoc, find_app.
    destruct (find _ (rev (filter _ l3))) as [s|] eqn:Hf.
    - apply find_some in Hf. destruct Hf as [Hin Heq].
      apply in_rev, filter_In in Hin. apply Z.eqb_eq in Heq.
      exfalso. exact (Hlast s (proj1 Hin) Heq).
    - simpl. rewrite Z.eqb_refl. reflexivity. }
  split.
  - rewrite Hget. exact Hs2.
  - intros t Hd. rewrite Hget in Hd. pose proof Hd as Hd'.
    apply last_at_sound in Hd'. destruct Hd' as (_ & <- & _).
    rewrite Hts, Hs2 in Hd. congruence.
Qed.


End Loader.

(* ------------------------------------------------------------------ *)
(** ** Loading the directory ["store"] *)

Lemma load_time_series_data_range_witness :
  loaded (Report_Display env) "store" (listdir env "store")
    = Ok [report_one; report_two; report_three] /\
  exists d,
    load_time_series_data env "store" (Report_Display env) (Some 5%Z) (Some 5%Z)
      = Ok d /\
    forall t s, dict_get t d = Some s -> t = 5%Z.
Proof.
  split; [reflexivity|].
  destruct (load_time_series_data_range env (Report_Display env) "store"
              (Some 5%Z) (Some 5%Z) [report_one; report_two; report_three]
              eq_refl) as (d & Hload & _ & _ & _ & _ & Heq & _).
  exists d. split; [exact Hload|]. exact (Heq 5%Z eq_refl eq_refl).
Defined.

(** C5 (as stated) fails.  The three files of ["store"] load, with
    timestamps 5, 5 and 9; with no bound every one of them is in range, yet
    the mapping holds two of the three snapshots: the first is gone. *)
Lemma load_time_series_data_drops_a_snapshot_in_range :
  match loaded (Report_Display env) "store" (listdir env "store") with
  | Ok suites => map (fun r => (timestamp r, id r)) suites
  | Raise _ => []
  end = [(5%Z, "one"); (5%Z, "two"); (9%Z, "three")] /\
  match load_time_series_data env "store" (Report_Display env) None None with
  | Ok d => map (fun '(t, r) => (t, id r)) d
  | Raise _ => []
  end = [(5%Z, "two"); (9%Z, "three")].
Proof. split; reflexivity. Qed.

Lemma load_time_series_data_one_per_timestamp_witness :
  loaded (Report_Display env) "store" (listdir env "store")
    = Ok [report_one; report_two; report_three] /\
  exists d,
    load_time_series_data env "store" (Report_Display env) None None = Ok d /\
    NoDup (dict_keys d) /\
    dict_get 5%Z d = Some report_two /\
    (forall t, dict_get t d = Some report_one -> report_one = report_two).
Proof.
  split; [reflexivity|].
  destruct (load_time_series_data_one_per_timestamp env (Report_Display env)
              "store" None None [report_one; report_two; report_three] eq_refl)
    as (d & Hload & Hnd & Hlast).
  exists d. split; [exact Hload|]. split; [exact Hnd|].
  apply (Hlast [] report_one [] report_two [report_three]).
  - reflexivity.
  - reflexivity.
  - split; exact I.
  - intros s [<-|[]]. discriminate.
Defined.

(* ------------------------------------------------------------------ *)
(** ** A completed run leaves the Report settled *)

Lemma preserves_ok_bindR {A B : Type} (P : Report -> Prop) (c : Run A)
    (k : A -> Run B) :
  preserves_ok P c -> (forall a, preserves_ok P (k a)) -> preserves_ok P (bindR c k).
Proof.
  intros Hc Hk self b self' HP. unfold bindR.
  destruct (c self) as [[a|e] self1] eqn:Ec; [|discriminate].
  intros Hk'. exact (Hk a self1 b self' (Hc self a self1 HP Ec) Hk').
Qed.

Lemma preserves_ok_for_each {A : Type} (P : Report -> Prop) (body : A -> Run unit)
    (l : list A) :
  (forall x, preserves_ok P (body x)) -> preserves_ok P (for_each l body).
Proof.
  intros Hbody. induction l as [|x l IH]; simpl.
  - intros self a self' HP Heq. inversion Heq; subst. exact HP.
  - apply preserves_ok_bindR; [apply Hbody | intros _; exact IH].
Qed.

Section Settled.
Variable env : Collaborators.

Lemma register_keeps_expanding (o : pyobj) :
  preserves_ok (expanding env) (append_first_level o >> inner_add_metric o).
Proof.
  intros self a self' (Hfl & Hres & Hrd).
  unfold bindR, append_first_level, modify, inner_add_metric. simpl.
  destruct o as [m|? ? ?|? ?|? ?]; simpl; try discriminate.
  destruct (list_contains m (ctx_metrics (context (_inner_suite self)))) eqn:Hc;
    intros Heq; inversion Heq; subst; clear Heq; unfold expanding; simpl;
    (split; [|split; assumption]).
  - intros o Hin. apply in_app_iff in Hin. destruct Hin as [Hin|[<-|[]]].
    + apply Hfl. exact Hin.
    + exists m. split; [reflexivity|]. apply list_contains_In. exact Hc.
  - intros o Hin. apply in_app_iff in Hin. destruct Hin as [Hin|[<-|[]]].
    + destruct (Hfl o Hin) as (m' & -> & Hm'). exists m'.
      split; [reflexivity|]. apply in_app_iff. auto.
    + exists m. split; [reflexivity|]. apply in_app_iff. simpl. auto.
Qed.

Lemma provenance_keeps_expanding (key name : string) :
  preserves_ok (expanding env) (record_provenance key name).
Proof.
  intros self a self' HP. unfold record_provenance.
  destruct (dict_get key _) as [[s|d|l]|]; try discriminate.
  intros Heq. inversion Heq; subst; clear Heq. exact HP.
Qed.

Lemma run_item_keeps_expanding (data : InputData) (columns : DatasetColumns)
    (item : pyobj) :
  preserves_ok (expanding env) (run_item data columns item).
Proof.
  destruct item as [m|cls str generate|cls generate_metrics|cls str]; simpl.
  - apply register_keeps_expanding.
  - apply preserves_ok_bindR; [|intros _; apply provenance_keeps_expanding].
    apply preserves_ok_for_each. intros [m|? ? ?|? ?|? ?]; simpl;
      try (intros self a self' _; discriminate).
    apply register_keeps_expanding.
  - apply preserves_ok_bindR; [|intros _; apply provenance_keeps_expanding].
    apply preserves_ok_for_each. intros o. apply register_keeps_expanding.
  - intros self a self' _. discriminate.
Qed.

(** A run of a freshly constructed Report that returns normally leaves it
    settled. *)
Lemma run_settled (config : list pyobj) (options0 : option Options)
    (timestamp0 : option datetime) (id0 : option UUID)
    (metadata0 : option (dict string MetadataValueType))
    (tags0 : option (list string))
    (model_id reference_id batch_size dataset_id : option string)
    (reference : option DataFrame) (current : DataFrame)
    (mapping : option ColumnMapping) (r : Report) :
  run env reference (Some current) mapping
    (Report_init env config options0 timestamp0 id0 metadata0 tags0
       model_id reference_id batch_size dataset_id) = (Ok tt, r) ->
  settled env r.
Proof.
  rewrite run_present.
  set (r0 := Report_init env config options0 timestamp0 id0 metadata0 tags0
               model_id reference_id batch_size dataset_id).
  assert (H0 : expanding env (prepared env current mapping r0)).
  { unfold expanding, prepared, r0, Report_init.
    destruct dataset_id, reference_id, batch_size, model_id; simpl;
      (split; [intros o []|split; reflexivity]). }
  destruct (for_each _ _ _) as [[[]|e] r1] eqn:Hloop; [|discriminate].
  pose proof (preserves_ok_for_each (expanding env) _ _
                (run_item_keeps_expanding _ _) _ _ _ H0 Hloop) as (Hfl & _ & Hrd).
  unfold run_calculate.
  destruct (calculate_all env _ _ _) as [c'|e] eqn:Hcalc; simpl; [|discriminate].
  intros [= <-]. apply calculate_all_inv in Hcalc.
  destruct Hcalc as (Hms & Hrd' & _ & _ & _ & Hall). simpl in *.
  unfold settled. simpl. rewrite Hms, Hrd'. simpl. repeat split; auto.
Qed.

End Settled.

(* ------------------------------------------------------------------ *)
(** ** Snapshot round-trip *)

Lemma list_index_position (m : Metric) (l : list Metric) :
  In m l ->
  list_index m l = Ok (position m l) /\ nth_error l (position m l) = Some m.
Proof.
  unfold position. induction l as [|y l IH]; intros Hin; [destruct Hin|].
  cbn [list_index]. destruct (eqb y m) eqn:E.
  - apply eqb_eq in E. subst y. split; reflexivity.
  - destruct Hin as [->|Hin].
    + rewrite eqb_refl in E. discriminate.
    + specialize (IH Hin).
      destruct (list_index m l) as [i|e]; destruct IH as [Hi Hn];
        [|discriminate].
      cbn [bind]. split; [reflexivity | exact Hn].
Qed.

Lemma list_getitem_nat {A : Type} (l : list A) (i : nat) (x : A) :
  nth_error l i = Some x -> list_getitem l (Z.of_nat i) = Ok x.
Proof.
  intros Hn. unfold list_getitem.
  assert (Hlt : (i < List.length l)%nat)
    by (apply nth_error_Some; congruence).
  assert (E1 : (Z.of_nat i <? 0)%Z = false) by (apply Z.ltb_ge; lia).
  assert (E2 : (Z.of_nat (List.length l) <=? Z.of_nat i)%Z = false)
    by (apply Z.leb_gt; lia).
  cbv zeta. rewrite E1, E2, E1. cbn [orb]. rewrite Nat2Z.id, Hn. reflexivity.
Qed.

Lemma map_result_map {A B C : Type} (f : B -> result C) (g : A -> B) (l : list A) :
  map_result f (map g l) = map_result (fun x => f (g x)) l.
Proof.
  induction l as [|x l IH]; simpl; [reflexivity|]. rewrite IH. reflexivity.
Qed.

(** The Results a restored Context holds: the stored ones. *)
Lemma restored_results (v : Metric -> MetricResult) (l : list Metric)
    (acc : dict Metric MetricResult) (m : Metric) :
  In m l \/ dict_get m acc = Some (v m) ->
  dict_get m (fold_left (fun d '(m, r) => dict_set m r d)
                (map (fun m => (m, v m)) l) acc) = Some (v m).
Proof.
  revert acc. induction l as [|x l IH]; simpl; intros acc H.
  - destruct H as [[]|H]. exact H.
  - apply IH. destruct (Metric_eq_dec m x) as [->|Hne].
    + right. apply dict_get_set_eq.
    + destruct H as [[Heq|Hin]|Hacc]; [congruence | auto |].
      right. rewrite dict_get_set_neq by exact Hne. exact Hacc.
Qed.

Lemma as_pandas_collect_ext (c c' : Context) (group : option string)
    (l : list pyobj) (acc : dict string (list DataFrame)) :
  renderers c' = renderers c ->
  (forall m, In (PyMetric m) l -> get_result c' m = get_result c m) ->
  as_pandas_collect c' group l acc = as_pandas_collect c group l acc.
Proof.
  intros Hrd. revert acc. induction l as [|o l IH]; simpl; intros acc Hres.
  - reflexivity.
  - rewrite Hrd. destruct (find_metric_renderer (type_name o) (renderers c));
      simpl; [|reflexivity].
    destruct o as [m|? ? ?|? ?|? ?]; simpl; try reflexivity.
    unfold renderer_render_pandas. rewrite (Hres m (or_introl eq_refl)).
    destruct group as [g|].
    + destruct (negb _); [apply IH; auto|].
      destruct (get_result c m); simpl; [apply IH; auto | reflexivity].
    + destruct (get_result c m); simpl; [apply IH; auto | reflexivity].
Qed.

Section RoundTrip.
Variable env : Collaborators.

Lemma get_snapshot_settled (r : Report) :
  settled env r -> _get_snapshot r = Ok (snapshot_of r).
Proof.
  intros (Hfl & Hres & _). unfold _get_snapshot, ReportBase_get_snapshot.
  rewrite (map_result_ok _
             (fun m => (m, value_of (context (_inner_suite r)) m))).
  2:{ intros m Hm. unfold get_result, value_of.
      destruct (dict_get m _) eqn:E; [reflexivity|].
      exfalso. exact (Hres m Hm E). }
  cbn [bind]. unfold suite_metrics. cbn [snap_suite].
  rewrite map_map. cbn [fst]. rewrite map_id.
  rewrite (map_result_ok _
             (fun o => Z.of_nat (position (unit_of o)
                                   (ctx_metrics (context (_inner_suite r)))))).
  2:{ intros o Ho. destruct (Hfl o Ho) as (m & -> & Hm). simpl.
      destruct (list_index_position m _ Hm) as [-> _]. reflexivity. }
  reflexivity.
Qed.

Lemma restored_get_result (r : Report) (m : Metric) :
  settled env r -> In m (ctx_metrics (context (_inner_suite r))) ->
  get_result (to_context env (snapshot_of r)) m
  = get_result (context (_inner_suite r)) m.
Proof.
  intros (_ & Hres & _) Hm. unfold get_result, to_context, snapshot_of.
  cbn [metric_results snap_suite].
  rewrite (restored_results (value_of (context (_inner_suite r)))) by auto.
  unfold value_of. destruct (dict_get m _) eqn:E; [reflexivity|].
  exfalso. exact (Hres m Hm E).
Qed.

Lemma parse_snapshot_settled (r : Report) :
  settled env r ->
  _parse_snapshot env (snapshot_of r)
  = Ok (with_inner_suite {| context := to_context env (snapshot_of r) |}
          (with_first_level_metrics (_first_level_metrics r)
             (Report_init env (_first_level_metrics r) (Some (options r))
                (Some (timestamp r)) (Some (id r)) (Some (metadata r))
                (Some (tags r)) None None None None))).
Proof.
  intros (Hfl & _ & _). unfold _parse_snapshot.
  assert (Hms : ctx_metrics (to_context env (snapshot_of r))
                = ctx_metrics (context (_inner_suite r))).
  { unfold to_context, suite_metrics, snapshot_of. cbn [ctx_metrics snap_suite].
    rewrite map_map. cbn [fst]. apply map_id. }
  rewrite Hms. unfold snapshot_of at 1. cbn [metrics_ids].
  rewrite map_result_map.
  rewrite (map_result_ok _ unit_of).
  2:{ intros o Ho. destruct (Hfl o Ho) as (m & -> & Hm). simpl.
      apply list_getitem_nat. apply (list_index_position m _ Hm). }
  cbn [bind].
  assert (Hback : map PyMetric (map unit_of (_first_level_metrics r))
                  = _first_level_metrics r).
  { rewrite map_map. rewrite <- (map_id (_first_level_metrics r)) at 2.
    apply map_ext_in. intros o Ho. destruct (Hfl o Ho) as (m & -> & _).
    reflexivity. }
  rewrite Hback. reflexivity.
Qed.

(** The round trip after one run.  For a Report that is constructed and then
    run once to a normal return, capture succeeds, restore of the captured
    snapshot succeeds, and the restored Report cannot be told from the
    original: same first-level list (same identities, same order), same
    [as_dict] and [as_pandas] for every argument, same id, timestamp,
    metadata, tags and options. *)
Theorem snapshot_round_trip (config : list pyobj) (options0 : option Options)
    (timestamp0 : option datetime) (id0 : option UUID)
    (metadata0 : option (dict string MetadataValueType))
    (tags0 : option (list string))
    (model_id reference_id batch_size dataset_id : option string)
    (reference : option DataFrame) (current : DataFrame)
    (mapping : option ColumnMapping) (r : Report) :
  run env reference (Some current) mapping
    (Report_init env config options0 timestamp0 id0 metadata0 tags0
       model_id reference_id batch_size dataset_id) = (Ok tt, r) ->
  exists snapshot r',
    _get_snapshot r = Ok snapshot /\
    _parse_snapshot env snapshot = Ok r' /\
    _first_level_metrics r' = _first_level_metrics r /\
    (forall include_render include exclude,
       as_dict r' include_render include exclude
       = as_dict r include_render include exclude) /\
    (forall group, as_pandas r' group = as_pandas r group) /\
    id r' = id r /\ timestamp r' = timestamp r /\ metadata r' = metadata r /\
    tags r' = tags r /\ options r' = options r.
Proof.
  intros Hrun. apply run_settled in Hrun.
  exists (snapshot_of r). eexists.
  split; [apply get_snapshot_settled; exact Hrun|].
  split; [apply parse_snapshot_settled; exact Hrun|].
  pose proof Hrun as (Hfl & Hres & Hrd).
  assert (Hsame : forall m, In (PyMetric m) (_first_level_metrics r) ->
            get_result (to_context env (snapshot_of r)) m
            = get_result (context (_inner_suite r)) m).
  { intros m Hm. apply restored_get_result; [exact Hrun|].
    destruct (Hfl _ Hm) as (m' & [= <-] & Hin). exact Hin. }
  split; [reflexivity|]. split; [|split; [|repeat split]].
  - intros include_render include exclude. unfold as_dict.
    cbn [_first_level_metrics with_inner_suite with_first_level_metrics
         _inner_suite context].
    f_equal. apply map_result_ext. intros o Ho.
    cbn [renderers to_context]. rewrite Hrd.
    destruct (find_metric_renderer _ _); [|reflexivity]. cbn [bind].
    destruct o as [m|? ? ?|? ?|? ?]; try reflexivity. cbn [as_metric bind].
    unfold renderer_render_json. rewrite (Hsame m Ho). reflexivity.
  - intros group. unfold as_pandas.
    cbn [_first_level_metrics with_inner_suite with_first_level_metrics
         _inner_suite context].
    rewrite (as_pandas_collect_ext (context (_inner_suite r))
               (to_context env (snapshot_of r)) group _ []); auto.
Qed.

End RoundTrip.

(* ------------------------------------------------------------------ *)
(** ** Time series of Results *)

Lemma lookup_setitem (m0 : Metric) (ts0 : datetime) (v0 : MetricResult)
    (acc : dict Metric (dict datetime MetricResult)) (m : Metric) (ts : datetime) :
  lookup (defaultdict_setitem m0 ts0 v0 acc) m ts
  = if eqb m m0 && Z.eqb ts ts0 then Some v0 else lookup acc m ts.
Proof.
  unfold lookup, defaultdict_setitem. destruct (eqb m m0) eqn:Em.
  - apply eqb_eq in Em. subst m0. rewrite dict_get_set_eq. simpl.
    destruct (Z.eqb ts ts0) eqn:Et.
    + apply Z.eqb_eq in Et. subst ts0. apply dict_get_set_eq.
    + apply Z.eqb_neq in Et. rewrite dict_get_set_neq by exact Et.
      unfold or_else. destruct (dict_get m acc); reflexivity.
  - apply eqb_false_neq in Em. rewrite dict_get_set_neq by exact Em. reflexivity.
Qed.

Lemma first_level_contains_In (m : Metric) (l : list pyobj) :
  first_level_contains m l = true <-> In (PyMetric m) l.
Proof.
  unfold first_level_contains. rewrite existsb_exists. split.
  - intros (o & Hin & Ho). destruct o as [m'|? ? ?|? ?|? ?]; try discriminate.
    apply eqb_eq in Ho. subst m'. exact Hin.
  - intros Hin. exists (PyMetric m). split; [exact Hin | apply eqb_refl].
Qed.

Lemma read_first_level_spec (ts0 : datetime) (c : Context) (l : list pyobj)
    (acc : dict Metric (dict datetime MetricResult)) :
  (forall o, In o l -> exists m v, o = PyMetric m /\ get_result c m = Ok v) ->
  exists res,
    read_first_level ts0 c l acc = Ok res /\
    forall m ts,
      lookup res m ts
      = if Z.eqb ts ts0 && first_level_contains m l
        then match get_result c m with Ok v => Some v | Raise _ => None end
        else lookup acc m ts.
Proof.
  revert acc. induction l as [|o l IH]; intros acc Hl.
  - exists acc. split; [reflexivity|]. intros m ts.
    rewrite andb_false_r. reflexivity.
  - destruct (Hl o (or_introl eq_refl)) as (m0 & v0 & -> & Hv0).
    cbn [read_first_level as_metric bind]. rewrite Hv0. cbn [bind].
    destruct (IH (defaultdict_setitem m0 ts0 v0 acc)) as (res & Hres & Hlk).
    { intros o Ho. apply Hl. right. exact Ho. }
    exists res. split; [exact Hres|]. intros m ts. rewrite Hlk, lookup_setitem.
    cbn [first_level_contains existsb].
    fold (first_level_contains m l).
    destruct (Z.eqb ts ts0); cbn [andb]; [|rewrite andb_false_r; reflexivity].
    destruct (first_level_contains m l); [rewrite orb_true_r; reflexivity|].
    rewrite orb_false_r, andb_true_r.
    destruct (eqb m m0) eqn:Em; [|reflexivity].
    apply eqb_eq in Em. subst m0. rewrite Hv0. reflexivity.
Qed.

Lemma read_all_spec (items : list (datetime * Report))
    (acc : dict Metric (dict datetime MetricResult)) :
  (forall ts report, In (ts, report) items -> readable report) ->
  exists res,
    read_all items acc = Ok res /\
    forall m ts,
      lookup res m ts
      = match hit items m ts with Some v => Some v | None => lookup acc m ts end.
Proof.
  revert acc. induction items as [|[ts0 report] items IH]; intros acc Hr.
  - exists acc. split; reflexivity.
  - cbn [read_all].
    destruct (read_first_level_spec ts0 (context (_inner_suite report))
                (_first_level_metrics report) acc) as (acc' & Hacc' & Hlk').
    { apply (Hr ts0 report). left. reflexivity. }
    rewrite Hacc'. cbn [bind].
    destruct (IH acc') as (res & Hres & Hlk).
    { intros ts r Hin. apply (Hr ts r). right. exact Hin. }
    exists res. split; [exact Hres|]. intros m ts. rewrite Hlk, Hlk'.
    cbn [hit]. destruct (hit items m ts); [reflexivity|].
    destruct (Z.eqb ts ts0 && first_level_contains m _) eqn:E; [|reflexivity].
    apply andb_true_iff in E. destruct E as [_ E].
    apply first_level_contains_In in E.
    destruct (Hr ts0 report (or_introl eq_refl) _ E) as (m' & v & Heq & Hv).
    injection Heq as <-. rewrite Hv. reflexivity.
Qed.

Lemma read_requested_spec (metric : MetricObject)
    (items : list (datetime * Report))
    (acc : dict Metric (dict datetime MetricResult)) :
  (forall ts report, In (ts, report) items -> readable report) ->
  exists res,
    read_requested metric items acc = Ok res /\
    forall m ts,
      lookup res m ts
      = if eqb m (mo_metric metric)
        then match hit items m ts with
             | Some v => Some v
             | None => lookup acc m ts
             end
        else lookup acc m ts.
Proof.
  revert metric acc.
  induction items as [|[ts0 report] items IH]; intros metric acc Hr.
  - exists acc. split; [reflexivity|]. intros m ts.
    destruct (eqb m (mo_metric metric)); reflexivity.
  - cbn [read_requested].
    assert (Hrest : forall ts r, In (ts, r) items -> readable r).
    { intros ts r Hin. apply (Hr ts r). right. exact Hin. }
    destruct (first_level_contains (mo_metric metric)
                (_first_level_metrics report)) eqn:Hc.
    + pose proof Hc as Hin. apply first_level_contains_In in Hin.
      destruct (Hr ts0 report (or_introl eq_refl) _ Hin) as (m' & v0 & Heq & Hv0).
      injection Heq as <-.
      unfold MetricObject_get_result. cbn [set_context mo_context mo_metric].
      rewrite Hv0. cbn [bind].
      destruct (IH (set_context (context (_inner_suite report)) metric)
                  (defaultdict_setitem (mo_metric metric) ts0 v0 acc) Hrest)
        as (res & Hres & Hlk).
      exists res. split; [exact Hres|]. intros m ts. rewrite Hlk.
      cbn [set_context mo_metric hit]. rewrite lookup_setitem.
      destruct (eqb m (mo_metric metric)) eqn:Em; [|reflexivity].
      apply eqb_eq in Em. subst m. rewrite Hc, Hv0.
      destruct (hit items (mo_metric metric) ts); [reflexivity|].
      cbn [andb]. rewrite andb_true_r. destruct (Z.eqb ts ts0); reflexivity.
    + destruct (IH metric acc Hrest) as (res & Hres & Hlk).
      exists res. split; [exact Hres|]. intros m ts. rewrite Hlk. cbn [hit].
      destruct (eqb m (mo_metric metric)) eqn:Em; [|reflexivity].
      apply eqb_eq in Em. subst m. rewrite Hc, andb_false_r.
      destruct (hit items (mo_metric metric) ts); reflexivity.
Qed.

Lemma read_filtered_spec (requested : list MetricObject)
    (items : list (datetime * Report))
    (acc : dict Metric (dict datetime MetricResult)) :
  (forall ts report, In (ts, report) items -> readable report) ->
  exists res,
    read_filtered requested items acc = Ok res /\
    forall m ts,
      lookup res m ts
      = if existsb (fun metric => eqb m (mo_metric metric)) requested
        then match hit items m ts with
             | Some v => Some v
             | None => lookup acc m ts
             end
        else lookup acc m ts.
Proof.
  intros Hr. revert acc. induction requested as [|metric requested IH]; intros acc.
  - exists acc. split; reflexivity.
  - cbn [read_filtered].
    destruct (read_requested_spec metric items acc Hr) as (acc' & Hacc' & Hlk').
    rewrite Hacc'. cbn [bind].
    destruct (IH acc') as (res & Hres & Hlk).
    exists res. split; [exact Hres|]. intros m ts. rewrite Hlk, Hlk'.
    cbn [existsb].
    destruct (eqb m (mo_metric metric)); cbn [orb];
      destruct (existsb _ requested); try reflexivity.
    destruct (hit items m ts); reflexivity.
Qed.

Lemma hit_spec (items : list (datetime * Report)) (m : Metric) (ts : datetime)
    (v : MetricResult) :
  NoDup (dict_keys items) ->
  (hit items m ts = Some v
   <-> exists report,
         dict_get ts items = Some report /\
         In (PyMetric m) (_first_level_metrics report) /\
         get_result (context (_inner_suite report)) m = Ok v).
Proof.
  revert v. induction items as [|[ts0 report] items IH]; intros v Hnd.
  - simpl. split; [discriminate | intros (r & Hr & _); discriminate].
  - unfold dict_keys in Hnd. simpl in Hnd.
    inversion Hnd as [|? ? Hnotin Hnd']; subst.
    assert (IH' : forall v, hit items m ts = Some v <->
              exists report, dict_get ts items = Some report /\
                In (PyMetric m) (_first_level_metrics report) /\
                get_result (context (_inner_suite report)) m = Ok v)
      by (intros v0; apply IH; exact Hnd').
    clear IH. cbn [hit dict_get].
    change (@eqb datetime Z_EqDec ts ts0) with (Z.eqb ts ts0).
    assert (Hkey : forall r, dict_get ts items = Some r -> Z.eqb ts ts0 = false).
    { intros r Hg. apply Z.eqb_neq. intros ->. apply Hnotin.
      apply dict_get_In in Hg. apply (in_map fst) in Hg. exact Hg. }
    split.
    + destruct (hit items m ts) as [v'|] eqn:Hh.
      * intros [= ->]. destruct (proj1 (IH' v) eq_refl) as (r & Hg & Hin & Hres).
        exists r. rewrite (Hkey r Hg). auto.
      * destruct (Z.eqb ts ts0) eqn:Et; cbn [andb]; [|discriminate].
        destruct (first_level_contains m _) eqn:Hc; [|discriminate].
        destruct (get_result _ m) as [v'|e] eqn:Hres; [|discriminate].
        intros [= ->]. exists report. split; [reflexivity|].
        split; [apply first_level_contains_In; exact Hc | exact Hres].
    + intros (r & Hg & Hin & Hres).
      destruct (Z.eqb ts ts0) eqn:Et.
      * assert (Heq : report = r) by congruence. subst r. clear Hg.
        destruct (hit items m ts) as [v'|] eqn:Hh.
        -- destruct (proj1 (IH' v') eq_refl) as (r' & Hg' & _).
           pose proof (Hkey r' Hg') as Hf. discriminate.
        -- cbn [andb]. apply first_level_contains_In in Hin.
           rewrite Hin, Hres. reflexivity.
      * assert (Hh : hit items m ts = Some v) by (apply IH'; eauto).
        rewrite Hh. reflexivity.
Qed.

Lemma map_result_In {A B : Type} (f : A -> result B) (l : list A) (l' : list B) :
  map_result f l = Ok l' ->
  forall y, In y l' -> exists x, In x l /\ f x = Ok y.
Proof.
  revert l'. induction l as [|x l IH]; simpl; intros l' Hm y Hy.
  - injection Hm as <-. destruct Hy.
  - destruct (f x) as [b|e] eqn:Hf; simpl in Hm; [|discriminate].
    destruct (map_result f l) as [bs|e]; simpl in Hm; [|discriminate].
    injection Hm as <-. destruct Hy as [<-|Hy].
    + exists x. auto.
    + destruct (IH bs eq_refl y Hy) as (x' & Hin & Hx'). exists x'. auto.
Qed.

Lemma list_getitem_In {A : Type} (l : list A) (i : Z) (x : A) :
  list_getitem l i = Ok x -> In x l.
Proof.
  unfold list_getitem. cbv zeta. destruct (_ || _); [discriminate|].
  destruct (nth_error l _) as [y|] eqn:Hn; [|discriminate].
  intros [= <-]. apply nth_error_In in Hn. exact Hn.
Qed.

Lemma restored_results_present (units : list (Metric * MetricResult))
    (acc : dict Metric MetricResult) (m : Metric) :
  In m (map fst units) \/ dict_get m acc <> None ->
  dict_get m (fold_left (fun d '(m, r) => dict_set m r d) units acc) <> None.
Proof.
  revert acc. induction units as [|[m0 r0] units IH]; simpl; intros acc H.
  - destruct H as [[]|H]. exact H.
  - apply IH. destruct (Metric_eq_dec m m0) as [->|Hne].
    + right. rewrite dict_get_set_eq. discriminate.
    + destruct H as [[Heq|Hin]|Hacc]; [congruence | auto |].
      right. rewrite dict_get_set_neq by exact Hne. exact Hacc.
Qed.

Section TimeSeries.
Variable env : Collaborators.

(** A Report restored from a snapshot holds a Result for every first-level
    unit. *)
Lemma parse_snapshot_readable (snapshot : Snapshot) (r : Report) :
  _parse_snapshot env snapshot = Ok r -> readable r.
Proof.
  unfold _parse_snapshot.
  destruct (map_result _ (metrics_ids snapshot)) as [ms|e] eqn:Hms;
    [|discriminate].
  cbn [bind]. intros [= <-] o Ho.
  cbn [_first_level_metrics with_inner_suite with_first_level_metrics] in Ho.
  apply in_map_iff in Ho. destruct Ho as (m & <- & Hm).
  destruct (map_result_In _ _ _ Hms m Hm) as (i & _ & Hi).
  apply list_getitem_In in Hi. cbn [ctx_metrics to_context] in Hi.
  cbn [_inner_suite with_inner_suite context].
  unfold get_result. cbn [metric_results to_context].
  pose proof (restored_results_present (snap_suite snapshot) [] m
                (or_introl Hi)) as Hpresent.
  destruct (dict_get m _) as [v|] eqn:Hv.
  - exists m, v. split; [reflexivity|]. rewrite Hv. reflexivity.
  - exfalso. apply Hpresent. reflexivity.
Qed.

Lemma loaded_readable (path : string) (files : list string) (suites : list Report) :
  loaded (Report_Display env) path files = Ok suites ->
  forall r, In r suites -> readable r.
Proof.
  intros Hl r Hr. destruct (map_result_In _ _ _ Hl r Hr) as (file & _ & Hf).
  cbn [_load Report_Display] in Hf.
  destruct (read_snapshot env _) as [snapshot|e]; [|discriminate].
  apply (parse_snapshot_readable snapshot). exact Hf.
Qed.

Lemma requested_contains (m : Metric) (requested : list MetricObject) :
  existsb (fun metric => eqb m (mo_metric metric)) requested = true
  <-> In m (map mo_metric requested).
Proof.
  rewrite existsb_exists, in_map_iff. split.
  - intros (o & Hin & Ho). apply eqb_eq in Ho. exists o. auto.
  - intros (o & <- & Hin). exists o. split; [exact Hin | apply eqb_refl].
Qed.

(** C6 (as amended).  When the directory loads into the mapping [reports]:
    with a [metrics] filter, [load_metric_time_series] returns a mapping in
    which [result[m][ts]] is present exactly when [m] is one of the requested
    units and the Report loaded at [ts] has [m] (by identity) in its
    first-level list, and its value is the Result of [m] read in the Context
    of that Report, whatever Context the requested unit object was bound to
    before; with no filter, [result[m][ts]] is present exactly when [m] is a
    first-level unit of the Report loaded at [ts], with its Result there. *)
Theorem load_metric_time_series_entries (path : string)
    (date_from date_to : option datetime) (reports : dict datetime Report) :
  load_time_series_data env path (Report_Display env) date_from date_to
    = Ok reports ->
  (forall requested, exists res,
     load_metric_time_series env path date_from date_to (Some requested) = Ok res /\
     forall m ts v,
       lookup res m ts = Some v <->
       In m (map mo_metric requested) /\
       exists report,
         dict_get ts reports = Some report /\
         In (PyMetric m) (_first_level_metrics report) /\
         get_result (context (_inner_suite report)) m = Ok v) /\
  (exists res,
     load_metric_time_series env path date_from date_to None = Ok res /\
     forall m ts v,
       lookup res m ts = Some v <->
       exists report,
         dict_get ts reports = Some report /\
         In (PyMetric m) (_first_level_metrics report) /\
         get_result (context (_inner_suite report)) m = Ok v).
Proof.
  intros Hload.
  assert (Hfacts : NoDup (dict_keys reports) /\
                   forall ts r, In (ts, r) reports -> readable r).
  { unfold load_time_series_data in Hload. rewrite load_files_spec in Hload.
    destruct (loaded (Report_Display env) path (listdir env path))
      as [suites|e] eqn:Hl; [|discriminate].
    cbn [bind] in Hload. injection Hload as <-. split.
    - apply kept_NoDup. constructor.
    - intros ts r Hin.
      apply dict_In_get in Hin; [|apply kept_NoDup; constructor].
      rewrite kept_get in Hin. cbn [dict_get] in Hin.
      destruct (last_at _ _ _ _ _) as [s|] eqn:Hs; [|discriminate].
      injection Hin as <-. apply last_at_sound in Hs.
      apply (loaded_readable _ _ _ Hl). tauto. }
  destruct Hfacts as [Hnd Hread]. split.
  - intros requested. unfold load_metric_time_series. rewrite Hload. cbn [bind].
    destruct (read_filtered_spec requested reports [] Hread) as (res & Hres & Hlk).
    exists res. split; [exact Hres|]. intros m ts v. rewrite Hlk.
    rewrite <- requested_contains, <- (hit_spec reports m ts v Hnd).
    destruct (existsb _ requested); destruct (hit reports m ts); cbn;
      (split; intros H;
       [try discriminate; auto
       |destruct H as [H1 H2]; try discriminate; auto]).
  - unfold load_metric_time_series. rewrite Hload. cbn [bind].
    destruct (read_all_spec reports [] Hread) as (res & Hres & Hlk).
    exists res. split; [exact Hres|]. intros m ts v. rewrite Hlk.
    rewrite <- (hit_spec reports m ts v Hnd).
    destruct (hit reports m ts); simpl; split; auto; discriminate.
Qed.

End TimeSeries.

(* ------------------------------------------------------------------ *)
(** ** Round-trip and time series on the concrete Reports *)

Lemma snapshot_round_trip_witness :
  exists snapshot r',
    _get_snapshot completed_three = Ok snapshot /\
    _parse_snapshot env snapshot = Ok r' /\
    _first_level_metrics r' = _first_level_metrics completed_three /\
    (forall include_render include exclude,
       as_dict r' include_render include exclude
       = as_dict completed_three include_render include exclude) /\
    (forall group, as_pandas r' group = as_pandas completed_three group) /\
    id r' = id completed_three /\ timestamp r' = timestamp completed_three /\
    metadata r' = metadata completed_three /\
    tags r' = tags completed_three /\ options r' = options completed_three.
Proof.
  apply (snapshot_round_trip env [PyMetric UnitA; PresetP]
           None None None None None None None None None None frame_a None
           completed_three).
  vm_compute. reflexivity.
Defined.

Lemma load_metric_time_series_entries_witness :
  load_time_series_data env "store" (Report_Display env) None None
    = Ok [(5%Z, report_two); (9%Z, report_three)] /\
  exists res,
    load_metric_time_series env "store" None None
      (Some [{| mo_metric := UnitB; mo_context := None |}]) = Ok res /\
    lookup res UnitB 9%Z = Some "0.9" /\
    lookup res UnitA 5%Z = None.
Proof.
  assert (Hload : load_time_series_data env "store" (Report_Display env) None None
                  = Ok [(5%Z, report_two); (9%Z, report_three)])
    by (vm_compute; reflexivity).
  split; [exact Hload|].
  destruct (proj1 (load_metric_time_series_entries env "store" None None
                     [(5%Z, report_two); (9%Z, report_three)] Hload)
              [{| mo_metric := UnitB; mo_context := None |}])
    as (res & Hres & Hlk).
  exists res. split; [exact Hres|]. split.
  - apply Hlk. split; [left; reflexivity|].
    exists report_three. split; [reflexivity|].
    split; [left; vm_compute; reflexivity | vm_compute; reflexivity].
  - destruct (lookup res UnitA 5%Z) as [v|] eqn:Hv; [|reflexivity].
    apply Hlk in Hv. destruct Hv as [[Heq|[]] _]. discriminate.
Defined.

(** C6 (as stated) fails.  The snapshot of the directory ["inner"] has
    [UnitB] in its unit list, not in its first-level list.  The restored
    Report holds [UnitB] in the unit list of its Suite, with its Result, yet
    a request for [UnitB] gets no entry from it: the result is empty. *)
Lemma load_metric_time_series_skips_inner_units :
  exists report,
    load_time_series_data env_inner "inner" (Report_Display env_inner) None None
      = Ok [(7%Z, report)] /\
    In UnitB (ctx_metrics (context (_inner_suite report))) /\
    get_result (context (_inner_suite report)) UnitB = Ok "0.7" /\
    _first_level_metrics report = [PyMetric UnitA] /\
    load_metric_time_series env_inner "inner" None None
      (Some [{| mo_metric := UnitB; mo_context := None |}]) = Ok [].
Proof.
  eexists. split; [vm_compute; reflexivity|].
  split; [right; left; reflexivity|].
  repeat split; vm_compute; reflexivity.
Qed.

(* ------------------------------------------------------------------ *)
(** ** More on [Report.run]: order, provenance, what a run leaves alone *)

Section RunMore.
Variable env : Collaborators.

Lemma register_all_first_level (l : list pyobj) (self self' : Report) (a : unit) :
  for_each l (fun o => append_first_level o >> inner_add_metric o) self
    = (Ok a, self') ->
  _first_level_metrics self' = _first_level_metrics self ++ l /\
  metadata self' = metadata self.
Proof.
  revert self. induction l as [|o l IH]; intros self.
  - simpl. unfold ret. intros [= _ <-]. rewrite app_nil_r. auto.
  - rewrite for_each_cons.
    destruct ((append_first_level o >> inner_add_metric o) self)
      as [[[]|e] self1] eqn:Hstep; [|discriminate].
    intros Hrest. apply IH in Hrest. destruct Hrest as [Hfl Hmd].
    revert Hstep. unfold bindR, append_first_level, modify, inner_add_metric.
    simpl. destruct (add_metric o _); [|discriminate].
    intros [= <-]. simpl in Hfl, Hmd. rewrite Hfl, Hmd, <- app_assoc. auto.
Qed.

Lemma generated_all_first_level (str : string) (l : list pyobj)
    (self self' : Report) (a : unit) :
  for_each l (run_generated str) self = (Ok a, self') ->
  _first_level_metrics self' = _first_level_metrics self ++ l /\
  metadata self' = metadata self.
Proof.
  revert self. induction l as [|o l IH]; intros self.
  - simpl. unfold ret. intros [= _ <-]. rewrite app_nil_r. auto.
  - rewrite for_each_cons.
    destruct (run_generated str o self) as [[[]|e] self1] eqn:Hstep;
      [|discriminate].
    intros Hrest. apply IH in Hrest. destruct Hrest as [Hfl Hmd].
    destruct o as [m|? ? ?|? ?|? ?]; try discriminate.
    revert Hstep. simpl.
    unfold bindR, append_first_level, modify, inner_add_metric. simpl.
    destruct (list_contains _ _); intros [= <-]; simpl in Hfl, Hmd;
      rewrite Hfl, Hmd, <- app_assoc; auto.
Qed.

Lemma record_provenance_ok (key name : string) (self self' : Report) (a : unit) :
  record_provenance key name self = (Ok a, self') ->
  _first_level_metrics self' = _first_level_metrics self /\
  provenance key (metadata self') = provenance key (metadata self) ++ [name] /\
  (forall k, k <> key -> dict_get k (metadata self') = dict_get k (metadata self)).
Proof.
  unfold record_provenance, dict_mem, provenance.
  destruct (dict_get key (metadata self)) as [v|] eqn:Hk.
  - rewrite Hk. destruct v as [s|d|l]; try discriminate.
    intros [= _ <-]. simpl. rewrite dict_get_set_eq. repeat split.
    intros k Hne. apply dict_get_set_neq. exact Hne.
  - rewrite dict_get_set_eq. intros [= _ <-]. simpl.
    rewrite dict_get_set_eq. repeat split.
    intros k Hne. rewrite !dict_get_set_neq by exact Hne. reflexivity.
Qed.

Lemma provenance_other_key (key k : string) (md md' : dict string MetadataValueType) :
  dict_get k md' = dict_get k md -> provenance k md' = provenance k md.
Proof. unfold provenance. intros ->. reflexivity. Qed.

Lemma run_item_ok (data : InputData) (columns : DatasetColumns) (item : pyobj)
    (self self' : Report) (a : unit) :
  run_item data columns item self = (Ok a, self') ->
  _first_level_metrics self'
    = _first_level_metrics self ++ expansion data columns item /\
  provenance METRIC_PRESETS (metadata self')
    = provenance METRIC_PRESETS (metadata self) ++ preset_names [item] /\
  provenance METRIC_GENERATORS (metadata self')
    = provenance METRIC_GENERATORS (metadata self) ++ generator_names [item] /\
  (forall k, k <> METRIC_PRESETS -> k <> METRIC_GENERATORS ->
     dict_get k (metadata self') = dict_get k (metadata self)).
Proof.
  destruct item as [m|cls str generate|cls generate_metrics|cls str];
    cbn [run_item expansion preset_names generator_names flat_map app].
  - intros H.
    destruct (register_all_first_level [PyMetric m] self self' a) as [Hfl Hmd].
    { rewrite for_each_cons. revert H.
      destruct ((append_first_level (PyMetric m) >> inner_add_metric (PyMetric m))
                  self) as [[[]|e] s1]; [|discriminate].
      destruct a. intros [= <-]. reflexivity. }
    rewrite Hfl, Hmd, !app_nil_r. auto.
  - unfold bindR at 1.
    destruct (for_each (generate columns) (run_generated str) self)
      as [[[]|e] s1] eqn:Hloop; [|discriminate].
    apply generated_all_first_level in Hloop. destruct Hloop as [Hfl Hmd].
    intros Hrec. apply record_provenance_ok in Hrec.
    destruct Hrec as (Hfl' & Hprov & Hother).
    rewrite Hfl', Hfl, Hprov, Hmd, app_nil_r.
    repeat split.
    + rewrite (provenance_other_key METRIC_GENERATORS METRIC_PRESETS
                 (metadata s1) (metadata self')), Hmd; [reflexivity|].
      apply Hother. discriminate.
    + intros k Hp Hg. rewrite Hother by exact Hg. rewrite Hmd. reflexivity.
  - unfold bindR at 1.
    destruct (for_each _ _ self) as [[[]|e] s1] eqn:Hloop; [|discriminate].
    apply register_all_first_level in Hloop. destruct Hloop as [Hfl Hmd].
    intros Hrec. apply record_provenance_ok in Hrec.
    destruct Hrec as (Hfl' & Hprov & Hother).
    rewrite Hfl', Hfl, Hprov, Hmd, app_nil_r.
    repeat split.
    + rewrite (provenance_other_key METRIC_PRESETS METRIC_GENERATORS
                 (metadata s1) (metadata self')), Hmd; [reflexivity|].
      apply Hother. discriminate.
    + intros k Hp Hg. rewrite Hother by exact Hp. rewrite Hmd. reflexivity.
  - discriminate.
Qed.

Lemma expansion_loop_ok (data : InputData) (columns : DatasetColumns)
    (items : list pyobj) (self self' : Report) (a : unit) :
  for_each items (run_item data columns) self = (Ok a, self') ->
  _first_level_metrics self'
    = _first_level_metrics self ++ flat_map (expansion data columns) items /\
  provenance METRIC_PRESETS (metadata self')
    = provenance METRIC_PRESETS (metadata self) ++ preset_names items /\
  provenance METRIC_GENERATORS (metadata self')
    = provenance METRIC_GENERATORS (metadata self) ++ generator_names items /\
  (forall k, k <> METRIC_PRESETS -> k <> METRIC_GENERATORS ->
     dict_get k (metadata self') = dict_get k (metadata self)).
Proof.
  revert self. induction items as [|item items IH]; intros self.
  - simpl. unfold ret. intros [= _ <-]. rewrite !app_nil_r. auto.
  - rewrite for_each_cons.
    destruct (run_item data columns item self) as [[[]|e] s1] eqn:Hitem;
      [|discriminate].
    apply run_item_ok in Hitem. destruct Hitem as (Hfl & Hp & Hg & Hk).
    intros Hrest. apply IH in Hrest. destruct Hrest as (Hfl' & Hp' & Hg' & Hk').
    rewrite Hfl', Hfl, Hp', Hp, Hg', Hg.
    unfold preset_names, generator_names in *. cbn [flat_map].
    rewrite !app_nil_r, <- !app_assoc. repeat split.
    intros k H1 H2. rewrite Hk', Hk by assumption. reflexivity.
Qed.

(** X1.  The order of the first-level list.  When a run returns normally, the
    first-level list is the list before the run followed by what each item
    of the configuration emits, item after item in configuration order: a
    unit itself, the output of a generator, the output of a preset with each
    generator nested in it replaced, in place, by its own output. *)
Theorem run_first_level_order (self r : Report) (reference : option DataFrame)
    (current : DataFrame) (mapping : option ColumnMapping) :
  run env reference (Some current) mapping self = (Ok tt, r) ->
  _first_level_metrics r
  = _first_level_metrics self
    ++ flat_map (expansion (expansion_data env reference current mapping)
                   (process_columns env current (or_else mapping [])))
         (metrics self).
Proof.
  rewrite run_present.
  destruct (for_each _ _ _) as [[[]|e] s1] eqn:Hloop; [|discriminate].
  apply expansion_loop_ok in Hloop. destruct Hloop as (Hfl & _).
  destruct (run_calculate env _ _); [|discriminate].
  intros [= <-]. exact Hfl.
Qed.

(** X2.  Provenance.  When a run returns normally, the list under
    "metric_presets" is the list before the run followed by the class names
    of the presets of the configuration, in order; the same holds for
    "metric_generators" and the generators; every other key of the metadata
    is as before the run. *)
Theorem run_records_provenance (self r : Report) (reference : option DataFrame)
    (current : DataFrame) (mapping : option ColumnMapping) :
  run env reference (Some current) mapping self = (Ok tt, r) ->
  provenance METRIC_PRESETS (metadata r)
    = provenance METRIC_PRESETS (metadata self) ++ preset_names (metrics self) /\
  provenance METRIC_GENERATORS (metadata r)
    = provenance METRIC_GENERATORS (metadata self)
      ++ generator_names (metrics self) /\
  (forall k, k <> METRIC_PRESETS -> k <> METRIC_GENERATORS ->
     dict_get k (metadata r) = dict_get k (metadata self)).
Proof.
  rewrite run_present.
  destruct (for_each _ _ _) as [[[]|e] s1] eqn:Hloop; [|discriminate].
  apply expansion_loop_ok in Hloop. destruct Hloop as (_ & Hp & Hg & Hk).
  destruct (run_calculate env _ _); [|discriminate].
  intros [= <-]. auto.
Qed.

(** X3.  What a run leaves alone.  Whatever its arguments and whatever its
    outcome, [run] changes neither the configuration list [metrics] nor the
    options, the timestamp, the id and the tags of the instance. *)
Theorem run_leaves_configuration (self : Report) (reference : option DataFrame)
    (current : option DataFrame) (mapping : option ColumnMapping) :
  metrics (snd (run env reference current mapping self)) = metrics self /\
  options (snd (run env reference current mapping self)) = options self /\
  timestamp (snd (run env reference current mapping self)) = timestamp self /\
  id (snd (run env reference current mapping self)) = id self /\
  tags (snd (run env reference current mapping self)) = tags self.
Proof.
  destruct current as [current|]; [|repeat split].
  set (P := fun s : Report =>
              metrics s = metrics self /\ options s = options self /\
              timestamp s = timestamp self /\ id s = id self /\
              tags s = tags self).
  assert (Hstep : forall o,
            preserves P (append_first_level o >> inner_add_metric o)).
  { intros o s HP.
    unfold bindR, append_first_level, modify, inner_add_metric. simpl.
    destruct (add_metric o _); simpl; exact HP. }
  assert (Hprov : forall key name, preserves P (record_provenance key name)).
  { intros key name s HP. unfold record_provenance.
    destruct (dict_get key _) as [[?|?|?]|]; simpl; exact HP. }
  assert (Hitem : forall data columns item,
            preserves P (run_item data columns item)).
  { intros data columns [m|cls str generate|cls generate_metrics|cls str]; simpl.
    - apply Hstep.
    - apply preserves_bindR; [|intros _; apply Hprov].
      apply preserves_for_each. intros [m|? ? ?|? ?|? ?]; simpl;
        try (intros s HP; exact HP). apply Hstep.
    - apply preserves_bindR; [|intros _; apply Hprov].
      apply preserves_for_each. intros o. apply Hstep.
    - intros s HP. exact HP. }
  change (P (snd (run env reference (Some current) mapping self))).
  rewrite run_present.
  match goal with
  | |- context [for_each ?l ?b ?s] =>
      assert (H0 : P s) by (repeat split);
      pose proof (preserves_for_each P b l (Hitem _ _) s H0) as HP;
      destruct (for_each l b s) as [[[]|e] self1]
  end; simpl in HP; [|exact HP].
  destruct (run_calculate env _ _); simpl; exact HP.
Qed.

(** X4.  An item that is neither a generator, a preset nor a unit.  [run] raises
    [ValueError] at the first such item; the units that stand before it in
    the configuration are already in the first-level list, nothing is
    computed and the metadata is as before. *)
Theorem run_rejects_unknown_item (self : Report) (reference : option DataFrame)
    (current : DataFrame) (mapping : option ColumnMapping)
    (pre : list Metric) (cls str : string) (post : list pyobj) :
  metrics self = map PyMetric pre ++ PyOther cls str :: post ->
  exists self',
    run env reference (Some current) mapping self
      = (Raise (ValueError
           "Incorrect item instead of a metric or metric preset was passed to Report"),
         self') /\
    _first_level_metrics self' = _first_level_metrics self ++ map PyMetric pre /\
    metadata self' = metadata self /\
    metric_results (context (_inner_suite self')) = [].
Proof.
  intros Hconf. rewrite run_present, Hconf, for_each_app.
  unfold bindR at 1. rewrite for_each_units by reflexivity.
  rewrite for_each_cons. cbn [run_item]. unfold raise.
  eexists. split; [reflexivity|].
  rewrite expand_units_first_level.
  destruct (expand_units_frame pre (prepared env current mapping self))
    as (Hmd & _ & _ & _ & _ & _ & _ & Hres & _).
  simpl in Hmd, Hres. rewrite Hmd, Hres. repeat split.
Qed.

(** X5.  A provenance key that does not hold a list.  When the metadata binds
    "metric_presets" to a value that is not a list and the configuration
    reaches a preset that emits units only, [run] raises [AttributeError] at
    the [append]; by then the units of that preset are in the first-level
    list, after the units standing before the preset; the metadata is as
    before. *)
Theorem run_provenance_needs_a_list (self : Report) (reference : option DataFrame)
    (current : DataFrame) (mapping : option ColumnMapping)
    (pre ms : list Metric) (cls : string)
    (generate_metrics : InputData -> DatasetColumns -> list pyobj)
    (post : list pyobj) (v : MetadataValueType) :
  metrics self = map PyMetric pre ++ PyPreset cls generate_metrics :: post ->
  preset_metrics
    (generate_metrics (expansion_data env reference current mapping)
       (process_columns env current (or_else mapping [])))
    (process_columns env current (or_else mapping [])) = map PyMetric ms ->
  dict_get METRIC_PRESETS (metadata self) = Some v ->
  (forall l, v <> MList l) ->
  exists self',
    run env reference (Some current) mapping self
      = (Raise (AttributeError "object has no attribute 'append'"), self') /\
    _first_level_metrics self'
      = _first_level_metrics self ++ map PyMetric (pre ++ ms) /\
    metadata self' = metadata self.
Proof.
  intros Hconf Hms Hv Hnot. rewrite run_present, Hconf, for_each_app.
  unfold bindR at 1. rewrite for_each_units by reflexivity.
  rewrite for_each_cons. rewrite (run_item_preset _ _ cls generate_metrics ms)
    by exact Hms.
  set (s2 := expand_units ms (expand_units pre (prepared env current mapping self))).
  assert (Hmd : metadata s2 = metadata self).
  { unfold s2.
    destruct (expand_units_frame ms
                (expand_units pre (prepared env current mapping self))) as (-> & _).
    destruct (expand_units_frame pre (prepared env current mapping self))
      as (-> & _). reflexivity. }
  assert (Hfl : _first_level_metrics s2
                = _first_level_metrics self ++ map PyMetric (pre ++ ms)).
  { unfold s2. rewrite !expand_units_first_level. simpl.
    rewrite map_app, app_assoc. reflexivity. }
  unfold record_provenance, dict_mem. rewrite Hmd, Hv. cbv beta iota.
  rewrite Hv.
  destruct v as [s|d|l]; try (eexists; split; [reflexivity|]; simpl; auto).
  exfalso. exact (Hnot l eq_refl).
Qed.

End RunMore.

(* ------------------------------------------------------------------ *)
(** ** Construction of a Report *)

Lemma opt_apply_setter_get (key : string) (o : option string) (self : Report)
    (k : string) :
  dict_get k
    (metadata
       (opt_apply
          (fun v r => with_metadata (dict_set key (MStr v) (metadata r)) r)
          o self))
  = if String.eqb k key
    then match o with
         | Some v => Some (MStr v)
         | None => dict_get k (metadata self)
         end
    else dict_get k (metadata self).
Proof.
  destruct o as [v|]; simpl.
  - destruct (String.eqb k key) eqn:E.
    + apply String.eqb_eq in E. subst k. apply dict_get_set_eq.
    + apply String.eqb_neq in E. apply dict_get_set_neq. exact E.
  - destruct (String.eqb k key); reflexivity.
Qed.

(** X6.  [Report.__init__] and the metadata.  A new Report has an empty
    first-level list.  Its metadata is the mapping given (empty when none is
    given) except at the keys "model_id", "batch_size", "reference_id" and
    "dataset_id": where the keyword argument of that name is given, the key
    holds that argument, also when the mapping given had the key. *)
Theorem Report_init_metadata (env : Collaborators) (config : list pyobj)
    (options0 : option Options) (timestamp0 : option datetime)
    (id0 : option UUID) (metadata0 : option (dict string MetadataValueType))
    (tags0 : option (list string))
    (model_id reference_id batch_size dataset_id : option string) :
  _first_level_metrics
    (Report_init env config options0 timestamp0 id0 metadata0 tags0
       model_id reference_id batch_size dataset_id) = [] /\
  forall k,
    dict_get k
      (metadata
         (Report_init env config options0 timestamp0 id0 metadata0 tags0
            model_id reference_id batch_size dataset_id))
    = match explicit_argument model_id reference_id batch_size dataset_id k with
      | Some v => Some (MStr v)
      | None => dict_get k (or_else metadata0 [])
      end.
Proof.
  split.
  - unfold Report_init.
    destruct dataset_id, reference_id, batch_size, model_id; reflexivity.
  - intros k. unfold Report_init, set_dataset_id, set_reference_id,
      set_batch_size, set_model_id, explicit_argument.
    rewrite !opt_apply_setter_get. cbn [metadata].
    destruct (String.eqb k "model_id") eqn:E1.
    { apply String.eqb_eq in E1. subst k. cbn.
      destruct model_id; reflexivity. }
    destruct (String.eqb k "batch_size") eqn:E2.
    { apply String.eqb_eq in E2. subst k. cbn.
      destruct batch_size; reflexivity. }
    destruct (String.eqb k "reference_id") eqn:E3.
    { apply String.eqb_eq in E3. subst k. cbn.
      destruct reference_id; reflexivity. }
    destruct (String.eqb k "dataset_id") eqn:E4.
    { destruct dataset_id; reflexivity. }
    reflexivity.
Qed.

(* ------------------------------------------------------------------ *)
(** ** The views, continued *)

(** X7.  [as_dict] on a Report whose first-level units can be rendered: one entry
    per first-level unit, repeated units included, in first-level order,
    under the one key "metrics"; each entry carries the unit's identifier
    and what its renderer makes of its Result, with the include and exclude
    options looked up under the unit's identifier. *)
Theorem as_dict_entries (self : Report) (include_render : bool)
    (include exclude : option (dict string IncludeOptions)) :
  renderable self = true ->
  as_dict self include_render include exclude
  = Ok [("metrics",
         map (fun m =>
                {| entry_metric := get_id m;
                   entry_result :=
                     json_of (context (_inner_suite self)) include_render
                       include exclude m |})
           (units_of (_first_level_metrics self)))].
Proof.
  unfold renderable, as_dict.
  set (c := context (_inner_suite self)).
  generalize (_first_level_metrics self) as l.
  intros l Hl.
  assert (H : map_result
            (fun metric =>
               renderer <- find_metric_renderer (type_name metric) (renderers c) ;;
               m <- as_metric metric ;;
               res <- renderer_render_json renderer c m include_render
                        (include_get include (get_id m))
                        (include_get exclude (get_id m)) ;;
               Ok {| entry_metric := get_id m; entry_result := res |}) l
          = Ok (map (fun m =>
                       {| entry_metric := get_id m;
                          entry_result :=
                            json_of c include_render include exclude m |})
                  (units_of l))).
  { induction l as [|o l IH]; [reflexivity|].
    simpl in Hl. destruct o as [m|? ? ?|? ?|? ?]; try discriminate.
    apply andb_true_iff in Hl. destruct Hl as [Hm Hl].
    apply andb_true_iff in Hm. destruct Hm as [Hrd Hres].
    unfold dict_mem in Hrd, Hres.
    destruct (dict_get (metric_type m) (renderers c)) as [rd|] eqn:Erd;
      [|discriminate].
    destruct (dict_get m (metric_results c)) as [r|] eqn:Eres; [|discriminate].
    cbn [map_result units_of flat_map app map]. rewrite (IH Hl).
    unfold find_metric_renderer. cbn [type_name]. rewrite Erd. cbn [bind as_metric].
    unfold renderer_render_json, get_result. rewrite Eres. cbn [bind].
    f_equal. f_equal. f_equal.
    unfold json_of. rewrite Erd, Eres. reflexivity. }
  rewrite H. reflexivity.
Qed.

Lemma as_pandas_tables (self : Report) (group : option string) :
  renderable self = true ->
  as_pandas self group
  = match group with
    | None =>
        match tables (context (_inner_suite self))
                (units_of (_first_level_metrics self)) with
        | [(_, df)] => Ok (Frame df)
        | d => Ok (FrameDict d)
        end
    | Some g =>
        match dict_get g (tables (context (_inner_suite self))
                            (units_of (_first_level_metrics self))) with
        | Some df => Ok (Frame df)
        | None => Raise (group_not_found g)
        end
    end.
Proof.
  intros Hr. unfold renderable in Hr. unfold as_pandas, tables.
  rewrite (as_pandas_collect_spec _ group _ [] Hr). cbn [bind].
  rewrite concat_groups by (apply group_frames_nonempty; constructor).
  cbn [bind]. destruct group as [g|].
  2:{ match goal with
      | |- match ?x with _ => _ end = _ =>
          generalize x; intros d; destruct d as [|[k v] [|p t]]; reflexivity
      end. }
  rewrite !dict_get_map_values, !group_frames_get. cbn [dict_get].
  assert (Hidem : with_id g (with_id g (units_of (_first_level_metrics self)))
                  = with_id g (units_of (_first_level_metrics self))).
  { unfold with_id. induction (units_of (_first_level_metrics self)) as [|m ms IH];
      [reflexivity|]. cbn [filter].
    destruct (eqb (get_id m) g) eqn:E; cbn [filter]; rewrite ?E, ?IH; reflexivity. }
  rewrite Hidem.
  destruct (map _ (with_id g _)); reflexivity.
Qed.

(** X8.  [as_pandas] with and without a group agree.  On a Report whose
    first-level units can be rendered: when the call without a group returns
    a mapping, the call with group [g] returns the table the mapping holds
    under [g], and raises [ValueError] when the mapping has no key [g]; when
    the call without a group returns one bare table, the call with the
    identifier of any first-level unit returns that same table. *)
Theorem as_pandas_group_agrees (self : Report) :
  renderable self = true ->
  (forall d g, as_pandas self None = Ok (FrameDict d) ->
     as_pandas self (Some g)
     = match dict_get g d with
       | Some df => Ok (Frame df)
       | None => Raise (group_not_found g)
       end) /\
  (forall df m, as_pandas self None = Ok (Frame df) ->
     In m (units_of (_first_level_metrics self)) ->
     as_pandas self (Some (get_id m)) = Ok (Frame df)).
Proof.
  intros Hr. rewrite (as_pandas_tables self None Hr).
  set (c := context (_inner_suite self)).
  set (units := units_of (_first_level_metrics self)).
  split.
  - intros d g Hd. rewrite (as_pandas_tables self (Some g) Hr).
    fold c units.
    assert (Heq : tables c units = d).
    { destruct (tables c units) as [|[k v] [|p t]]; congruence. }
    rewrite Heq. reflexivity.
  - intros df m Hd Hm. rewrite (as_pandas_tables self (Some (get_id m)) Hr).
    fold c units.
    assert (Hpresent : dict_get (get_id m) (tables c units) <> None).
    { unfold tables. rewrite dict_get_map_values, group_frames_get. cbn [dict_get].
      assert (Hin : In m (with_id (get_id m) units))
        by (apply with_id_spec; auto).
      destruct (with_id (get_id m) units); [contradiction|]. discriminate. }
    destruct (tables c units) as [|[k v] [|p t]]; try discriminate.
    injection Hd as ->. simpl in *.
    destruct (String.eqb (get_id m) k); [reflexivity | contradiction].
Qed.

(* ------------------------------------------------------------------ *)
(** ** Snapshots, continued: index bounds, restore and capture *)

Lemma list_getitem_in_range {A : Type} (l : list A) (i : Z) :
  (- Z.of_nat (List.length l) <= i < Z.of_nat (List.length l))%Z ->
  exists x, list_getitem l i = Ok x /\
            nth_error l (Z.to_nat (i mod Z.of_nat (List.length l))) = Some x.
Proof.
  intros Hi. unfold list_getitem. cbv zeta.
  set (n := Z.of_nat (List.length l)) in *.
  assert (Hj : (if (i <? 0)%Z then (i + n)%Z else i) = (i mod n)%Z).
  { destruct (i <? 0)%Z eqn:E.
    - apply Z.ltb_lt in E. apply (Z.mod_unique i n (-1)%Z); lia.
    - apply Z.ltb_ge in E. symmetry. apply Z.mod_small. lia. }
  rewrite Hj.
  assert (Hr : (0 <= i mod n < n)%Z) by (apply Z.mod_pos_bound; lia).
  assert (E1 : ((i mod n <? 0) || (n <=? i mod n))%Z = false).
  { apply orb_false_iff. split; [apply Z.ltb_ge | apply Z.leb_gt]; lia. }
  rewrite E1.
  destruct (nth_error l (Z.to_nat (i mod n))) as [x|] eqn:Hn.
  - exists x. auto.
  - apply nth_error_None in Hn. unfold n in Hr. lia.
Qed.

Lemma list_getitem_out_of_range {A : Type} (l : list A) (i : Z) :
  ~ (- Z.of_nat (List.length l) <= i < Z.of_nat (List.length l))%Z ->
  list_getitem l i = Raise (IndexError "list index out of range").
Proof.
  intros Hi. unfold list_getitem. cbv zeta.
  destruct (i <? 0)%Z eqn:E;
    [apply Z.ltb_lt in E | apply Z.ltb_ge in E];
    match goal with
    | |- context [(?a || ?b)%bool] => destruct (a || b)%bool eqn:E1
    end; try reflexivity;
    apply orb_false_iff in E1; destruct E1 as [E1 E2];
    apply Z.ltb_ge in E1; apply Z.leb_gt in E2; lia.
Qed.

Lemma list_getitem_cases {A : Type} (l : list A) (i : Z) :
  (exists x, list_getitem l i = Ok x) \/
  list_getitem l i = Raise (IndexError "list index out of range").
Proof.
  unfold list_getitem. cbv zeta. destruct (_ || _)%bool; [right; reflexivity|].
  destruct (nth_error l _) as [x|]; [left; eauto | right; reflexivity].
Qed.

Lemma getitems_in_range {A : Type} (l : list A) (ids : list Z) :
  Forall (fun i => (- Z.of_nat (List.length l) <= i < Z.of_nat (List.length l))%Z)
    ids ->
  exists xs,
    map_result (list_getitem l) ids = Ok xs /\
    Forall2 (fun i x =>
               nth_error l (Z.to_nat (i mod Z.of_nat (List.length l))) = Some x)
      ids xs.
Proof.
  induction 1 as [|i ids Hi _ IH].
  - exists []. split; [reflexivity | constructor].
  - destruct (list_getitem_in_range l i Hi) as (x & Hx & Hn).
    destruct IH as (xs & Hxs & Hall).
    exists (x :: xs). cbn [map_result]. rewrite Hx, Hxs.
    split; [reflexivity | constructor; assumption].
Qed.

Lemma getitems_out_of_range {A : Type} (l : list A) (ids : list Z) :
  Exists (fun i => ~ (- Z.of_nat (List.length l) <= i
                      < Z.of_nat (List.length l))%Z) ids ->
  map_result (list_getitem l) ids = Raise (IndexError "list index out of range").
Proof.
  induction 1 as [i ids Hi|i ids _ IH]; cbn [map_result].
  - rewrite (list_getitem_out_of_range l i Hi). reflexivity.
  - destruct (list_getitem_cases l i) as [[x ->]| ->]; [|reflexivity].
    cbn [bind]. rewrite IH. reflexivity.
Qed.

(** X9.  [_parse_snapshot] and the bounds of the first-level indices.  When every
    index [i] of the snapshot lies in [-n <= i < n], [n] the length of the
    snapshot's unit list, restore succeeds; the first-level list of the
    restored Report holds, for each index in order, the unit at position
    [i mod n] of the unit list (a negative index counts from the end); the
    configuration of the restored Report is that same list of units; the
    Suite holds the snapshot's unit list; id, timestamp, metadata, tags and
    options are the snapshot's. *)
Theorem parse_snapshot_in_range (env : Collaborators) (snapshot : Snapshot) :
  Forall (fun i => (- Z.of_nat (List.length (suite_metrics snapshot)) <= i
                    < Z.of_nat (List.length (suite_metrics snapshot)))%Z)
    (metrics_ids snapshot) ->
  exists r,
    _parse_snapshot env snapshot = Ok r /\
    Forall2 (fun i o =>
               exists m, o = PyMetric m /\
                 nth_error (suite_metrics snapshot)
                   (Z.to_nat (i mod Z.of_nat (List.length (suite_metrics snapshot))))
                 = Some m)
      (metrics_ids snapshot) (_first_level_metrics r) /\
    metrics r = _first_level_metrics r /\
    ctx_metrics (context (_inner_suite r)) = suite_metrics snapshot /\
    id r = snap_id snapshot /\ timestamp r = snap_timestamp snapshot /\
    metadata r = snap_metadata snapshot /\ tags r = snap_tags snapshot /\
    options r = snap_options snapshot.
Proof.
  intros Hids.
  destruct (getitems_in_range _ _ Hids) as (ms & Hms & Hall).
  unfold _parse_snapshot. cbn [ctx_metrics to_context]. rewrite Hms. cbn [bind].
  eexists. split; [reflexivity|]. cbn. repeat split.
  clear Hms Hids. induction Hall as [|i m ids ms Hm _ IH]; cbn [map].
  - constructor.
  - constructor; [exists m; auto | exact IH].
Qed.

(** X10.  [_parse_snapshot] with an index out of bounds.  When some first-level
    index of the snapshot lies outside [-n <= i < n], restore raises
    [IndexError]: no Report comes back, whatever the other indices are. *)
Theorem parse_snapshot_out_of_range (env : Collaborators) (snapshot : Snapshot) :
  Exists (fun i => ~ (- Z.of_nat (List.length (suite_metrics snapshot)) <= i
                      < Z.of_nat (List.length (suite_metrics snapshot)))%Z)
    (metrics_ids snapshot) ->
  _parse_snapshot env snapshot = Raise (IndexError "list index out of range").
Proof.
  intros Hids. unfold _parse_snapshot. cbn [ctx_metrics to_context].
  rewrite (getitems_out_of_range _ _ Hids). reflexivity.
Qed.

Lemma list_index_nth (l : list Metric) (k : nat) (m : Metric) :
  NoDup l -> nth_error l k = Some m -> list_index m l = Ok k.
Proof.
  revert k. induction l as [|y l IH]; intros k Hnd Hk.
  - destruct k; discriminate.
  - inversion Hnd as [|? ? Hnotin Hnd']; subst. cbn [list_index].
    destruct k as [|k]; simpl in Hk.
    + injection Hk as ->. rewrite eqb_refl. reflexivity.
    + destruct (eqb y m) eqn:E.
      * apply eqb_eq in E. subst y. exfalso. apply Hnotin.
        apply nth_error_In in Hk. exact Hk.
      * rewrite (IH k Hnd' Hk). reflexivity.
Qed.

Lemma restored_results_absent (units : list (Metric * MetricResult))
    (acc : dict Metric MetricResult) (m : Metric) :
  ~ In m (map fst units) ->
  dict_get m (fold_left (fun d '(m, r) => dict_set m r d) units acc)
  = dict_get m acc.
Proof.
  revert acc. induction units as [|[m0 r0] units IH]; simpl; intros acc Hnotin.
  - reflexivity.
  - rewrite IH by tauto. apply dict_get_set_neq. intros ->. tauto.
Qed.

Lemma restored_results_stored (units : list (Metric * MetricResult))
    (acc : dict Metric MetricResult) (m : Metric) (v : MetricResult) :
  NoDup (map fst units) -> In (m, v) units ->
  dict_get m (fold_left (fun d '(m, r) => dict_set m r d) units acc) = Some v.
Proof.
  revert acc. induction units as [|[m0 r0] units IH]; simpl; intros acc Hnd Hin.
  - destruct Hin.
  - inversion Hnd as [|? ? Hnotin Hnd']; subst. destruct Hin as [[= -> ->]|Hin].
    + rewrite restored_results_absent by exact Hnotin. apply dict_get_set_eq.
    + apply IH; assumption.
Qed.

Lemma map_result_all_ok {A B : Type} (f : A -> result B) (l : list A) (l' : list B) :
  map_result f l = Ok l' -> forall x, In x l -> exists y, f x = Ok y.
Proof.
  revert l'. induction l as [|x l IH]; simpl; intros l' Hm z Hz.
  - destruct Hz.
  - destruct (f x) as [b|e] eqn:Hf; simpl in Hm; [|discriminate].
    destruct (map_result f l) as [bs|e]; simpl in Hm; [|discriminate].
    destruct Hz as [<-|Hz]; [eauto | apply (IH bs eq_refl z Hz)].
Qed.

(** X11.  Restore, then capture.  For a snapshot whose unit list has no unit
    twice and whose first-level indices lie in [0 <= i < n]: restore
    succeeds, and capturing the restored Report gives the snapshot back,
    field by field. *)
Theorem capture_of_restored (env : Collaborators) (snapshot : Snapshot) :
  NoDup (suite_metrics snapshot) ->
  Forall (fun i => (0 <= i < Z.of_nat (List.length (suite_metrics snapshot)))%Z)
    (metrics_ids snapshot) ->
  exists r,
    _parse_snapshot env snapshot = Ok r /\ _get_snapshot r = Ok snapshot.
Proof.
  intros Hnd Hids.
  assert (Hms : map_result (list_getitem (suite_metrics snapshot))
                  (metrics_ids snapshot)
                = Ok (map (fun i => nth (Z.to_nat i) (suite_metrics snapshot)
                                      {| metric_type := ""; metric_args := [] |})
                        (metrics_ids snapshot))).
  { apply map_result_ok. intros i Hi.
    rewrite Forall_forall in Hids. specialize (Hids i Hi).
    rewrite <- (Z2Nat.id i) at 1 by lia. apply list_getitem_nat.
    apply nth_error_nth'. lia. }
  unfold _parse_snapshot. cbn [ctx_metrics to_context]. rewrite Hms. cbn [bind].
  eexists. split; [reflexivity|].
  unfold _get_snapshot, ReportBase_get_snapshot.
  cbn [_inner_suite with_inner_suite context ctx_metrics to_context
       _first_level_metrics with_first_level_metrics].
  assert (Hunits : map_result
                     (fun m => r <- get_result (to_context env snapshot) m ;;
                               Ok (m, r))
                     (suite_metrics snapshot) = Ok (snap_suite snapshot)).
  { unfold suite_metrics. rewrite map_result_map.
    rewrite <- (map_id (snap_suite snapshot)) at 2.
    apply map_result_ok. intros [m v] Hin. unfold get_result.
    cbn [fst metric_results to_context].
    rewrite (restored_results_stored _ [] m v Hnd Hin). reflexivity. }
  rewrite Hunits. cbn [bind]. unfold suite_metrics at 1. cbn [snap_suite].
  fold (suite_metrics snapshot).
  rewrite !map_result_map.
  assert (Hback : map_result
                    (fun i => index_of (suite_metrics snapshot)
                                (PyMetric
                                   (nth (Z.to_nat i) (suite_metrics snapshot)
                                      {| metric_type := ""; metric_args := [] |})))
                    (metrics_ids snapshot)
                  = Ok (metrics_ids snapshot)).
  { rewrite <- (map_id (metrics_ids snapshot)) at 2.
    apply map_result_ok. intros i Hi.
    rewrite Forall_forall in Hids. specialize (Hids i Hi).
    cbn [index_of].
    rewrite (list_index_nth _ (Z.to_nat i)); [|exact Hnd|apply nth_error_nth'; lia].
    cbn [bind]. rewrite Z2Nat.id by lia. reflexivity. }
  rewrite Hback. cbn [bind]. destruct snapshot. reflexivity.
Qed.

Lemma list_index_cases (m : Metric) (l : list Metric) :
  (exists k, list_index m l = Ok k /\ In m l) \/
  list_index m l = Raise (ValueError "x is not in list").
Proof.
  induction l as [|y l IH]; cbn [list_index]; [right; reflexivity|].
  destruct (eqb y m) eqn:E.
  - left. exists O. split; [reflexivity|]. left. apply eqb_eq. exact E.
  - destruct IH as [(k & -> & Hin)| ->].
    + left. exists (S k). split; [reflexivity | right; exact Hin].
    + right. reflexivity.
Qed.

Lemma list_index_In (m : Metric) (l : list Metric) (k : nat) :
  list_index m l = Ok k -> In m l.
Proof.
  destruct (list_index_cases m l) as [(k' & _ & Hin)| ->];
    [auto | discriminate].
Qed.

Lemma get_snapshot_inv (r : Report) (snapshot : Snapshot) :
  _get_snapshot r = Ok snapshot ->
  (forall o, In o (_first_level_metrics r) ->
     exists m, o = PyMetric m /\ In m (ctx_metrics (context (_inner_suite r)))) /\
  (forall m, In m (ctx_metrics (context (_inner_suite r))) ->
     dict_get m (metric_results (context (_inner_suite r))) <> None) /\
  snapshot = snapshot_of r.
Proof.
  unfold _get_snapshot, ReportBase_get_snapshot.
  destruct (map_result _ (ctx_metrics _)) as [units|e] eqn:Hunits;
    [|discriminate].
  cbn [bind snap_suite suite_metrics snap_id snap_timestamp snap_metadata
       snap_tags snap_options].
  destruct (map_result _ (_first_level_metrics r)) as [ids|e] eqn:Hids;
    [|discriminate].
  cbn [bind]. intros [= <-].
  assert (Hres : forall m, In m (ctx_metrics (context (_inner_suite r))) ->
            dict_get m (metric_results (context (_inner_suite r))) <> None).
  { intros m Hm. destruct (map_result_all_ok _ _ _ Hunits m Hm) as (y & Hy).
    unfold get_result in Hy. destruct (dict_get m _); discriminate. }
  assert (Hu : units = map (fun m => (m, value_of (context (_inner_suite r)) m))
                         (ctx_metrics (context (_inner_suite r)))).
  { rewrite (map_result_ok _
               (fun m => (m, value_of (context (_inner_suite r)) m))) in Hunits.
    - congruence.
    - intros m Hm. unfold get_result, value_of.
      destruct (dict_get m _) eqn:E; [reflexivity|].
      exfalso. exact (Hres m Hm E). }
  assert (Hfst : map fst units = ctx_metrics (context (_inner_suite r))).
  { rewrite Hu, map_map. cbn [fst]. apply map_id. }
  unfold suite_metrics in Hids. cbn [snap_suite] in Hids. rewrite Hfst in Hids.
  assert (Hfl : forall o, In o (_first_level_metrics r) ->
            exists m, o = PyMetric m /\
                      In m (ctx_metrics (context (_inner_suite r)))).
  { intros o Ho. destruct (map_result_all_ok _ _ _ Hids o Ho) as (i & Hi).
    destruct o as [m|? ? ?|? ?|? ?]; try discriminate.
    exists m. split; [reflexivity|]. cbn [index_of] in Hi.
    destruct (list_index m _) as [k|e] eqn:Hk; [|discriminate].
    apply (list_index_In m _ k Hk). }
  split; [exact Hfl|]. split; [exact Hres|].
  unfold snapshot_of. rewrite <- Hu. f_equal.
  rewrite (map_result_ok _
             (fun o => Z.of_nat (position (unit_of o)
                                   (ctx_metrics (context (_inner_suite r))))))
    in Hids.
  - congruence.
  - intros o Ho. destruct (Hfl o Ho) as (m & -> & Hm). simpl.
    destruct (list_index_position m _ Hm) as [-> _]. reflexivity.
Qed.

(** X12.  Capture, then restore, for any Report.  Whenever capture returns a
    snapshot (after one run or several, or on a restored Report), restore of
    that snapshot succeeds and the restored Report has the same first-level
    list, the same unit list in its Suite with the same Result for each of
    these units, and the same id, timestamp, metadata, tags and options. *)
Theorem restore_of_captured (env : Collaborators) (r : Report)
    (snapshot : Snapshot) :
  _get_snapshot r = Ok snapshot ->
  exists r',
    _parse_snapshot env snapshot = Ok r' /\
    _first_level_metrics r' = _first_level_metrics r /\
    ctx_metrics (context (_inner_suite r'))
      = ctx_metrics (context (_inner_suite r)) /\
    (forall m, In m (ctx_metrics (context (_inner_suite r))) ->
       get_result (context (_inner_suite r')) m
       = get_result (context (_inner_suite r)) m) /\
    id r' = id r /\ timestamp r' = timestamp r /\ metadata r' = metadata r /\
    tags r' = tags r /\ options r' = options r.
Proof.
  intros Hcap. apply get_snapshot_inv in Hcap.
  destruct Hcap as (Hfl & Hres & ->).
  assert (Hms : ctx_metrics (to_context env (snapshot_of r))
                = ctx_metrics (context (_inner_suite r))).
  { unfold to_context, suite_metrics, snapshot_of. cbn [ctx_metrics snap_suite].
    rewrite map_map. cbn [fst]. apply map_id. }
  unfold _parse_snapshot. rewrite Hms. unfold snapshot_of at 1.
  cbn [metrics_ids]. rewrite map_result_map.
  rewrite (map_result_ok _ unit_of).
  2:{ intros o Ho. destruct (Hfl o Ho) as (m & -> & Hm). simpl.
      apply list_getitem_nat. apply (list_index_position m _ Hm). }
  cbn [bind].
  assert (Hback : map PyMetric (map unit_of (_first_level_metrics r))
                  = _first_level_metrics r).
  { rewrite map_map. rewrite <- (map_id (_first_level_metrics r)) at 2.
    apply map_ext_in. intros o Ho. destruct (Hfl o Ho) as (m & -> & _).
    reflexivity. }
  rewrite Hback. eexists. split; [reflexivity|].
  cbn [_first_level_metrics with_inner_suite with_first_level_metrics
       _inner_suite context].
  split; [reflexivity|]. split; [exact Hms|]. split; [|repeat split].
  intros m Hm. unfold get_result, to_context, snapshot_of.
  cbn [metric_results snap_suite].
  rewrite (restored_results (value_of (context (_inner_suite r)))) by auto.
  unfold value_of. destruct (dict_get m _) eqn:E; [reflexivity|].
  exfalso. exact (Hres m Hm E).
Qed.

(** X13.  Capture of a Report with a first-level object the Suite does not hold.
    When every unit of the Suite has its Result and some first-level object
    is not a unit of the Suite's list (the state a second run on other data
    leaves behind), capture raises [ValueError]: no snapshot is made. *)
Theorem get_snapshot_unregistered (r : Report) :
  (forall m, In m (ctx_metrics (context (_inner_suite r))) ->
     dict_get m (metric_results (context (_inner_suite r))) <> None) ->
  Exists (fun o => forall m, o = PyMetric m ->
                     ~ In m (ctx_metrics (context (_inner_suite r))))
    (_first_level_metrics r) ->
  _get_snapshot r = Raise (ValueError "x is not in list").
Proof.
  intros Hres Hex. unfold _get_snapshot, ReportBase_get_snapshot.
  rewrite (map_result_ok _
             (fun m => (m, value_of (context (_inner_suite r)) m))).
  2:{ intros m Hm. unfold get_result, value_of.
      destruct (dict_get m _) eqn:E; [reflexivity|].
      exfalso. exact (Hres m Hm E). }
  cbn [bind]. unfold suite_metrics. cbn [snap_suite].
  rewrite map_map. cbn [fst]. rewrite map_id.
  assert (Hcases : forall o,
            (exists i, index_of (ctx_metrics (context (_inner_suite r))) o = Ok i /\
                       exists m, o = PyMetric m /\
                         In m (ctx_metrics (context (_inner_suite r)))) \/
            index_of (ctx_metrics (context (_inner_suite r))) o
            = Raise (ValueError "x is not in list")).
  { intros o. destruct o as [m|? ? ?|? ?|? ?]; try (right; reflexivity).
    cbn [index_of].
    destruct (list_index_cases m (ctx_metrics (context (_inner_suite r))))
      as [(k & -> & Hin)| ->]; [|right; reflexivity].
    left. exists (Z.of_nat k). split; [reflexivity|]. exists m. auto. }
  induction Hex as [o l Ho|o l _ IH]; cbn [map_result].
  - destruct (Hcases o) as [(i & _ & m & -> & Hin)| ->]; [|reflexivity].
    exfalso. exact (Ho m eq_refl Hin).
  - destruct (Hcases o) as [(i & -> & _)| ->]; [|reflexivity].
    cbn [bind]. destruct (map_result _ l) as [ids|e]; [discriminate|].
    cbn [bind] in *. injection IH as ->. reflexivity.
Qed.

Lemma for_each_shared_grows (fuel : nat) (ms : list Metric) (i : nat)
    (data : InputData) (columns : DatasetColumns) (self : Report) :
  metrics self = map PyMetric ms ->
  _first_level_metrics self = map PyMetric ms ->
  (i < List.length ms)%nat ->
  for_each_shared fuel i (run_item data columns) self = None.
Proof.
  revert ms i self. induction fuel as [|fuel IH]; intros ms i self Hc Hfl Hi;
    [reflexivity|].
  cbn [for_each_shared]. rewrite Hc.
  destruct (nth_error (map PyMetric ms) i) as [item|] eqn:Hn.
  2:{ apply nth_error_None in Hn. rewrite length_map in Hn. lia. }
  rewrite nth_error_map in Hn.
  destruct (nth_error ms i) as [m|]; [|discriminate]. injection Hn as <-.
  cbn [run_item].
  unfold bindR, append_first_level, modify, inner_add_metric. cbn [add_metric].
  assert (Hnext : forall s',
            _first_level_metrics s' = _first_level_metrics self ++ [PyMetric m] ->
            for_each_shared fuel (S i) (run_item data columns) (alias s') = None).
  { intros s' Hs'. apply (IH (ms ++ [m])).
    - cbn [alias metrics]. rewrite Hs', Hfl, map_app. reflexivity.
    - cbn [alias _first_level_metrics]. rewrite Hs', Hfl, map_app. reflexivity.
    - rewrite length_app. cbn [List.length]. lia. }
  destruct (list_contains m _); apply Hnext; reflexivity.
Qed.

(** X14.  A run of a restored Report.  A restored Report has one list
    object as its configuration and as its first-level list.  When that list
    holds no unit, [run] on a present dataset does what it does on a Report
    made by the constructor.  When it holds a unit, [run] does not return:
    every pass of its loop appends to the list the loop goes over, so for
    every bound on the number of passes the loop is still running. *)
Theorem run_of_restored_never_returns (env : Collaborators) (snapshot : Snapshot)
    (r : Report) (reference : option DataFrame) (current : DataFrame)
    (mapping : option ColumnMapping) :
  _parse_snapshot env snapshot = Ok r ->
  (metrics_ids snapshot = [] ->
   forall fuel,
     run_restored env (S fuel) reference (Some current) mapping r
     = Some (run env reference (Some current) mapping r)) /\
  (metrics_ids snapshot <> [] ->
   forall fuel,
     run_restored env fuel reference (Some current) mapping r = None).
Proof.
  unfold _parse_snapshot.
  destruct (map_result _ (metrics_ids snapshot)) as [ms|e] eqn:Hms;
    [|discriminate].
  cbn [bind]. intros [= <-]. apply map_result_length in Hms. split.
  - intros Hids fuel. rewrite Hids in Hms. destruct ms; [|discriminate].
    rewrite run_present. reflexivity.
  - intros Hids fuel. unfold run_restored.
    rewrite (for_each_shared_grows fuel ms 0); [reflexivity| | |].
    + reflexivity.
    + reflexivity.
    + destruct (metrics_ids snapshot); [contradiction|].
      destruct ms; [discriminate | cbn; lia].
Qed.

(* ------------------------------------------------------------------ *)
(** ** The loader, continued: bounds as a filter *)

Section DictFilter.
Context {K V : Type} `{EqDec K}.
Variable f : K -> bool.

Lemma dict_set_filter_keep (k : K) (v : V) (d : dict K V) :
  f k = true ->
  filter (fun p => f (fst p)) (dict_set k v d)
  = dict_set k v (filter (fun p => f (fst p)) d).
Proof.
  intros Hk. induction d as [|[k' v'] d IH]; cbn [dict_set filter fst].
  - rewrite Hk. reflexivity.
  - destruct (eqb k k') eqn:E.
    + apply eqb_eq in E. subst k'. cbn [filter fst]. rewrite Hk.
      cbn [dict_set]. rewrite eqb_refl. reflexivity.
    + cbn [filter fst]. destruct (f k').
      * cbn [dict_set]. rewrite E, IH. reflexivity.
      * exact IH.
Qed.

Lemma dict_set_filter_drop (k : K) (v : V) (d : dict K V) :
  f k = false ->
  filter (fun p => f (fst p)) (dict_set k v d) = filter (fun p => f (fst p)) d.
Proof.
  intros Hk. induction d as [|[k' v'] d IH]; cbn [dict_set filter fst].
  - rewrite Hk. reflexivity.
  - destruct (eqb k k') eqn:E.
    + apply eqb_eq in E. subst k'. cbn [filter fst]. rewrite Hk. reflexivity.
    + cbn [filter fst]. rewrite IH. reflexivity.
Qed.

End DictFilter.

Section LoaderMore.
Variable env : Collaborators.
Context {T : Type} (cls : Display T).

Lemma kept_filter (date_from date_to : option datetime) (suites : list T)
    (acc : dict datetime T) :
  kept cls date_from date_to suites
    (filter (fun p => in_rangeb date_from date_to (fst p)) acc)
  = filter (fun p => in_rangeb date_from date_to (fst p))
      (kept cls None None suites acc).
Proof.
  revert acc. induction suites as [|s suites IH]; intros acc; [reflexivity|].
  unfold kept in *. cbn [fold_left].
  change (in_rangeb None None (display_timestamp cls s)) with true. cbv iota.
  destruct (in_rangeb date_from date_to (display_timestamp cls s)) eqn:E.
  - rewrite <- (dict_set_filter_keep (in_rangeb date_from date_to)) by exact E.
    apply IH.
  - rewrite <- IH.
    rewrite (dict_set_filter_drop (in_rangeb date_from date_to)) by exact E.
    reflexivity.
Qed.

(** X15.  The bounds act as a filter on the keys.  [load_time_series_data] with
    bounds fails exactly when it fails without bounds, with the same
    exception: a file that cannot be loaded aborts the call whatever its
    timestamp would have been.  When it returns, its mapping is the mapping
    of the call without bounds with the keys out of range removed: the keys
    in range keep their order and their instance. *)
Theorem load_time_series_data_bounds_filter (path : string)
    (date_from date_to : option datetime) :
  load_time_series_data env path cls date_from date_to
  = (every <- load_time_series_data env path cls None None ;;
     Ok (filter (fun p => in_rangeb date_from date_to (fst p)) every)).
Proof.
  unfold load_time_series_data. rewrite !load_files_spec.
  destruct (loaded cls path (listdir env path)) as [suites|e]; [|reflexivity].
  cbn [bind]. rewrite <- kept_filter. reflexivity.
Qed.

End LoaderMore.

(* ------------------------------------------------------------------ *)
(** ** Time series, continued: the shape of the result *)

Section DictShape.
Context {K V : Type} `{EqDec K}.

Lemma dict_set_In_keys (k : K) (v : V) (d : dict K V) (x : K) :
  In x (dict_keys (dict_set k v d)) -> x = k \/ In x (dict_keys d).
Proof.
  unfold dict_keys. induction d as [|[k' v'] d IH]; cbn [dict_set map fst In].
  - intros [<-|[]]. auto.
  - destruct (eqb k k'); cbn [map fst In]; [tauto|].
    intros [<-|Hin]; [tauto|]. apply IH in Hin. tauto.
Qed.

Lemma dict_set_NoDup (k : K) (v : V) (d : dict K V) :
  NoDup (dict_keys d) -> NoDup (dict_keys (dict_set k v d)).
Proof.
  unfold dict_keys. induction d as [|[k' v'] d IH]; cbn [dict_set map fst];
    intros Hnd.
  - constructor; [intros [] | constructor].
  - inversion Hnd as [|? ? Hnotin Hnd']; subst.
    destruct (eqb k k') eqn:E; cbn [map fst]; [exact Hnd|].
    constructor; [|apply IH; exact Hnd'].
    intros Hin. apply dict_set_In_keys in Hin. destruct Hin as [->|Hin].
    + rewrite eqb_refl in E. discriminate.
    + exact (Hnotin Hin).
Qed.

Lemma dict_set_all (P : K * V -> Prop) (k : K) (v : V) (d : dict K V) :
  (forall k', P (k', v)) -> Forall P d -> Forall P (dict_set k v d).
Proof.
  intros Hv Hd. induction Hd as [|[k' v'] d Hp Hd IH]; cbn [dict_set].
  - constructor; [apply Hv | constructor].
  - destruct (eqb k k'); constructor; auto.
Qed.

Lemma dict_set_nonempty (k : K) (v : V) (d : dict K V) : dict_set k v d <> [].
Proof. destruct d as [|[k' v'] d]; cbn [dict_set]; [|destruct (eqb k k')]; discriminate. Qed.

End DictShape.

Lemma setitem_shape (m : Metric) (ts : datetime) (v : MetricResult)
    (acc : dict Metric (dict datetime MetricResult)) :
  series_shape acc -> series_shape (defaultdict_setitem m ts v acc).
Proof.
  intros [Hnd Hall]. unfold defaultdict_setitem. split.
  - apply dict_set_NoDup. exact Hnd.
  - apply dict_set_all; [|exact Hall]. intros k'. cbn [snd]. split.
    + apply dict_set_nonempty.
    + apply dict_set_NoDup. unfold or_else.
      destruct (dict_get m acc) as [inner|] eqn:Hm; [|constructor].
      apply dict_get_In in Hm. rewrite Forall_forall in Hall.
      apply (Hall _ Hm).
Qed.

Lemma read_first_level_shape (ts : datetime) (c : Context) (l : list pyobj)
    (acc res : dict Metric (dict datetime MetricResult)) :
  series_shape acc -> read_first_level ts c l acc = Ok res -> series_shape res.
Proof.
  revert acc. induction l as [|o l IH]; cbn [read_first_level]; intros acc Hacc.
  - intros [= <-]. exact Hacc.
  - destruct (as_metric o) as [m|e]; [|discriminate]. cbn [bind].
    destruct (get_result c m) as [v|e]; [|discriminate]. cbn [bind].
    apply IH. apply setitem_shape. exact Hacc.
Qed.

Lemma read_all_shape (items : list (datetime * Report))
    (acc res : dict Metric (dict datetime MetricResult)) :
  series_shape acc -> read_all items acc = Ok res -> series_shape res.
Proof.
  revert acc. induction items as [|[ts report] items IH]; cbn [read_all];
    intros acc Hacc.
  - intros [= <-]. exact Hacc.
  - destruct (read_first_level ts _ _ acc) as [acc'|e] eqn:Hstep; [|discriminate].
    cbn [bind]. apply IH. apply (read_first_level_shape _ _ _ _ _ Hacc Hstep).
Qed.

Lemma read_requested_shape (metric : MetricObject)
    (items : list (datetime * Report))
    (acc res : dict Metric (dict datetime MetricResult)) :
  series_shape acc -> read_requested metric items acc = Ok res -> series_shape res.
Proof.
  revert metric acc. induction items as [|[ts report] items IH];
    cbn [read_requested]; intros metric acc Hacc.
  - intros [= <-]. exact Hacc.
  - destruct (first_level_contains _ _); [|apply IH; exact Hacc].
    destruct (MetricObject_get_result _) as [v|e]; [|discriminate]. cbn [bind].
    apply IH. apply setitem_shape. exact Hacc.
Qed.

Lemma read_filtered_shape (requested : list MetricObject)
    (items : list (datetime * Report))
    (acc res : dict Metric (dict datetime MetricResult)) :
  series_shape acc -> read_filtered requested items acc = Ok res ->
  series_shape res.
Proof.
  revert acc. induction requested as [|metric requested IH];
    cbn [read_filtered]; intros acc Hacc.
  - intros [= <-]. exact Hacc.
  - destruct (read_requested metric items acc) as [acc'|e] eqn:Hstep;
      [|discriminate].
    cbn [bind]. apply IH. apply (read_requested_shape _ _ _ _ Hacc Hstep).
Qed.

(** X16.  No empty series.  Whenever [load_metric_time_series] returns, with or
    without a filter, the keys of its result are pairwise distinct units, the
    timestamps under each unit are pairwise distinct, and every unit that is
    a key has at least one entry: a requested unit that no loaded Report
    holds in its first-level list is no key of the result, it is not a key
    with an empty mapping. *)
Theorem load_metric_time_series_no_empty_series (env : Collaborators)
    (path : string) (date_from date_to : option datetime)
    (requested : option (list MetricObject))
    (res : dict Metric (dict datetime MetricResult)) :
  load_metric_time_series env path date_from date_to requested = Ok res ->
  NoDup (dict_keys res) /\
  Forall (fun p => NoDup (dict_keys (snd p))) res /\
  forall m, dict_get m res <> None -> exists ts v, lookup res m ts = Some v.
Proof.
  unfold load_metric_time_series.
  destruct (load_time_series_data env path _ date_from date_to)
    as [reports|e]; [|discriminate].
  cbn [bind]. intros Hres.
  assert (Hshape : series_shape res).
  { assert (H0 : series_shape []) by (split; constructor).
    destruct requested as [ms|].
    - apply (read_filtered_shape _ _ _ _ H0 Hres).
    - apply (read_all_shape _ _ _ H0 Hres). }
  destruct Hshape as [Hnd Hall]. split; [exact Hnd|]. split.
  - apply Forall_forall. intros p Hp. rewrite Forall_forall in Hall.
    apply (Hall p Hp).
  - intros m Hm. unfold lookup.
    destruct (dict_get m res) as [inner|] eqn:Hg; [|contradiction].
    apply dict_get_In in Hg. rewrite Forall_forall in Hall.
    destruct (Hall _ Hg) as [Hne _]. cbn [snd] in Hne.
    destruct inner as [|[ts v] inner]; [contradiction|].
    exists ts, v. cbn [dict_get]. rewrite eqb_refl. reflexivity.
Qed.

(* ------------------------------------------------------------------ *)
(** ** The dashboard view *)

Lemma append_graph_details (gs : list AdditionalGraph) (acc : list DetailsInfo) :
  fold_left append_graph gs acc = acc ++ map details_of gs.
Proof.
  revert acc. induction gs as [|g gs IH]; intros acc; cbn [fold_left map].
  - symmetry. apply app_nil_r.
  - rewrite IH. destruct g; cbn [append_graph]; rewrite <- app_assoc; reflexivity.
Qed.

Lemma append_graphs_details (html_info : list BaseWidgetInfo)
    (acc : list DetailsInfo) :
  append_graphs html_info acc
  = acc ++ map details_of (flat_map get_additional_graphs html_info).
Proof.
  unfold append_graphs. revert acc.
  induction html_info as [|w ws IH]; intros acc; cbn [fold_left flat_map].
  - symmetry. apply app_nil_r.
  - rewrite IH, append_graph_details, map_app, app_assoc. reflexivity.
Qed.

Lemma dashboard_collect_spec (rendering : HtmlRendering) (c : Context)
    (colors : ColorOptions) (l : list pyobj)
    (metrics_results : list BaseWidgetInfo) (additional_graphs : list DetailsInfo) :
  forallb (fun o => match o with
                    | PyMetric m =>
                        dict_mem (metric_type m) (renderers c) &&
                        dict_mem m (metric_results c)
                    | _ => false
                    end) l = true ->
  dashboard_collect rendering c colors l metrics_results additional_graphs
  = Ok (metrics_results ++ flat_map (html_of rendering colors c) (units_of l),
        additional_graphs
        ++ map details_of
             (flat_map get_additional_graphs
                (flat_map (html_of rendering colors c) (units_of l)))).
Proof.
  revert metrics_results additional_graphs.
  induction l as [|o l IH]; intros mr ag Hl.
  - cbn. rewrite !app_nil_r. reflexivity.
  - simpl in Hl. destruct o as [m|? ? ?|? ?|? ?]; try discriminate.
    apply andb_true_iff in Hl. destruct Hl as [Hm Hl].
    apply andb_true_iff in Hm. destruct Hm as [Hrd Hres].
    unfold dict_mem in Hrd, Hres.
    destruct (dict_get (metric_type m) (renderers c)) as [rd|] eqn:Erd;
      [|discriminate].
    destruct (dict_get m (metric_results c)) as [r|] eqn:Eres; [|discriminate].
    cbn [dashboard_collect type_name]. unfold find_metric_renderer.
    rewrite Erd. cbn [bind as_metric].
    unfold renderer_render_html, get_result. rewrite Eres. cbn [bind].
    rewrite (IH _ _ Hl), append_graphs_details.
    cbn [units_of flat_map app]. fold (units_of l).
    assert (Hh : html_of rendering colors c m = render_html rendering rd colors m r).
    { unfold html_of. rewrite Erd, Eres. reflexivity. }
    rewrite Hh, !flat_map_app, map_app, <- !app_assoc. reflexivity.
Qed.

Lemma graphs_table_details (rendering : HtmlRendering) (gs : list AdditionalGraph)
    (acc : dict string GraphData) :
  fold_left
    (fun d item =>
       dict_set (details_id item)
         (if is_dataclass rendering (details_info item)
          then AsDict (details_info item) else AsIs (details_info item)) d)
    (map details_of gs) acc
  = fold_left (fun d g => dict_set (graph_id g) (graph_data rendering g) d) gs acc.
Proof.
  revert acc. induction gs as [|g gs IH]; intros acc; cbn [fold_left map].
  - reflexivity.
  - rewrite IH. reflexivity.
Qed.

Lemma graphs_table_get (rendering : HtmlRendering) (gs : list AdditionalGraph)
    (acc : dict string GraphData) (gid : string) :
  dict_get gid
    (fold_left (fun d g => dict_set (graph_id g) (graph_data rendering g) d) gs acc)
  = match find (fun g => String.eqb (graph_id g) gid) (rev gs) with
    | Some g => Some (graph_data rendering g)
    | None => dict_get gid acc
    end.
Proof.
  revert acc. induction gs as [|g gs IH]; intros acc; cbn [fold_left rev].
  - reflexivity.
  - rewrite IH, find_app.
    destruct (find _ (rev gs)); [reflexivity|]. cbn [find].
    destruct (String.eqb (graph_id g) gid) eqn:E.
    + apply String.eqb_eq in E. subst gid. apply dict_get_set_eq.
    + apply String.eqb_neq in E. apply dict_get_set_neq. congruence.
Qed.

Lemma graphs_table_NoDup (rendering : HtmlRendering) (gs : list AdditionalGraph)
    (acc : dict string GraphData) :
  NoDup (dict_keys acc) ->
  NoDup (dict_keys
           (fold_left (fun d g => dict_set (graph_id g) (graph_data rendering g) d)
              gs acc)).
Proof.
  revert acc. induction gs as [|g gs IH]; intros acc Hnd; cbn [fold_left].
  - exact Hnd.
  - apply IH. apply dict_set_NoDup. exact Hnd.
Qed.

Lemma str_remove_absent (c : Ascii.ascii) (s : string) :
  ~ In c (list_ascii_of_string (str_remove c s)).
Proof.
  induction s as [|a s IH]; cbn [str_remove list_ascii_of_string].
  - intros [].
  - destruct (Ascii.eqb a c) eqn:E; [exact IH|].
    cbn [list_ascii_of_string In]. intros [->|Hin]; [|exact (IH Hin)].
    rewrite Ascii.eqb_refl in E. discriminate.
Qed.

(** X17.  [_build_dashboard_info] on a Report whose first-level units can be
    rendered.  The identifier of the dashboard is "evidently_dashboard_"
    followed by a text without hyphen.  The widgets of the dashboard are the
    widgets of the first-level units, unit after unit in first-level order,
    repeated units included, under the name "Report".  The side table has
    pairwise distinct keys, the graph ids that occur among the additional
    graphs of these widgets; when several graphs carry the same id, the key
    holds the payload of the last of them in widget order. *)
Theorem build_dashboard_info_contents (env : Collaborators)
    (rendering : HtmlRendering) (self : Report) :
  renderable self = true ->
  exists suffix graphs,
    ~ In hyphen (list_ascii_of_string suffix) /\
    _build_dashboard_info env rendering self
    = Ok (String.append "evidently_dashboard_" suffix,
          {| dashboard_name := "Report";
             widgets :=
               flat_map (html_of rendering (color_options rendering (options self))
                           (context (_inner_suite self)))
                 (units_of (_first_level_metrics self)) |},
          graphs) /\
    NoDup (dict_keys graphs) /\
    forall gid,
      dict_get gid graphs
      = option_map (graph_data rendering)
          (find (fun g => String.eqb (graph_id g) gid)
             (rev (flat_map get_additional_graphs
                     (flat_map (html_of rendering
                                  (color_options rendering (options self))
                                  (context (_inner_suite self)))
                        (units_of (_first_level_metrics self)))))).
Proof.
  intros Hr. unfold renderable in Hr. unfold _build_dashboard_info.
  rewrite (dashboard_collect_spec rendering _ _ _ [] [] Hr).
  cbn [bind app]. unfold graphs_table. rewrite graphs_table_details.
  eexists. eexists. split; [apply str_remove_absent|].
  split; [reflexivity|]. split.
  - apply graphs_table_NoDup. constructor.
  - intros gid. rewrite graphs_table_get. cbn [dict_get].
    destruct (find _ _); reflexivity.
Qed.

(* ------------------------------------------------------------------ *)
(** ** The binary classification test preset *)

(** X18.  [generate_tests] of [BinaryClassificationTestPreset].  The call raises
    [ValueError] exactly when the column description has no target.
    Otherwise it returns a list that starts with the drift test on the
    target column, built with the preset's statistical test and threshold;
    the list holds that test, the precision, recall, F1 and accuracy tests
    built with the preset's probability threshold, and [TestRocAuc] exactly
    when the data definition has prediction probabilities; it holds nothing
    else, and no test twice. *)
Theorem generate_tests_contents (access : ColumnAccess)
    (self : BinaryClassificationTestPreset) (data : InputData)
    (columns : DatasetColumns) :
  (utility_columns_target access columns = None <->
   generate_tests access self data columns
   = Raise (ValueError
              "Target column should be set in mapping and be present in data")) /\
  (forall e, generate_tests access self data columns = Raise e ->
     utility_columns_target access columns = None) /\
  (forall tests, generate_tests access self data columns = Ok tests ->
     exists target,
       utility_columns_target access columns = Some target /\
       hd_error tests
       = Some (TestColumnDrift target (stattest self) (stattest_threshold self)) /\
       NoDup tests /\
       forall t, In t tests <->
         t = TestColumnDrift target (stattest self) (stattest_threshold self) \/
         t = TestPrecisionScore (probas_threshold self) \/
         t = TestRecallScore (probas_threshold self) \/
         t = TestF1Score (probas_threshold self) \/
         t = TestAccuracyScore (probas_threshold self) \/
         (t = TestRocAuc /\ probas_present access data)).
Proof.
  unfold generate_tests, probas_present.
  destruct (utility_columns_target access columns) as [target|].
  2:{ split; [tauto|]. split; [reflexivity | discriminate]. }
  assert (Hnd5 : forall a b c, NoDup
            [TestColumnDrift target a b; TestPrecisionScore c;
             TestRecallScore c; TestF1Score c; TestAccuracyScore c]).
  { intros a b c. repeat constructor; cbn [In]; intuition discriminate. }
  assert (Hnd6 : forall a b c, NoDup
            [TestColumnDrift target a b; TestRocAuc; TestPrecisionScore c;
             TestRecallScore c; TestAccuracyScore c; TestF1Score c]).
  { intros a b c. repeat constructor; cbn [In]; intuition discriminate. }
  destruct (get_prediction_columns access (data_definition data)) as [pc|];
    [destruct (prediction_probas pc) as [probas|] eqn:Hp|]; cbn [negb].
  - split; [split; discriminate|]. split; [discriminate|].
    intros tests [= <-]. exists target. split; [reflexivity|].
    split; [reflexivity|]. split; [apply Hnd6|].
    intros t. cbn [In]. split.
    + intros [<-|[<-|[<-|[<-|[<-|[<-|[]]]]]]]; auto 10.
      right. right. right. right. right. split; [reflexivity|]. eauto.
    + intros [->|[->|[->|[->|[->|[-> _]]]]]]; auto 10.
  - split; [split; discriminate|]. split; [discriminate|].
    intros tests [= <-]. exists target. split; [reflexivity|].
    split; [reflexivity|]. split; [apply Hnd5|].
    intros t. cbn [In]. split.
    + intros [<-|[<-|[<-|[<-|[<-|[]]]]]]; auto 10.
    + intros [->|[->|[->|[->|[->|[-> (pc' & probas & [= <-] & Hq)]]]]]];
        auto 10. congruence.
  - split; [split; discriminate|]. split; [discriminate|].
    intros tests [= <-]. exists target. split; [reflexivity|].
    split; [reflexivity|]. split; [apply Hnd5|].
    intros t. cbn [In]. split.
    + intros [<-|[<-|[<-|[<-|[<-|[]]]]]]; auto 10.
    + intros [->|[->|[->|[->|[->|[-> (pc' & probas & Hq & _)]]]]]];
        auto 10. discriminate.
Qed.

(* ------------------------------------------------------------------ *)
(** ** What a run does to the Suite *)

Lemma units_of_In (m : Metric) (l : list pyobj) :
  In m (units_of l) <-> In (PyMetric m) l.
Proof.
  unfold units_of. rewrite in_flat_map. split.
  - intros (o & Ho & Hm). destruct o as [m'|? ? ?|? ?|? ?];
      [|destruct Hm|destruct Hm|destruct Hm].
    destruct Hm as [<-|[]]. exact Ho.
  - intros Hin. exists (PyMetric m). split; [exact Hin | left; reflexivity].
Qed.

Lemma units_of_app (l1 l2 : list pyobj) :
  units_of (l1 ++ l2) = units_of l1 ++ units_of l2.
Proof. apply flat_map_app. Qed.

Lemma registered_app (ms1 ms2 l : list Metric) :
  registered (ms1 ++ ms2) l = registered ms2 (registered ms1 l).
Proof. apply fold_left_app. Qed.

Lemma units_of_cons (m : Metric) (l : list pyobj) :
  units_of (PyMetric m :: l) = m :: units_of l.
Proof. reflexivity. Qed.

Lemma registered_cons (m : Metric) (ms l : list Metric) :
  registered (m :: ms) l
  = registered ms (if list_contains m l then l else l ++ [m]).
Proof. reflexivity. Qed.

Section RunSuite.
Variable env : Collaborators.

Lemma register_all_suite (l : list pyobj) (self self' : Report) (a : unit) :
  for_each l (fun o => append_first_level o >> inner_add_metric o) self
    = (Ok a, self') ->
  ctx_metrics (context (_inner_suite self'))
    = registered (units_of l) (ctx_metrics (context (_inner_suite self))) /\
  metric_results (context (_inner_suite self'))
    = metric_results (context (_inner_suite self)).
Proof.
  revert self. induction l as [|o l IH]; intros self.
  - simpl. unfold ret. intros [= _ <-]. auto.
  - rewrite for_each_cons.
    destruct ((append_first_level o >> inner_add_metric o) self)
      as [[[]|e] self1] eqn:Hstep; [|discriminate].
    intros Hrest. apply IH in Hrest. destruct Hrest as [Hms Hres].
    destruct o as [m|? ? ?|? ?|? ?];
      [rewrite units_of_cons, registered_cons|..];
      revert Hstep; unfold bindR, append_first_level, modify, inner_add_metric;
      simpl; try discriminate.
    destruct (list_contains m _); intros [= <-]; simpl in Hms, Hres;
      rewrite Hms, Hres; auto.
Qed.

Lemma generated_all_suite (str : string) (l : list pyobj)
    (self self' : Report) (a : unit) :
  for_each l (run_generated str) self = (Ok a, self') ->
  ctx_metrics (context (_inner_suite self'))
    = registered (units_of l) (ctx_metrics (context (_inner_suite self))) /\
  metric_results (context (_inner_suite self'))
    = metric_results (context (_inner_suite self)).
Proof.
  revert self. induction l as [|o l IH]; intros self.
  - simpl. unfold ret. intros [= _ <-]. auto.
  - rewrite for_each_cons.
    destruct (run_generated str o self) as [[[]|e] self1] eqn:Hstep;
      [|discriminate].
    intros Hrest. apply IH in Hrest. destruct Hrest as [Hms Hres].
    destruct o as [m|? ? ?|? ?|? ?]; try discriminate.
    rewrite units_of_cons, registered_cons.
    revert Hstep. cbn [run_generated].
    unfold bindR, append_first_level, modify, inner_add_metric. simpl.
    destruct (list_contains m _); intros [= <-]; simpl in Hms, Hres;
      rewrite Hms, Hres; auto.
Qed.

Lemma record_provenance_suite (key name : string) (self : Report) :
  _inner_suite (snd (record_provenance key name self)) = _inner_suite self.
Proof.
  unfold record_provenance.
  destruct (dict_get key _) as [[?|?|?]|]; reflexivity.
Qed.

Lemma run_item_suite (data : InputData) (columns : DatasetColumns) (item : pyobj)
    (self self' : Report) (a : unit) :
  run_item data columns item self = (Ok a, self') ->
  ctx_metrics (context (_inner_suite self'))
    = registered (units_of (expansion data columns item))
        (ctx_metrics (context (_inner_suite self))) /\
  metric_results (context (_inner_suite self'))
    = metric_results (context (_inner_suite self)).
Proof.
  destruct item as [m|cls str generate|cls generate_metrics|cls str];
    cbn [run_item expansion].
  - intros H. apply (register_all_suite [PyMetric m] self self' a).
    rewrite for_each_cons. revert H.
    destruct ((append_first_level (PyMetric m) >> inner_add_metric (PyMetric m))
                self) as [[[]|e] s1]; [|discriminate].
    destruct a. intros [= <-]. reflexivity.
  - unfold bindR at 1.
    destruct (for_each (generate columns) (run_generated str) self)
      as [[[]|e] s1] eqn:Hloop; [|discriminate].
    apply generated_all_suite in Hloop. destruct Hloop as [Hms Hres].
    intros Hrec.
    pose proof (record_provenance_suite METRIC_GENERATORS cls s1) as Hs.
    rewrite Hrec in Hs. cbn [snd] in Hs. rewrite Hs. auto.
  - unfold bindR at 1.
    destruct (for_each _ _ self) as [[[]|e] s1] eqn:Hloop; [|discriminate].
    apply register_all_suite in Hloop. destruct Hloop as [Hms Hres].
    intros Hrec.
    pose proof (record_provenance_suite METRIC_PRESETS cls s1) as Hs.
    rewrite Hrec in Hs. cbn [snd] in Hs. rewrite Hs. auto.
  - discriminate.
Qed.

Lemma expansion_loop_suite (data : InputData) (columns : DatasetColumns)
    (items : list pyobj) (self self' : Report) (a : unit) :
  for_each items (run_item data columns) self = (Ok a, self') ->
  ctx_metrics (context (_inner_suite self'))
    = registered (units_of (flat_map (expansion data columns) items))
        (ctx_metrics (context (_inner_suite self))) /\
  metric_results (context (_inner_suite self'))
    = metric_results (context (_inner_suite self)).
Proof.
  revert self. induction items as [|item items IH]; intros self.
  - simpl. unfold ret. intros [= _ <-]. auto.
  - rewrite for_each_cons.
    destruct (run_item data columns item self) as [[[]|e] s1] eqn:Hitem;
      [|discriminate].
    apply run_item_suite in Hitem. destruct Hitem as [Hms Hres].
    intros Hrest. apply IH in Hrest. destruct Hrest as [Hms' Hres'].
    cbn [flat_map]. rewrite units_of_app, registered_app, Hms', Hms, Hres', Hres.
    auto.
Qed.

End RunSuite.

(* ------------------------------------------------------------------ *)
(** ** A generator that emits an element that is not a unit *)

Lemma units_only_metadata (data : InputData) (columns : DatasetColumns)
    (items : list pyobj) (self self' : Report) (a : unit) :
  preset_names items = [] -> generator_names items = [] ->
  for_each items (run_item data columns) self = (Ok a, self') ->
  metadata self' = metadata self.
Proof.
  revert self. induction items as [|item items IH]; intros self Hp Hg.
  - simpl. unfold ret. intros [= _ <-]. reflexivity.
  - rewrite for_each_cons.
    destruct item as [m|cls str generate|cls generate_metrics|cls str];
      try discriminate.
    destruct (run_item data columns (PyMetric m) self) as [[[]|e] s1] eqn:Hstep;
      [|discriminate].
    intros Hrest. rewrite (IH s1 Hp Hg Hrest).
    revert Hstep. cbn [run_item].
    unfold bindR, append_first_level, modify, inner_add_metric. cbn.
    destruct (list_contains m _); intros [= <-]; reflexivity.
Qed.

(** C3 (as amended).  When the run reaches a generator of the configuration
    (the items before it expand without error) and the generator emits an
    element that is not a unit, [run] raises [ValueError] ("Incorrect metric
    type in generator ...") at that element.  The abort is not atomic: what
    the items before the generator expanded to and the units the generator
    emitted before the invalid element stay in the first-level list, in
    order, and stay registered with the Suite.  Nothing after the invalid
    element is processed: the name of the generator is not recorded, the
    provenance lists hold the names of the presets and generators that stand
    before it, every other key of the metadata is as before (the whole
    metadata when only units stand before the generator), and no Result is
    computed. *)
Theorem run_invalid_generated_element (env : Collaborators) (self : Report)
    (reference : option DataFrame) (current : DataFrame)
    (mapping : option ColumnMapping) (pre : list pyobj) (good : list Metric)
    (cls str : string) (generate : DatasetColumns -> list pyobj)
    (bad : pyobj) (rest post : list pyobj) :
  metrics self = pre ++ PyGenerator cls str generate :: post ->
  fst (for_each pre
         (run_item (expansion_data env reference current mapping)
            (process_columns env current (or_else mapping [])))
         (prepared env current mapping self)) = Ok tt ->
  generate (process_columns env current (or_else mapping []))
    = map PyMetric good ++ bad :: rest ->
  (forall m, bad <> PyMetric m) ->
  exists self',
    run env reference (Some current) mapping self
      = (Raise (ValueError
                  (String.append "Incorrect metric type in generator " str)),
         self') /\
    _first_level_metrics self'
      = _first_level_metrics self
        ++ flat_map (expansion (expansion_data env reference current mapping)
                       (process_columns env current (or_else mapping []))) pre
        ++ map PyMetric good /\
    (forall m, In m (ctx_metrics (context (_inner_suite self')))
               <-> In (PyMetric m)
                     (flat_map (expansion (expansion_data env reference current mapping)
                                  (process_columns env current (or_else mapping [])))
                        pre)
                   \/ In m good) /\
    provenance METRIC_GENERATORS (metadata self')
      = provenance METRIC_GENERATORS (metadata self) ++ generator_names pre /\
    provenance METRIC_PRESETS (metadata self')
      = provenance METRIC_PRESETS (metadata self) ++ preset_names pre /\
    (forall k, k <> METRIC_PRESETS -> k <> METRIC_GENERATORS ->
       dict_get k (metadata self') = dict_get k (metadata self)) /\
    (preset_names pre = [] -> generator_names pre = [] ->
     metadata self' = metadata self) /\
    metric_results (context (_inner_suite self')) = [].
Proof.
  intros Hconf Hpre Hgen Hbad. rewrite run_present, Hconf, for_each_app.
  unfold bindR at 1.
  destruct (for_each pre _ _) as [[[]|e] s1] eqn:Hloop; cbn [fst] in Hpre;
    [|discriminate].
  rewrite for_each_cons. cbn [run_item]. unfold bindR at 1.
  rewrite Hgen, generated_stops_at_invalid by exact Hbad.
  eexists. split; [reflexivity|].
  pose proof (expansion_loop_ok _ _ _ _ _ _ Hloop) as (Hfl & Hp & Hg & Hk).
  pose proof (expansion_loop_suite _ _ _ _ _ _ Hloop) as (Hms & Hres).
  cbn [prepared _first_level_metrics metadata _inner_suite with_inner_suite
       with_columns_info verify reset context with_state with_metric_results
       with_metrics ctx_metrics metric_results] in Hfl, Hp, Hg, Hk, Hms, Hres.
  rewrite expand_units_first_level, expand_units_ctx_metrics.
  destruct (expand_units_frame good s1)
    as (Hmd & _ & _ & _ & _ & _ & _ & Hres' & _).
  cbv zeta in Hmd, Hres'. rewrite Hmd, Hres', Hres, Hfl, Hms, Hp, Hg.
  split; [rewrite <- app_assoc; reflexivity|].
  split.
  { intros m. rewrite !registered_In, units_of_In. cbn [In]. tauto. }
  split; [reflexivity|]. split; [reflexivity|]. split; [exact Hk|].
  split; [|reflexivity].
  intros Hnp Hng.
  apply (units_only_metadata _ _ _ _ _ _ Hnp Hng Hloop).
Qed.

Lemma run_invalid_generated_element_witness :
  exists self',
    run env None (Some frame_a) None (fresh [PresetP; BadGenerator])
      = (Raise (ValueError "Incorrect metric type in generator <BadGenerator>"),
         self') /\
    _first_level_metrics self'
      = [PyMetric UnitB; PyMetric UnitC; PyMetric UnitA] /\
    (forall m, In m (ctx_metrics (context (_inner_suite self')))
               <-> In m [UnitB; UnitC; UnitA]) /\
    provenance METRIC_GENERATORS (metadata self') = [] /\
    provenance METRIC_PRESETS (metadata self') = ["PresetP"] /\
    metric_results (context (_inner_suite self')) = [].
Proof.
  destruct (run_invalid_generated_element env
              (fresh [PresetP; BadGenerator]) None frame_a None
              [PresetP] [UnitA] "BadGenerator" "<BadGenerator>"
              (fun _ => [PyMetric UnitA; PyOther "str" "oops"; PyMetric UnitB])
              (PyOther "str" "oops") [PyMetric UnitB] [])
    as (self' & Hrun & Hfl & Hms & Hg & Hp & _ & _ & Hres).
  - reflexivity.
  - vm_compute. reflexivity.
  - reflexivity.
  - discriminate.
  - exists self'. split; [exact Hrun|]. split; [exact Hfl|]. split.
    + intros m. rewrite Hms. cbn. split.
      * intros [[H|[H|[]]]|[H|[]]].
        -- injection H as <-. left. reflexivity.
        -- injection H as <-. right. left. reflexivity.
        -- subst m. right. right. left. reflexivity.
      * intros [<-|[<-|[<-|[]]]].
        -- left. left. reflexivity.
        -- left. right. left. reflexivity.
        -- right. left. reflexivity.
    + split; [exact Hg|]. split; [exact Hp | exact Hres].
Defined.

(* ------------------------------------------------------------------ *)
(** ** The further properties on the concrete Reports and snapshots *)

Lemma run_first_level_order_witness :
  _first_level_metrics completed_three
  = [] ++ flat_map (expansion (expansion_data env None frame_a None)
                      (process_columns env frame_a (or_else None [])))
            [PyMetric UnitA; PresetP].
Proof.
  apply (run_first_level_order env (fresh [PyMetric UnitA; PresetP])
           completed_three None frame_a None).
  vm_compute. reflexivity.
Defined.

Lemma run_records_provenance_witness :
  provenance METRIC_PRESETS (metadata completed_three) = [] ++ ["PresetP"] /\
  provenance METRIC_GENERATORS (metadata completed_three) = [] ++ [] /\
  (forall k, k <> METRIC_PRESETS -> k <> METRIC_GENERATORS ->
     dict_get k (metadata completed_three) = None).
Proof.
  apply (run_records_provenance env (fresh [PyMetric UnitA; PresetP])
           completed_three None frame_a None).
  vm_compute. reflexivity.
Defined.

Lemma run_rejects_unknown_item_witness :
  exists self',
    run env None (Some frame_a) None
      (fresh [PyMetric UnitA; PyOther "str" "UnitB"; PyMetric UnitC])
      = (Raise (ValueError
           "Incorrect item instead of a metric or metric preset was passed to Report"),
         self') /\
    _first_level_metrics self' = [] ++ [PyMetric UnitA] /\
    metadata self' = [] /\
    metric_results (context (_inner_suite self')) = [].
Proof.
  apply (run_rejects_unknown_item env
           (fresh [PyMetric UnitA; PyOther "str" "UnitB"; PyMetric UnitC])
           None frame_a None [UnitA] "str" "UnitB" [PyMetric UnitC]).
  reflexivity.
Defined.

Lemma run_provenance_needs_a_list_witness :
  exists self',
    run env None (Some frame_a) None mislabelled
      = (Raise (AttributeError "object has no attribute 'append'"), self') /\
    _first_level_metrics self' = [] ++ map PyMetric ([UnitA] ++ [UnitB; UnitC]) /\
    metadata self' = [("metric_presets", MStr "PresetP")].
Proof.
  apply (run_provenance_needs_a_list env mislabelled None frame_a None
           [UnitA] [UnitB; UnitC] "PresetP"
           (fun _ _ => [PyMetric UnitB; PyMetric UnitC]) [] (MStr "PresetP")).
  - reflexivity.
  - reflexivity.
  - reflexivity.
  - discriminate.
Defined.

Lemma as_dict_entries_witness :
  as_dict completed_three true None None
  = Ok [("metrics",
         [{| entry_metric := "UnitA"; entry_result := "result of UnitA" |};
          {| entry_metric := "UnitB"; entry_result := "result of UnitB" |};
          {| entry_metric := "UnitC"; entry_result := "result of UnitC" |}])].
Proof.
  apply (as_dict_entries completed_three true None None).
  vm_compute. reflexivity.
Defined.

Lemma as_pandas_group_agrees_witness :
  (forall d g, as_pandas completed_three None = Ok (FrameDict d) ->
     as_pandas completed_three (Some g)
     = match dict_get g d with
       | Some df => Ok (Frame df)
       | None => Raise (group_not_found g)
       end) /\
  (forall df m, as_pandas completed_three None = Ok (Frame df) ->
     In m (units_of (_first_level_metrics completed_three)) ->
     as_pandas completed_three (Some (get_id m)) = Ok (Frame df)).
Proof.
  apply (as_pandas_group_agrees completed_three).
  vm_compute. reflexivity.
Defined.

Lemma build_dashboard_info_contents_witness :
  exists suffix graphs,
    ~ In hyphen (list_ascii_of_string suffix) /\
    _build_dashboard_info env plain_rendering completed_three
    = Ok (String.append "evidently_dashboard_" suffix,
          {| dashboard_name := "Report";
             widgets :=
               flat_map (html_of plain_rendering
                           (color_options plain_rendering (options completed_three))
                           (context (_inner_suite completed_three)))
                 (units_of (_first_level_metrics completed_three)) |},
          graphs) /\
    NoDup (dict_keys graphs) /\
    forall gid,
      dict_get gid graphs
      = option_map (graph_data plain_rendering)
          (find (fun g => String.eqb (graph_id g) gid)
             (rev (flat_map get_additional_graphs
                     (flat_map (html_of plain_rendering
                                  (color_options plain_rendering
                                     (options completed_three))
                                  (context (_inner_suite completed_three)))
                        (units_of (_first_level_metrics completed_three)))))).
Proof.
  apply (build_dashboard_info_contents env plain_rendering completed_three).
  vm_compute. reflexivity.
Defined.

Lemma parse_snapshot_in_range_witness :
  exists r,
    _parse_snapshot env snapshot_negative = Ok r /\
    _first_level_metrics r = [PyMetric UnitB; PyMetric UnitA] /\
    metrics r = _first_level_metrics r.
Proof.
  destruct (parse_snapshot_in_range env snapshot_negative)
    as (r & Hparse & _ & Hconf & _).
  { repeat (apply Forall_cons;
              [vm_compute; split; [discriminate | reflexivity]|]).
    apply Forall_nil. }
  exists r. split; [exact Hparse|]. split; [|exact Hconf].
  revert Hparse. vm_compute. intros [= <-]. reflexivity.
Defined.

Lemma parse_snapshot_out_of_range_witness :
  _parse_snapshot env snapshot_broken
  = Raise (IndexError "list index out of range").
Proof.
  apply (parse_snapshot_out_of_range env snapshot_broken).
  apply Exists_cons_tl, Exists_cons_hd. vm_compute. intros [_ H].
  discriminate H.
Defined.

Lemma capture_of_restored_witness :
  exists r,
    _parse_snapshot env snapshot_two = Ok r /\ _get_snapshot r = Ok snapshot_two.
Proof.
  apply (capture_of_restored env snapshot_two).
  - repeat constructor; cbn [In]; intuition discriminate.
  - repeat (apply Forall_cons;
              [vm_compute; split; [discriminate | reflexivity]|]).
    apply Forall_nil.
Defined.

Lemma restore_of_captured_witness :
  _get_snapshot completed_same = Ok (snapshot_of completed_same) /\
  metrics_ids (snapshot_of completed_same) = [0%Z; 0%Z] /\
  exists r',
    _parse_snapshot env (snapshot_of completed_same) = Ok r' /\
    _first_level_metrics r' = _first_level_metrics completed_same.
Proof.
  assert (Hcap : _get_snapshot completed_same = Ok (snapshot_of completed_same))
    by (vm_compute; reflexivity).
  split; [exact Hcap|]. split; [vm_compute; reflexivity|].
  destruct (restore_of_captured env completed_same (snapshot_of completed_same)
              Hcap) as (r' & Hparse & Hfl & _).
  exists r'. auto.
Defined.

Lemma get_snapshot_unregistered_witness :
  _get_snapshot rerun_on_other_data = Raise (ValueError "x is not in list").
Proof.
  apply (get_snapshot_unregistered rerun_on_other_data).
  - intros m Hm. vm_compute in Hm. destruct Hm as [<-|[]].
    vm_compute. discriminate.
  - apply Exists_cons_hd. intros m Heq Hm. vm_compute in Hm, Heq.
    destruct Hm as [<-|[]]. discriminate.
Defined.

Lemma run_of_restored_never_returns_witness :
  _parse_snapshot env snapshot_two = Ok report_two /\
  run_restored env 1000 None (Some frame_a) None report_two = None.
Proof.
  split; [reflexivity|].
  apply (proj2 (run_of_restored_never_returns env snapshot_two report_two
                  None frame_a None eq_refl)).
  discriminate.
Defined.

Lemma load_metric_time_series_no_empty_series_witness :
  exists res,
    load_metric_time_series env "store" None None None = Ok res /\
    NoDup (dict_keys res) /\
    Forall (fun p => NoDup (dict_keys (snd p))) res /\
    forall m, dict_get m res <> None -> exists ts v, lookup res m ts = Some v.
Proof.
  eexists. split; [vm_compute; reflexivity|].
  apply (load_metric_time_series_no_empty_series env "store" None None None).
  vm_compute. reflexivity.
Defined.

(* ------------------------------------------------------------------ *)
(** ** Time series under date bounds *)

Lemma hit_filter (date_from date_to : option datetime)
    (items : list (datetime * Report)) (m : Metric) (ts : datetime) :
  hit (filter (fun p => in_rangeb date_from date_to (fst p)) items) m ts
  = if in_rangeb date_from date_to ts then hit items m ts else None.
Proof.
  induction items as [|[ts0 report] items IH]; cbn [filter fst hit].
  - destruct (in_rangeb _ _ ts); reflexivity.
  - destruct (in_rangeb date_from date_to ts0) eqn:E0; cbn [hit]; rewrite IH.
    + destruct (in_rangeb date_from date_to ts) eqn:E; [reflexivity|].
      destruct (Z.eqb ts ts0) eqn:Et; [|reflexivity].
      apply Z.eqb_eq in Et. subst ts0. congruence.
    + destruct (in_rangeb date_from date_to ts) eqn:E; [|reflexivity].
      destruct (hit items m ts); [reflexivity|].
      destruct (Z.eqb ts ts0) eqn:Et; [|reflexivity].
      apply Z.eqb_eq in Et. subst ts0. congruence.
Qed.

Lemma kept_readable (env : Collaborators) (path : string) (files : list string)
    (suites : list Report) (date_from date_to : option datetime)
    (ts : datetime) (r : Report) :
  loaded (Report_Display env) path files = Ok suites ->
  In (ts, r) (kept (Report_Display env) date_from date_to suites []) ->
  readable r.
Proof.
  intros Hl Hin.
  apply dict_In_get in Hin; [|apply kept_NoDup; constructor].
  rewrite kept_get in Hin. cbn [dict_get] in Hin.
  destruct (last_at _ _ _ _ _) as [s|] eqn:Hs; [|discriminate].
  injection Hin as <-. apply last_at_sound in Hs.
  apply (loaded_readable env _ _ _ Hl). tauto.
Qed.

(** X20.  Date bounds only remove entries.  When [load_metric_time_series]
    without bounds returns [every], the call with bounds, on the same
    directory and with the same filter, returns as well, and its result
    holds under each unit the entries of [every] whose timestamp lies in
    range, with the same Result, and no entry for a timestamp out of range. *)
Theorem load_metric_time_series_bounds (env : Collaborators) (path : string)
    (date_from date_to : option datetime)
    (requested : option (list MetricObject))
    (every : dict Metric (dict datetime MetricResult)) :
  load_metric_time_series env path None None requested = Ok every ->
  exists res,
    load_metric_time_series env path date_from date_to requested = Ok res /\
    forall m ts,
      lookup res m ts
      = if in_rangeb date_from date_to ts then lookup every m ts else None.
Proof.
  unfold load_metric_time_series, load_time_series_data.
  rewrite !load_files_spec.
  destruct (loaded (Report_Display env) path (listdir env path))
    as [suites|e] eqn:Hl; [|discriminate].
  cbn [bind]. intros Hall.
  pose proof (kept_filter (Report_Display env) date_from date_to suites [])
    as Hf.
  cbn [filter] in Hf. rewrite Hf.
  set (reports := kept (Report_Display env) None None suites []) in *.
  assert (Hread : forall ts r, In (ts, r) reports -> readable r).
  { intros ts r Hin. apply (kept_readable env path _ suites None None ts r Hl Hin). }
  assert (Hread' : forall ts r,
            In (ts, r) (filter (fun p => in_rangeb date_from date_to (fst p))
                          reports) -> readable r).
  { intros ts r Hin. apply filter_In in Hin. apply (Hread ts r). tauto. }
  destruct requested as [ms|].
  - destruct (read_filtered_spec ms _ [] Hread') as (res & Hres & Hlk).
    destruct (read_filtered_spec ms _ [] Hread) as (res' & Hres' & Hlk').
    rewrite Hres' in Hall. injection Hall as <-.
    exists res. split; [exact Hres|]. intros m ts.
    rewrite Hlk, Hlk', hit_filter. unfold lookup. cbn [dict_get].
    destruct (existsb _ ms); destruct (in_rangeb date_from date_to ts);
      try reflexivity.
    all: destruct (hit reports m ts); reflexivity.
  - destruct (read_all_spec _ [] Hread') as (res & Hres & Hlk).
    destruct (read_all_spec _ [] Hread) as (res' & Hres' & Hlk').
    rewrite Hres' in Hall. injection Hall as <-.
    exists res. split; [exact Hres|]. intros m ts.
    rewrite Hlk, Hlk', hit_filter. unfold lookup. cbn [dict_get].
    destruct (in_rangeb date_from date_to ts); try reflexivity.
    all: destruct (hit reports m ts); reflexivity.
Qed.

Lemma load_metric_time_series_bounds_witness :
  exists every res,
    load_metric_time_series env "store" None None None = Ok every /\
    load_metric_time_series env "store" (Some 6%Z) None None = Ok res /\
    lookup every UnitA 5%Z = Some "0.2" /\
    lookup res UnitA 5%Z = None /\
    lookup res UnitB 9%Z = Some "0.9".
Proof.
  assert (Hall : load_metric_time_series env "store" None None None
                 = Ok [(UnitA, [(5%Z, "0.2")]);
                       (UnitB, [(5%Z, "0.7"); (9%Z, "0.9")])])
    by (vm_compute; reflexivity).
  destruct (load_metric_time_series_bounds env "store" (Some 6%Z) None None _ Hall)
    as (res & Hres & Hlk).
  eexists. exists res. split; [exact Hall|]. split; [exact Hres|].
  split; [reflexivity|]. split; rewrite Hlk; reflexivity.
Defined.

(* ------------------------------------------------------------------ *)
(** ** When the views can be rendered *)

Lemma renderable_iff (r : Report) :
  (forall o, In o (_first_level_metrics r) ->
     exists m, o = PyMetric m /\
       dict_get m (metric_results (context (_inner_suite r))) <> None) ->
  (renderable r = true <->
   forall m, In (PyMetric m) (_first_level_metrics r) ->
     dict_get (metric_type m) (renderers (context (_inner_suite r))) <> None).
Proof.
  intros Hfl. unfold renderable. rewrite forallb_forall. split.
  - intros Hall m Hm. specialize (Hall _ Hm). cbn in Hall.
    apply andb_true_iff in Hall. destruct Hall as [Hrd _].
    unfold dict_mem in Hrd. destruct (dict_get (metric_type m) _); congruence.
  - intros Hrd o Ho. destruct (Hfl o Ho) as (m & -> & Hres).
    specialize (Hrd m Ho). unfold dict_mem.
    destruct (dict_get (metric_type m) _); [|contradiction].
    destruct (dict_get m _); [reflexivity | contradiction].
Qed.

(** X21.  The views after a run.  After a normal run of a newly constructed
    Report every first-level unit has its Result, so the views ([as_dict],
    [as_pandas], the dashboard) meet their precondition exactly when the
    registry a Suite starts with has a renderer for the type of every
    first-level unit. *)
Theorem run_makes_renderable (env : Collaborators) (config : list pyobj)
    (options0 : option Options) (timestamp0 : option datetime)
    (id0 : option UUID) (metadata0 : option (dict string MetadataValueType))
    (tags0 : option (list string))
    (model_id reference_id batch_size dataset_id : option string)
    (reference : option DataFrame) (current : DataFrame)
    (mapping : option ColumnMapping) (r : Report) :
  run env reference (Some current) mapping
    (Report_init env config options0 timestamp0 id0 metadata0 tags0
       model_id reference_id batch_size dataset_id) = (Ok tt, r) ->
  (renderable r = true <->
   forall m, In (PyMetric m) (_first_level_metrics r) ->
     dict_get (metric_type m) (DEFAULT_RENDERERS env) <> None).
Proof.
  intros Hrun. apply run_settled in Hrun. destruct Hrun as (Hfl & Hres & Hrd).
  rewrite <- Hrd. apply renderable_iff.
  intros o Ho. destruct (Hfl o Ho) as (m & -> & Hm). exists m. auto.
Qed.

(** X22.  The views of a restored Report.  A Report restored from a snapshot
    holds the stored Result of every first-level unit, so its views meet
    their precondition exactly when the registry a Suite starts with has a
    renderer for the type of every first-level unit: nothing has to be run
    or computed again. *)
Theorem restored_is_renderable (env : Collaborators) (snapshot : Snapshot)
    (r : Report) :
  _parse_snapshot env snapshot = Ok r ->
  (renderable r = true <->
   forall m, In (PyMetric m) (_first_level_metrics r) ->
     dict_get (metric_type m) (DEFAULT_RENDERERS env) <> None).
Proof.
  intros Hparse. pose proof (parse_snapshot_readable env _ _ Hparse) as Hread.
  assert (Hrd : renderers (context (_inner_suite r)) = DEFAULT_RENDERERS env).
  { revert Hparse. unfold _parse_snapshot.
    destruct (map_result _ _); [|discriminate]. cbn [bind].
    intros [= <-]. reflexivity. }
  rewrite <- Hrd. apply renderable_iff.
  intros o Ho. destruct (Hread o Ho) as (m & v & -> & Hv). exists m.
  split; [reflexivity|]. unfold get_result in Hv.
  destruct (dict_get m _); [discriminate | discriminate].
Qed.

Lemma run_makes_renderable_witness :
  renderable completed_three = true <->
  forall m, In (PyMetric m) (_first_level_metrics completed_three) ->
    dict_get (metric_type m) (DEFAULT_RENDERERS env) <> None.
Proof.
  apply (run_makes_renderable env [PyMetric UnitA; PresetP]
           None None None None None None None None None None frame_a None
           completed_three).
  vm_compute. reflexivity.
Defined.

Lemma restored_is_renderable_witness :
  renderable report_two = true <->
  forall m, In (PyMetric m) (_first_level_metrics report_two) ->
    dict_get (metric_type m) (DEFAULT_RENDERERS env) <> None.
Proof.
  apply (restored_is_renderable env snapshot_two report_two).
  vm_compute. reflexivity.
Defined.

(* ------------------------------------------------------------------ *)
(** ** What a preset emits is not checked *)

(** X23.  An element of a preset that is not a unit.  Where [run] checks
    every element a generator of the configuration emits before it touches
    the first-level list, it appends what a preset emits as it comes.  When
    a preset emits units followed by an object that is not a unit, that
    object is appended to the first-level list, after the units emitted
    before it, and the run then fails where the object is registered with
    the Suite, with the [AttributeError] of the registration, not with the
    [ValueError] of the generator path; the metadata is as before. *)
Theorem run_preset_unchecked_element (env : Collaborators) (self : Report)
    (reference : option DataFrame) (current : DataFrame)
    (mapping : option ColumnMapping) (pre good : list Metric) (cls : string)
    (generate_metrics : InputData -> DatasetColumns -> list pyobj)
    (bad : pyobj) (rest post : list pyobj) :
  metrics self = map PyMetric pre ++ PyPreset cls generate_metrics :: post ->
  preset_metrics
    (generate_metrics (expansion_data env reference current mapping)
       (process_columns env current (or_else mapping [])))
    (process_columns env current (or_else mapping []))
    = map PyMetric good ++ bad :: rest ->
  (forall m, bad <> PyMetric m) ->
  exists self',
    run env reference (Some current) mapping self
      = (Raise (AttributeError "object has no attribute 'set_context'"), self') /\
    _first_level_metrics self'
      = _first_level_metrics self ++ map PyMetric (pre ++ good) ++ [bad] /\
    metadata self' = metadata self.
Proof.
  intros Hconf Hgen Hbad. rewrite run_present, Hconf, for_each_app.
  unfold bindR at 1. rewrite for_each_units by reflexivity.
  rewrite for_each_cons. cbn [run_item]. rewrite Hgen.
  unfold bindR at 1. unfold bindR at 1. rewrite for_each_app.
  unfold bindR at 1. rewrite for_each_units by reflexivity.
  rewrite for_each_cons.
  set (s2 := expand_units good
               (expand_units pre (prepared env current mapping self))).
  assert (Hfl : _first_level_metrics s2
                = _first_level_metrics self ++ map PyMetric (pre ++ good)).
  { unfold s2. rewrite !expand_units_first_level, map_app, app_assoc.
    reflexivity. }
  assert (Hmd : metadata s2 = metadata self).
  { unfold s2.
    destruct (expand_units_frame good
                (expand_units pre (prepared env current mapping self)))
      as (-> & _).
    destruct (expand_units_frame pre (prepared env current mapping self))
      as (-> & _). reflexivity. }
  destruct bad as [m|? ? ?|? ?|? ?];
    [exfalso; apply (Hbad m); reflexivity|..];
    (unfold append_first_level, modify, inner_add_metric; cbn [add_metric];
     eexists; split; [reflexivity|];
     cbn [_first_level_metrics with_first_level_metrics metadata];
     rewrite Hfl, Hmd, <- app_assoc; auto).
Qed.

Lemma run_preset_unchecked_element_witness :
  exists self',
    run env None (Some frame_a) None
      (fresh [PyMetric UnitA;
              PyPreset "Loose" (fun _ _ => [PyMetric UnitB; PyOther "str" "UnitC"])])
      = (Raise (AttributeError "object has no attribute 'set_context'"), self') /\
    _first_level_metrics self'
      = [] ++ map PyMetric ([UnitA] ++ [UnitB]) ++ [PyOther "str" "UnitC"] /\
    metadata self' = [].
Proof.
  apply (run_preset_unchecked_element env
           (fresh [PyMetric UnitA;
                   PyPreset "Loose"
                     (fun _ _ => [PyMetric UnitB; PyOther "str" "UnitC"])])
           None frame_a None [UnitA] [UnitB] "Loose"
           (fun _ _ => [PyMetric UnitB; PyOther "str" "UnitC"])
           (PyOther "str" "UnitC") [] []).
  - reflexivity.
  - reflexivity.
  - discriminate.
Defined.
